(** * The kanban board of ghost-pm-frontend: optimistic reorder and move

    A shallow embedding of the drag-and-drop logic of
    - [components/task-board.tsx]  (the [TaskBoard] component),
    - [components/project-settings/status-settings.tsx] ([StatusSettings]),
    - the two pages that own the state these components edit,
    together with the properties of the column order and of the grouping
    of cards into columns. *)

From Stdlib Require Import ZArith Ascii String List Lia Bool.
From stdpp Require Import base option list strings gmap fin_maps pretty.

Local Open Scope string_scope.
Local Open Scope list_scope.
Local Open Scope Z_scope.

(** ** JavaScript primitives used by the components *)

Module JS.

(** [a === b] on strings. *)
Definition seq (a b : string) : bool := String.eqb a b.

(** [s.startsWith(p)]. *)
Definition startsWith (s p : string) : bool := String.prefix p s.

(** [s.replace(pat, "")] with a string pattern: the first occurrence of
    [pat] is removed, and [s] is returned as it is when there is none. *)
Definition replace_first (s pat : string) : string :=
  match String.index 0 pat s with
  | Some i =>
      String.substring 0 i s +:+
      String.substring (i + String.length pat)
                       (String.length s - (i + String.length pat)) s
  | None => s
  end%nat.

(** Truthiness of a value of type [string | null | undefined]:
    [None] stands for both [null] and [undefined]. *)
Definition truthy (v : option string) : bool :=
  match v with
  | Some s => negb (seq s "")
  | None => false
  end.

(** [a || b] on such values. *)
Definition or_else (a b : option string) : option string :=
  if truthy a then a else b.

Section Arrays.
Context {A : Type}.

(** [arr.find(p)]. *)
Fixpoint find (p : A → bool) (arr : list A) : option A :=
  match arr with
  | [] => None
  | x :: rest => if p x then Some x else find p rest
  end.

(** [arr.findIndex(p)]: the first index whose element satisfies [p],
    [-1] when there is none. *)
Fixpoint findIndex_from (p : A → bool) (arr : list A) (i : Z) : Z :=
  match arr with
  | [] => -1
  | x :: rest => if p x then i else findIndex_from p rest (i + 1)
  end.

Definition findIndex (p : A → bool) (arr : list A) : Z :=
  findIndex_from p arr 0.

(** The start index of [splice] after its clamping: a negative [start]
    counts from the end. *)
Definition relativeStart (len start : Z) : Z :=
  if start <? 0 then Z.max (len + start) 0 else Z.min start len.

(** [arr.splice(start, deleteCount, ...items)]: the removed elements and
    the array after the call. *)
Definition splice (arr : list A) (start deleteCount : Z) (items : list A)
  : list A * list A :=
  let len := Z.of_nat (length arr) in
  let actualStart := relativeStart len start in
  let actualDeleteCount := Z.min (Z.max deleteCount 0) (len - actualStart) in
  (take (Z.to_nat actualDeleteCount) (drop (Z.to_nat actualStart) arr),
   take (Z.to_nat actualStart) arr ++ items ++
   drop (Z.to_nat (actualStart + actualDeleteCount)) arr).

(** [arrayMove] of @dnd-kit/sortable:
<<
    const newArray = array.slice();
    newArray.splice(to < 0 ? newArray.length + to : to, 0,
                    newArray.splice(from, 1)[0]);
    return newArray;
>>
    The first argument of the outer [splice] is evaluated before the
    inner [splice] runs, so it sees the length of the whole array.
    When the inner [splice] removes nothing, JavaScript inserts
    [undefined]; the result is then no array of [A] and is [None] here. *)
Definition arrayMove (array : list A) (from to : Z) : option (list A) :=
  let newArray := array in
  let target := if to <? 0 then Z.of_nat (length newArray) + to else to in
  let '(removed, newArray) := splice newArray from 1 [] in
  match removed with
  | x :: _ => Some (snd (splice newArray target 0 [x]))
  | [] => None
  end.
End Arrays.

End JS.

(** ** Data model ([lib/api]) *)

Inductive TaskStatus := TODO | IN_PROGRESS | IN_REVIEW | DONE.

(** [TaskPriority = 1 | 2 | 3 | 4]: urgent, high, medium, low. *)
Inductive TaskPriority := Urgent | High | Medium | Low.

Module ProjectStatus.
Record t := mk {
  id : string;
  projectId : string;
  name : string;
  slug : string;
  color : string;
  position : Z;
  isDone : Z;
  createdAt : string;
}.
End ProjectStatus.
Abbreviation ProjectStatus := ProjectStatus.t.

(** The optional fields hold [None] for [null] and for [undefined]. The
    [assignee] object and the two hour counts (floating point) play no
    part in the board and are left out. *)
Module Task.
Record t := mk {
  id : string;
  title : string;
  description : option string;
  status : TaskStatus;
  statusId : option string;
  priority : TaskPriority;
  projectId : string;
  assigneeId : option string;
  dueDate : option string;
  createdAt : string;
  updatedAt : string;
}.

(** [{ ...task, statusId }]. *)
Definition with_statusId (task : t) (v : option string) : t :=
  mk (id task) (title task) (description task) (status task) v
     (priority task) (projectId task) (assigneeId task) (dueDate task)
     (createdAt task) (updatedAt task).
End Task.
Abbreviation Task := Task.t.

#[global] Instance TaskStatus_eq_dec : EqDecision TaskStatus.
Proof. solve_decision. Defined.
#[global] Instance TaskPriority_eq_dec : EqDecision TaskPriority.
Proof. solve_decision. Defined.
#[global] Instance ProjectStatus_eq_dec : EqDecision ProjectStatus.
Proof. solve_decision. Defined.
#[global] Instance Task_eq_dec : EqDecision Task.
Proof. solve_decision. Defined.

(** ** [task-board.tsx]: constants *)

Definition DEFAULT_STATUSES : list ProjectStatus :=
  [ ProjectStatus.mk "todo" "" "TODO" "todo" "#6B7280" 0 0 "";
    ProjectStatus.mk "in_progress" "" "進行中" "in_progress" "#3B82F6" 1 0 "";
    ProjectStatus.mk "in_review" "" "レビュー中" "in_review" "#F59E0B" 2 0 "";
    ProjectStatus.mk "done" "" "完了" "done" "#10B981" 3 1 "" ].

Definition STATUS_SLUG_MAP (status : TaskStatus) : string :=
  match status with
  | TODO => "todo"
  | IN_PROGRESS => "in_progress"
  | IN_REVIEW => "in_review"
  | DONE => "done"
  end.

(** ** Event handlers as state transformers

    A handler runs on the state of the component and of the page above
    it, may change it, and leaves a trace of what it called outside:
    the backend, the browser, and the callbacks it got as props. A
    handler is stuck ([None]) where JavaScript would leave the declared
    types, which only [arrayMove] can do (see there). *)

Inductive Effect :=
  | OnStatusesReorder (statuses : list ProjectStatus)
  | OnStatusesUpdate (statuses : list ProjectStatus)
  | OnTaskUpdate (task : Task)
  | ReorderStatuses (projectId : string) (statusIds : list string)
  | UpdateTaskStatusById (taskId statusId : string)
  | ConsoleLog (message : string)
  | ConsoleError (message : string)
  | Alert (message : string).

#[global] Instance Effect_eq_dec : EqDecision Effect.
Proof. solve_decision. Defined.

(** The requests to the backend among the effects. *)
Definition is_request (e : Effect) : bool :=
  match e with
  | ReorderStatuses _ _ | UpdateTaskStatusById _ _ => true
  | _ => false
  end.

Definition Handler (S A : Type) : Type := S → option (A * S * list Effect).

#[global] Instance Handler_ret {S} : MRet (Handler S) :=
  λ A a s, Some (a, s, []).

#[global] Instance Handler_bind {S} : MBind (Handler S) :=
  λ A B f m s,
    match m s with
    | Some (a, s1, e1) =>
        match f a s1 with
        | Some (b, s2, e2) => Some (b, s2, e1 ++ e2)
        | None => None
        end
    | None => None
    end.

Section HandlerOps.
Context {S : Type}.

Definition get : Handler S S := λ s, Some (s, s, []).
Definition modify (f : S → S) : Handler S () := λ s, Some ((), f s, []).
Definition emit (e : Effect) : Handler S () := λ s, Some ((), s, [e]).
Definition stuck {A} : Handler S A := λ _, None.
Definition when (b : bool) (h : Handler S ()) : Handler S () :=
  if b then h else mret ().
End HandlerOps.

(** What an [await] on a backend call comes back with. [Rejected] carries
    the [message] of the error. *)
Inductive Outcome := Fulfilled | Rejected (message : string).

(** ** [task-board.tsx]: the [TaskBoard] component under [ProjectPage] *)

Module TaskBoard.
Import JS.

(** [activeType]: ["task" | "column"]. *)
Inductive DragType := TaskDrag | ColumnDrag.

#[global] Instance DragType_eq_dec : EqDecision DragType.
Proof. solve_decision. Defined.

(** [active.id] and [over?.id] of a drag event of @dnd-kit. *)
Record DragEvent := mkEvent {
  active : string;
  over : option string;
}.

(** The state a gesture works on: [tasks] and [statuses] are state of
    [ProjectPage] and reach the board as props, [onStatusesReorder] tells
    whether that optional prop is passed ([ProjectPage] does not pass it;
    a call of it is recorded in the trace), the rest is state of the
    board itself. The state of the detail dialog is left out. *)
Record Board := mkBoard {
  tasks : list Task;
  statuses : list ProjectStatus;
  onStatusesReorder : bool;
  localStatuses : list ProjectStatus;
  activeId : option string;
  activeType : option DragType;
  overColumnId : option string;
}.

#[global] Instance Board_eq_dec : EqDecision Board.
Proof. solve_decision. Defined.

Definition setTasks (f : list Task → list Task) : Handler Board () :=
  modify (λ b, mkBoard (f (tasks b)) (statuses b) (onStatusesReorder b)
                 (localStatuses b) (activeId b) (activeType b) (overColumnId b)).
Definition setLocalStatuses (v : list ProjectStatus) : Handler Board () :=
  modify (λ b, mkBoard (tasks b) (statuses b) (onStatusesReorder b)
                 v (activeId b) (activeType b) (overColumnId b)).
Definition setActiveId (v : option string) : Handler Board () :=
  modify (λ b, mkBoard (tasks b) (statuses b) (onStatusesReorder b)
                 (localStatuses b) v (activeType b) (overColumnId b)).
Definition setActiveType (v : option DragType) : Handler Board () :=
  modify (λ b, mkBoard (tasks b) (statuses b) (onStatusesReorder b)
                 (localStatuses b) (activeId b) v (overColumnId b)).
Definition setOverColumnId (v : option string) : Handler Board () :=
  modify (λ b, mkBoard (tasks b) (statuses b) (onStatusesReorder b)
                 (localStatuses b) (activeId b) (activeType b) v).

(** [handleTaskUpdate] of [ProjectPage], which the page passes to the
    board as [onTaskUpdate]. *)
Definition handleTaskUpdate (updatedTask : Task) (prev : list Task) : list Task :=
  map (λ t, if seq (Task.id t) (Task.id updatedTask) then updatedTask else t) prev.

Definition onTaskUpdate (task : Task) : Handler Board () :=
  emit (OnTaskUpdate task);; setTasks (handleTaskUpdate task).

(** The [columns] memo. *)
Definition columns_of (statuses localStatuses : list ProjectStatus)
  : list ProjectStatus :=
  let baseStatuses :=
    if (0 <? length statuses)%nat then statuses else DEFAULT_STATUSES in
  if (0 <? length localStatuses)%nat
     && bool_decide (ProjectStatus.projectId <$> head localStatuses
                     = ProjectStatus.projectId <$> head baseStatuses)
  then localStatuses
  else baseStatuses.

Definition columns (b : Board) : list ProjectStatus :=
  columns_of (statuses b) (localStatuses b).

(** The memo that copies a changed, non-empty [statuses] prop into
    [localStatuses]. *)
Definition syncLocalStatuses : Handler Board () :=
  b ← get;
  when (0 <? length (statuses b))%nat (setLocalStatuses (statuses b)).

(** The board as [ProjectPage] first renders it. *)
Definition mount (tasks : list Task) (statuses : list ProjectStatus) : Board :=
  let b := mkBoard tasks statuses false [] None None None in
  match syncLocalStatuses b with
  | Some (_, b', _) => b'
  | None => b
  end.

(** [columns.find((s) => s.slug === STATUS_SLUG_MAP[task.status])?.id] *)
Definition matchingStatusId (columns : list ProjectStatus) (task : Task)
  : option string :=
  let slug := STATUS_SLUG_MAP (Task.status task) in
  let matchingStatus := find (λ s, seq (ProjectStatus.slug s) slug) columns in
  ProjectStatus.id <$> matchingStatus.

(** *** The [tasksByStatusId] memo

    [result] is the object literal [{}] used as a map from column
    identifiers to arrays of cards. Its own properties are a finite map
    here. Like every object literal it inherits the members of
    [Object.prototype], so [result[key]] has a value for their names
    too. *)

(** The names of the members of [Object.prototype]. *)
Definition Object_prototype : list string :=
  ["constructor"; "hasOwnProperty"; "isPrototypeOf"; "propertyIsEnumerable";
   "toLocaleString"; "toString"; "valueOf"; "__proto__";
   "__defineGetter__"; "__defineSetter__"; "__lookupGetter__";
   "__lookupSetter__"].

(** The value of [result[key]]: an array the memo stored under [key]; or
    a member of [Object.prototype], which is a function (for [__proto__]
    the prototype itself), hence truthy and without a [push]; or
    [undefined]. *)
Inductive Property :=
  | Bucket (l : list Task)
  | Member
  | Undefined.

Definition property (result : gmap string (list Task)) (key : string) : Property :=
  match result !! key with
  | Some l => Bucket l
  | None => if bool_decide (key ∈ Object_prototype) then Member else Undefined
  end.

(** How a run of the memo ends: it returns [result]; or it throws the
    [TypeError] of calling a [push] that is not there, and the board is
    not rendered; or a column named [__proto__] has made an array the
    prototype of [result], after which [result] inherits what the
    [Array.prototype] of the engine holds, and the run is followed no
    further. *)
Inductive Memo :=
  | Returns (result : gmap string (list Task))
  | TypeError
  | PrototypeReplaced.

(** [arr.forEach(callback)] with [result] as the state of the loop; an
    exception ends it. *)
Fixpoint forEach {A} (callback : gmap string (list Task) → A → Memo)
    (arr : list A) (result : gmap string (list Task)) : Memo :=
  match arr with
  | [] => Returns result
  | x :: rest =>
      match callback result x with
      | Returns result => forEach callback rest result
      | TypeError => TypeError
      | PrototypeReplaced => PrototypeReplaced
      end
  end.

(** [result[key] = []]. Assigning to [__proto__] runs the setter of
    [Object.prototype] and adds no property. *)
Definition assign_empty (key : string) (result : gmap string (list Task)) : Memo :=
  if seq key "__proto__" then PrototypeReplaced
  else Returns (<[key := []]> result).

(** The array under [key] with [task] pushed; [alter] leaves [result] as
    it is when it has no such key. *)
Definition push (task : Task) (key : string) (result : gmap string (list Task))
  : gmap string (list Task) :=
  alter (λ l, l ++ [task]) key result.

(** The callback of [tasks.forEach] in the [tasksByStatusId] memo. *)
Definition fileTask (columns : list ProjectStatus)
    (result : gmap string (list Task)) (task : Task) : Memo :=
  let statusId := Task.statusId task in
  let statusId :=
    if negb (truthy statusId)
    then or_else (matchingStatusId columns task)
                 (ProjectStatus.id <$> head columns)
    else statusId in
  (* else if (columns[0]) result[columns[0].id]?.push(task) *)
  let first_column :=
    match head columns with
    | Some c0 =>
        match property result (ProjectStatus.id c0) with
        | Bucket _ => Returns (push task (ProjectStatus.id c0) result)
        | Member => TypeError
        | Undefined => Returns result
        end
    | None => Returns result
    end in
  (* if (statusId && result[statusId]) result[statusId]!.push(task) *)
  match statusId with
  | Some sid =>
      if truthy statusId then
        match property result sid with
        | Bucket _ => Returns (push task sid result)
        | Member => TypeError
        | Undefined => first_column
        end
      else first_column
  | None => first_column
  end.

(** The [tasksByStatusId] memo. *)
Definition tasksByStatusId (tasks : list Task) (columns : list ProjectStatus)
  : Memo :=
  match forEach (λ result status, assign_empty (ProjectStatus.id status) result)
                columns ∅ with
  | Returns result => forEach (fileTask columns) tasks result
  | TypeError => TypeError
  | PrototypeReplaced => PrototypeReplaced
  end.

(** The [statusId] of the card names a member of [Object.prototype] and
    no column. *)
Definition clashes (columns : list ProjectStatus) (task : Task) : bool :=
  match Task.statusId task with
  | Some sid =>
      bool_decide (sid ∈ Object_prototype)
      && negb (bool_decide (sid ∈ map ProjectStatus.id columns))
  | None => false
  end.

(** The effective column of a card: the key [fileTask] files it under
    once [result] has a key for every column, that is its [statusId],
    else the column whose slug matches its legacy status, else the first
    column; and the first column again when the identifier so found is
    no column of the board. *)
Definition effectiveColumn (columns : list ProjectStatus) (task : Task)
  : option string :=
  let statusId := Task.statusId task in
  let statusId :=
    if negb (truthy statusId)
    then or_else (matchingStatusId columns task)
                 (ProjectStatus.id <$> head columns)
    else statusId in
  match statusId with
  | Some sid =>
      if truthy statusId && bool_decide (sid ∈ map ProjectStatus.id columns)
      then Some sid
      else ProjectStatus.id <$> head columns
  | None => ProjectStatus.id <$> head columns
  end.

(** [result] has a bucket for every column, and no other. *)
Definition keyed (result : gmap string (list Task)) (columns : list ProjectStatus)
  : Prop :=
  ∀ k, is_Some (result !! k) ↔ k ∈ map ProjectStatus.id columns.

(** The cards of all buckets of [result], laid end to end. *)
Definition cards (result : gmap string (list Task)) : list Task :=
  concat (snd <$> map_to_list result).

(** [tasksByStatusId[status.id] || []]: the cards a column is drawn with. *)
Definition columnTasks (result : gmap string (list Task)) (status : ProjectStatus)
  : list Task :=
  default [] (result !! ProjectStatus.id status).

(** The column a drag handler takes a card to be in: its [statusId], else
    the column whose slug matches its legacy status, else [null]. The
    handlers write this out three times (for the card under the pointer
    in [handleDragOver], for the card dropped on and for the card dragged
    in [handleDragEnd]). *)
Definition resolvedStatusId (columns : list ProjectStatus) (task : Task)
  : option string :=
  let statusId := Task.statusId task in
  if negb (truthy statusId)
  then or_else (matchingStatusId columns task) None
  else statusId.

Definition handleDragStart (event : DragEvent) : Handler Board () :=
  setActiveId (Some (active event));;
  if startsWith (active event) "column-"
  then setActiveType (Some ColumnDrag)
  else setActiveType (Some TaskDrag).

Definition handleDragOver (event : DragEvent) : Handler Board () :=
  render ← get;
  match over event with
  | None => setOverColumnId None
  | Some over =>
      if startsWith over "droppable-" then
        setOverColumnId (Some (replace_first over "droppable-"))
      else if startsWith over "column-" then
        setOverColumnId (Some (replace_first over "column-"))
      else
        match find (λ t, seq (Task.id t) over) (tasks render) with
        | Some overTask =>
            setOverColumnId (resolvedStatusId (columns render) overTask)
        | None => mret ()
        end
  end.

(** [targetStatusId] of [handleDragEnd]: the column a card is dropped
    on, from the identifier of what lies under the pointer. *)
Definition dropTarget (tasks : list Task) (columns : list ProjectStatus)
    (over : string) : option string :=
  if startsWith over "droppable-" then
    Some (replace_first over "droppable-")
  else if startsWith over "column-" then
    Some (replace_first over "column-")
  else
    match find (λ t, seq (Task.id t) over) tasks with
    | Some overTask => resolvedStatusId columns overTask
    | None => None
    end.

(** What a suspended [handleDragEnd] still holds when its request comes
    back: the [columns] it started from, or the card as it was. *)
Inductive Pending :=
  | AwaitReorderStatuses (columns : list ProjectStatus)
  | AwaitUpdateTaskStatus (task : Task).

(** [handleDragEnd] up to its [await]. The handler reads [columns],
    [tasks] and [activeType] as they were rendered, so the three resets
    at its start do not change what it sees. *)
Definition handleDragEnd (event : DragEvent) : Handler Board (option Pending) :=
  render ← get;
  let columns := columns render in
  let tasks := tasks render in
  setActiveId None;;
  setActiveType None;;
  setOverColumnId None;;
  match over event with
  | None => mret None
  | Some over =>
    if startsWith (active event) "column-" && startsWith over "column-" then
      let activeColumnId := replace_first (active event) "column-" in
      let overColumnId := replace_first over "column-" in
      if negb (seq activeColumnId overColumnId) then
        let oldIndex :=
          findIndex (λ c, seq (ProjectStatus.id c) activeColumnId) columns in
        let newIndex :=
          findIndex (λ c, seq (ProjectStatus.id c) overColumnId) columns in
        if negb (oldIndex =? -1) && negb (newIndex =? -1) then
          match arrayMove columns oldIndex newIndex with
          | Some newColumns =>
              setLocalStatuses newColumns;;
              when (onStatusesReorder render)
                   (emit (OnStatusesReorder newColumns));;
              let projectId := ProjectStatus.projectId <$> head columns in
              match projectId with
              | Some pid =>
                  if truthy projectId && negb (seq pid "") then
                    emit (ConsoleLog "[reorder] Calling API with:");;
                    emit (ReorderStatuses pid (map ProjectStatus.id newColumns));;
                    mret (Some (AwaitReorderStatuses columns))
                  else mret None
              | None => mret None
              end
          | None => stuck
          end
        else mret None
      else mret None
    else if bool_decide (activeType render = Some TaskDrag) then
      let taskId := active event in
      match find (λ t, seq (Task.id t) taskId) tasks with
      | None => mret None
      | Some task =>
          let targetStatusId := dropTarget tasks columns over in
          let currentStatusId := resolvedStatusId columns task in
          match targetStatusId with
          | Some target =>
              if truthy targetStatusId
                 && negb (bool_decide (targetStatusId = currentStatusId)) then
                onTaskUpdate (Task.with_statusId task targetStatusId);;
                emit (UpdateTaskStatusById taskId target);;
                mret (Some (AwaitUpdateTaskStatus task))
              else mret None
          | None => mret None
          end
      end
    else mret None
  end.

(** The rest of [handleDragEnd], run when the request comes back. *)
Definition settle (p : Pending) (o : Outcome) : Handler Board () :=
  match o with
  | Fulfilled => mret ()
  | Rejected message =>
      match p with
      | AwaitReorderStatuses columns =>
          emit (ConsoleError "Failed to reorder statuses:");;
          emit (Alert ("ステータス並び替えエラー: " +:+
                       (if truthy (Some message) then message
                        else "不明なエラー")));;
          setLocalStatuses columns
      | AwaitUpdateTaskStatus task =>
          emit (ConsoleError "Failed to update task status:");;
          onTaskUpdate task
      end
  end.

(** The board once a gesture has ended: the drag state is cleared. *)
Definition dropped (b : Board) (tasks' : list Task) (local' : list ProjectStatus)
  : Board :=
  mkBoard tasks' (statuses b) (onStatusesReorder b) local' None None None.

End TaskBoard.

(** ** [status-settings.tsx]: [StatusSettings] under [ProjectSettingsPage] *)

Module StatusSettings.
Import JS.

Record DragEvent := mkEvent {
  active : string;
  over : option string;
}.

(** [statuses] is state of the page and [projectId] the identifier of its
    project, both passed as props; [error] is state of the component. The
    state of the edit and create forms is left out. *)
Record Settings := mkSettings {
  projectId : string;
  statuses : list ProjectStatus;
  error : option string;
}.

#[global] Instance Settings_eq_dec : EqDecision Settings.
Proof. solve_decision. Defined.

Definition setError (v : option string) : Handler Settings () :=
  modify (λ s, mkSettings (projectId s) (statuses s) v).

(** [handleStatusesUpdate] of the page, passed as [onStatusesUpdate]. *)
Definition onStatusesUpdate (updatedStatuses : list ProjectStatus)
  : Handler Settings () :=
  emit (OnStatusesUpdate updatedStatuses);;
  modify (λ s, mkSettings (projectId s) updatedStatuses (error s)).

Inductive Pending :=
  | AwaitReorderStatuses (statuses : list ProjectStatus).

(** [handleDragEnd] up to its [await]. *)
Definition handleDragEnd (event : DragEvent) : Handler Settings (option Pending) :=
  render ← get;
  let statuses := statuses render in
  match over event with
  | Some over =>
      if negb (seq (active event) over) then
        let oldIndex :=
          findIndex (λ s, seq (ProjectStatus.id s) (active event)) statuses in
        let newIndex :=
          findIndex (λ s, seq (ProjectStatus.id s) over) statuses in
        match arrayMove statuses oldIndex newIndex with
        | Some newStatuses =>
            onStatusesUpdate newStatuses;;
            setError None;;
            let statusIds := map ProjectStatus.id newStatuses in
            emit (ReorderStatuses (projectId render) statusIds);;
            mret (Some (AwaitReorderStatuses statuses))
        | None => stuck
        end
      else mret None
  | None => mret None
  end.

(** The rest of [handleDragEnd], run when the request comes back. *)
Definition settle (p : Pending) (o : Outcome) : Handler Settings () :=
  match o with
  | Fulfilled => mret ()
  | Rejected _ =>
      match p with
      | AwaitReorderStatuses statuses =>
          emit (ConsoleError "Failed to reorder statuses:");;
          setError (Some "ステータスの並び替えに失敗しました");;
          onStatusesUpdate statuses
      end
  end.

End StatusSettings.

(** ** The single-element move of the specification

    Its words: remove the element at the source and reinsert it at the
    destination, keeping the relative order of all other elements. It is
    compared with [arrayMove] below. *)

Section ListMove.
Context {A : Type}.

Fixpoint insert_at (n : nat) (x : A) (l : list A) : list A :=
  match n, l with
  | O, _ => x :: l
  | S n', y :: l' => y :: insert_at n' x l'
  | S _, [] => [x]
  end.

Definition list_move (l : list A) (s d : nat) : option (list A) :=
  match l !! s with
  | Some x => Some (insert_at d x (delete s l))
  | None => None
  end.
End ListMove.

(** ** [ProjectPage] and the rest of [TaskBoard] *)

Module ProjectPage.
Import JS TaskBoard.

(** [handleTaskCreate]: [setTasks((prev) => [...prev, task])]. *)
Definition handleTaskCreate (task : Task) (prev : list Task) : list Task :=
  prev ++ [task].

(** [handleTaskDelete]: [setTasks((prev) => prev.filter((t) => t.id !== taskId))]. *)
Definition handleTaskDelete (taskId : string) (prev : list Task) : list Task :=
  List.filter (λ t, negb (seq (Task.id t) taskId)) prev.

(** [fetchData], from the answers of the backend on: the page stores
    [tasksData] and [statusesData] and stops loading. While it loads the
    page draws a spinner in place of the board, so the board is mounted
    anew with what was fetched and keeps nothing of an earlier board. *)
Definition fetchData (tasksData : list Task) (statusesData : list ProjectStatus)
  : Board :=
  mount tasksData statusesData.

(** The [activeTask] memo: the card drawn in the drag overlay. *)
Definition activeTask (b : Board) : option Task :=
  if negb (bool_decide (activeType b = Some TaskDrag)) || negb (truthy (activeId b))
  then None
  else
    match activeId b with
    | Some activeId => find (λ t, seq (Task.id t) activeId) (tasks b)
    | None => None
    end.

(** The [activeColumn] memo: the column drawn in the drag overlay. *)
Definition activeColumn (b : Board) : option ProjectStatus :=
  if negb (bool_decide (activeType b = Some ColumnDrag)) || negb (truthy (activeId b))
  then None
  else
    match activeId b with
    | Some activeId =>
        let columnId := replace_first activeId "column-" in
        find (λ c, seq (ProjectStatus.id c) columnId) (columns b)
    | None => None
    end.

End ProjectPage.

(** ** The forms of [StatusSettings] *)

Module StatusForms.
Import JS StatusSettings.

(** [[a-z0-9]]. *)
Definition is_lower_alnum (c : ascii) : bool :=
  let n := Ascii.nat_of_ascii c in
  ((97 <=? n) && (n <=? 122) || (48 <=? n) && (n <=? 57))%nat.

(** The letters A to Z lowered, every other byte kept. *)
Definition lower_char (c : ascii) : ascii :=
  let n := Ascii.nat_of_ascii c in
  if ((65 <=? n) && (n <=? 90))%nat then Ascii.ascii_of_nat (n + 32) else c.

(** [toLowerCase]. A string is the sequence of bytes of its UTF-8 form.
    The letters A to Z are lowered. Two characters outside ASCII have a
    lower case with ASCII letters in it: U+0130 (bytes 196 176) becomes
    [i] followed by U+0307 (bytes 204 135), and the Kelvin sign U+212A
    (bytes 226 132 170) becomes [k]. Every other character outside ASCII
    is kept as it is; JavaScript may give another character there, which
    is outside ASCII as well, so that the pattern [[^a-z0-9]] which
    [handleCreate] applies next sees the same. *)
Fixpoint toLowerCase (s : string) : string :=
  match s with
  | EmptyString => EmptyString
  | String "196" (String "176" rest) =>
      String "i" (String "204" (String "135" (toLowerCase rest)))
  | String "226" (String "132" (String "170" rest)) =>
      String "k" (toLowerCase rest)
  | String c rest => String (lower_char c) (toLowerCase rest)
  end.

(** [s.replace(/[^a-z0-9]+/g, "_")]: every maximal run of characters
    outside [a-z0-9] becomes one underscore. [in_run] tells that the run
    at hand has its underscore already. *)
Fixpoint replace_runs (in_run : bool) (s : string) : string :=
  match s with
  | EmptyString => EmptyString
  | String c rest =>
      if is_lower_alnum c then String c (replace_runs false rest)
      else if in_run then replace_runs true rest
      else String "_" (replace_runs true rest)
  end.

(** The last character removed when it is an underscore. *)
Fixpoint strip_last_underscore (s : string) : string :=
  match s with
  | EmptyString => EmptyString
  | String c EmptyString => if Ascii.eqb c "_" then EmptyString else s
  | String c rest => String c (strip_last_underscore rest)
  end.

(** [s.replace(/^_|_$/g, "")]: an underscore at the start is removed, and
    one at the end of what is left. *)
Definition strip_edges (s : string) : string :=
  strip_last_underscore
    match s with
    | String c rest => if Ascii.eqb c "_" then rest else s
    | EmptyString => s
    end.

(** The [slug] that [handleCreate] derives from the name of a status. *)
Definition slugify (name : string) : string :=
  strip_edges (replace_runs false (toLowerCase name)).

(** Predicates on slugs. [slug_chars]: only [a-z0-9_]. *)
Fixpoint slug_chars (s : string) : bool :=
  match s with
  | EmptyString => true
  | String c rest => (is_lower_alnum c || Ascii.eqb c "_") && slug_chars rest
  end.

(** Some character is in [a-z0-9]. *)
Fixpoint has_alnum (s : string) : bool :=
  match s with
  | EmptyString => false
  | String c rest => is_lower_alnum c || has_alnum rest
  end.

(** Only [a-z0-9_] and no underscore next to an underscore;
    [after_underscore] forbids one at the start. *)
Fixpoint runs_ok (after_underscore : bool) (s : string) : bool :=
  match s with
  | EmptyString => true
  | String c rest =>
      if is_lower_alnum c then runs_ok false rest
      else Ascii.eqb c "_" && negb after_underscore && runs_ok true rest
  end.

(** [runs_ok], and no underscore at the end. *)
Fixpoint slug_normal_from (after_underscore : bool) (s : string) : bool :=
  match s with
  | EmptyString => true
  | String c rest =>
      if is_lower_alnum c then slug_normal_from false rest
      else Ascii.eqb c "_" && negb after_underscore
           && negb (String.eqb rest "") && slug_normal_from true rest
  end.

(** The [newStatus] form. *)
Record NewStatus := mkNewStatus {
  new_name : string;
  new_color : string;
  new_isDone : bool;
}.

(** The body of the [createStatus] request. *)
Record CreateStatusData := mkCreate {
  create_name : string;
  create_slug : string;
  create_color : string;
  create_isDone : Z;
  create_position : Z;
}.

(** The argument [handleCreate] passes to [api.createStatus]; [now] is
    the value of [Date.now()]. *)
Definition createStatusData (newStatus : NewStatus)
    (statuses : list ProjectStatus) (now : N) : CreateStatusData :=
  let slug := slugify (new_name newStatus) in
  mkCreate (new_name newStatus)
           (if truthy (Some slug) then slug else "status_" +:+ pretty now)
           (new_color newStatus)
           (if new_isDone newStatus then 1 else 0)
           (Z.of_nat (length statuses)).

(** [[...statuses, created]]: the list [handleCreate] hands to the page
    when the backend answered with [created]. *)
Definition created_statuses (statuses : list ProjectStatus) (created : ProjectStatus)
  : list ProjectStatus :=
  statuses ++ [created].

(** [editingStatus]. *)
Record EditingStatus := mkEditing {
  edit_id : string;
  edit_name : string;
  edit_color : string;
  edit_isDone : bool;
}.

(** The page state with the edit form of the component. *)
Record Forms := mkForms {
  page : Settings;
  editingStatus : option EditingStatus;
}.

(** What the form handlers call outside. *)
Inductive Call :=
  | UpdateStatus (projectId statusId name color : string) (isDone : Z)
  | DeleteStatus (projectId statusId : string)
  | Confirm (message : string)
  | StatusesUpdate (statuses : list ProjectStatus)
  | LogError (message : string).

(** What a suspended form handler still holds: the [statuses] it was
    rendered with and what it works on. *)
Inductive Awaiting :=
  | AwaitUpdateStatus (statuses : list ProjectStatus) (editing : EditingStatus)
  | AwaitDeleteStatus (statuses : list ProjectStatus) (statusId : string).

(** The answer of the backend: for an update the status as saved. *)
Inductive Reply :=
  | Updated (status : ProjectStatus)
  | Deleted
  | Failed.

(** [handleEdit]. *)
Definition handleEdit (status : ProjectStatus) (f : Forms) : Forms :=
  mkForms (page f)
          (Some (mkEditing (ProjectStatus.id status) (ProjectStatus.name status)
                           (ProjectStatus.color status)
                           (ProjectStatus.isDone status =? 1))).

(** [handleCancelEdit]. *)
Definition handleCancelEdit (f : Forms) : Forms := mkForms (page f) None.

Definition with_error (st : Settings) (v : option string) : Settings :=
  mkSettings (projectId st) (statuses st) v.

Definition with_statuses (st : Settings) (v : list ProjectStatus) : Settings :=
  mkSettings (projectId st) v (error st).

(** [handleSaveEdit] up to its [await]. *)
Definition handleSaveEdit (f : Forms) : Forms * list Call * option Awaiting :=
  match editingStatus f with
  | None => (f, [], None)
  | Some editing =>
      (mkForms (with_error (page f) None) (editingStatus f),
       [UpdateStatus (projectId (page f)) (edit_id editing) (edit_name editing)
                     (edit_color editing) (if edit_isDone editing then 1 else 0)],
       Some (AwaitUpdateStatus (statuses (page f)) editing))
  end.

(** [canDelete]: the delete button of a row is enabled. *)
Definition canDelete (st : Settings) : bool := (1 <? length (statuses st))%nat.

(** [handleDelete] up to its [await]; [confirmed] is the answer to the
    [confirm] dialog, which is asked only for a status of the list. *)
Definition handleDelete (statusId : string) (confirmed : bool) (f : Forms)
  : Forms * list Call * option Awaiting :=
  match find (λ s, seq (ProjectStatus.id s) statusId) (statuses (page f)) with
  | None => (f, [], None)
  | Some status =>
      let question :=
        Confirm ("「" +:+ ProjectStatus.name status +:+
                 "」を削除しますか？このステータスのタスクは最初のステータスに移動されます。") in
      if negb confirmed then (f, [question], None)
      else
        (mkForms (with_error (page f) None) (editingStatus f),
         [question; DeleteStatus (projectId (page f)) statusId],
         Some (AwaitDeleteStatus (statuses (page f)) statusId))
  end.

(** The rest of [handleSaveEdit] and of [handleDelete], run when the
    request comes back. A reply of the wrong kind cannot come; it is
    handled like a failure. *)
Definition settle_form (a : Awaiting) (r : Reply) (f : Forms) : Forms * list Call :=
  match a, r with
  | AwaitUpdateStatus statuses editing, Updated updated =>
      let next :=
        map (λ s, if seq (ProjectStatus.id s) (edit_id editing) then updated else s)
            statuses in
      (mkForms (with_statuses (page f) next) None, [StatusesUpdate next])
  | AwaitDeleteStatus statuses statusId, Deleted =>
      let next :=
        List.filter (λ s, negb (seq (ProjectStatus.id s) statusId)) statuses in
      (mkForms (with_statuses (page f) next) (editingStatus f),
       [StatusesUpdate next])
  | AwaitUpdateStatus _ _, _ =>
      (mkForms (with_error (page f) (Some "ステータスの更新に失敗しました"))
               (editingStatus f),
       [LogError "Failed to update status:"])
  | AwaitDeleteStatus _ _, _ =>
      (mkForms (with_error (page f) (Some "ステータスの削除に失敗しました"))
               (editingStatus f),
       [LogError "Failed to delete status:"])
  end.

End StatusForms.

(** ** Sample boards

    A project [p1] with the columns todo, in progress and done, the same
    project with a review column, and a few cards. *)

Module Samples.
Import TaskBoard.

Definition column (id slug : string) (position isDone : Z) : ProjectStatus :=
  ProjectStatus.mk id "p1" slug slug "#6B7280" position isDone "".

Definition col_todo : ProjectStatus := column "s-todo" "todo" 0 0.
Definition col_in_progress : ProjectStatus := column "s-doing" "in_progress" 1 0.
Definition col_in_review : ProjectStatus := column "s-review" "in_review" 2 0.
Definition col_done : ProjectStatus := column "s-done" "done" 3 1.

Definition three_columns : list ProjectStatus := [col_todo; col_in_progress; col_done].
Definition four_columns : list ProjectStatus := [col_todo; col_in_progress; col_in_review; col_done].

Definition card (id : string) (status : TaskStatus) (statusId : option string)
  : Task :=
  Task.mk id id None status statusId Medium "p1" None None "" "".

(** A card of the old kind: no column identifier, legacy status in review. *)
Definition legacy_card : Task := card "t-legacy" IN_REVIEW None.
Definition todo_card : Task := card "t-1" TODO (Some "s-todo").
Definition done_card : Task := card "t-2" DONE (Some "s-done").

Definition sample_tasks : list Task := [todo_card; legacy_card; done_card].

(** The board of [p1] after a card was picked up. *)
Definition dragging_card (taskId : string) : Board :=
  mkBoard sample_tasks three_columns false three_columns
          (Some taskId) (Some TaskDrag) None.

(** The board of [p1] after a column was picked up. *)
Definition dragging_column (columns : list ProjectStatus) (columnId : string)
  : Board :=
  mkBoard sample_tasks columns false columns
          (Some ("column-" +:+ columnId)) (Some ColumnDrag) None.

(** The same board with the columns in another order, the gesture over. *)
Definition reordered (columns : list ProjectStatus) : Board :=
  mkBoard sample_tasks three_columns false columns None None None.

(** The board of a project without statuses, before any gesture. *)
Definition default_board : Board := mount sample_tasks [].

Definition settings : StatusSettings.Settings :=
  StatusSettings.mkSettings "p1" four_columns None.
End Samples.

(** * Properties *)

(** ** Strings and arrays *)

Section JSFacts.
Import JS.

Lemma substring_all (s : string) :
  String.substring 0 (String.length s) s = s.
Proof. induction s as [|c s IH]; simpl; [done | by rewrite IH]. Qed.

Lemma seq_true (a b : string) : seq a b = true ↔ a = b.
Proof. apply String.eqb_eq. Qed.

Lemma seq_false (a b : string) : seq a b = false ↔ a ≠ b.
Proof. apply String.eqb_neq. Qed.

Lemma seq_refl (a : string) : seq a a = true.
Proof. by apply seq_true. Qed.

Lemma prefix_append (p a : string) : String.prefix p (p +:+ a) = true.
Proof.
  induction p as [|c p IH]; simpl; [by destruct a|].
  by destruct (Ascii.ascii_dec c c).
Qed.

Lemma index_prefix (p s : string) :
  String.prefix p s = true → String.index 0 p s = Some O.
Proof.
  destruct s as [|c s]; simpl.
  - by destruct p.
  - destruct p as [|c' p]; [done|]. by intros ->.
Qed.

Lemma substring_append (p a : string) (n : nat) :
  String.substring (String.length p) n (p +:+ a) = String.substring 0 n a.
Proof. induction p as [|c p IH]; simpl; done. Qed.

Lemma substring_empty (s : string) : String.substring 0 0 s = "".
Proof. by destruct s. Qed.

Lemma length_append (p a : string) :
  String.length (p +:+ a) = (String.length p + String.length a)%nat.
Proof. induction p as [|c p IH]; simpl; [done | by rewrite IH]. Qed.

(** Under the [startsWith] test of the handlers, [replace] strips the
    prefix. *)
Lemma startsWith_append (p a : string) : startsWith (p +:+ a) p = true.
Proof. apply prefix_append. Qed.

Lemma replace_first_append (p a : string) : replace_first (p +:+ a) p = a.
Proof.
  unfold replace_first. rewrite index_prefix by apply prefix_append.
  rewrite substring_empty, length_append. simpl.
  replace (String.length p + String.length a - String.length p)%nat
    with (String.length a) by lia.
  rewrite substring_append. apply substring_all.
Qed.

Context {A : Type}.
Implicit Types (l : list A) (p : A → bool).

Lemma findIndex_from_spec p l (i : Z) :
  0 ≤ i →
  (findIndex_from p l i = -1 ∧ Forall (λ x, p x = false) l)
  ∨ (∃ (n : nat) x, findIndex_from p l i = i + Z.of_nat n
      ∧ l !! n = Some x ∧ p x = true
      ∧ Forall (λ y, p y = false) (take n l)).
Proof.
  revert i; induction l as [|x l IH]; intros i Hi; simpl.
  - by left.
  - destruct (p x) eqn:Hx.
    + right. exists O, x. simpl. repeat split; auto with lia.
    + destruct (IH (i + 1)) as [(E & Hall) | (n & y & E & Hn & Hy & Hall)]; [lia | |].
      * left. split; auto.
      * right. exists (S n), y. simpl. repeat split; auto with lia.
Qed.

(** [findIndex] answers [-1] or a valid index of a matching element. *)
Lemma findIndex_spec p l :
  findIndex p l = -1 ∧ Forall (λ x, p x = false) l
  ∨ ∃ (n : nat) x, findIndex p l = Z.of_nat n ∧ l !! n = Some x ∧ p x = true
      ∧ Forall (λ y, p y = false) (take n l).
Proof.
  unfold findIndex.
  destruct (findIndex_from_spec p l 0) as [(E & H) | (n & x & E & H)];
    [lia | by left | right].
  exists n, x. by rewrite E.
Qed.

Lemma findIndex_found p l (n : nat) :
  findIndex p l = Z.of_nat n → ∃ x, l !! n = Some x ∧ p x = true.
Proof.
  intros E. destruct (findIndex_spec p l) as [[E' _] | (m & x & E' & Hm & Hx & _)].
  - lia.
  - assert (m = n) as -> by lia. eauto.
Qed.

Lemma findIndex_range p l : findIndex p l = -1 ∨ 0 ≤ findIndex p l < Z.of_nat (length l).
Proof.
  destruct (findIndex_spec p l) as [[E _] | (m & x & E & Hm & _)]; [by left | right].
  apply lookup_lt_Some in Hm. lia.
Qed.
End JSFacts.

(** ** [arrayMove] against the single-element move *)

Section ArrayMove.
Import JS.
Context {A : Type}.
Implicit Types (l : list A) (x : A) (s d : nat).

Lemma insert_at_take_drop d x l :
  (d ≤ length l)%nat → insert_at d x l = take d l ++ x :: drop d l.
Proof.
  revert l; induction d as [|d IH]; intros [|y l] Hd; simpl in *;
    try done; try lia.
  f_equal. apply IH. lia.
Qed.

Lemma length_insert_at d x l : length (insert_at d x l) = S (length l).
Proof.
  revert l; induction d as [|d IH]; intros [|y l]; simpl; try done.
  by rewrite IH.
Qed.

Lemma lookup_insert_at d x l :
  (d ≤ length l)%nat → insert_at d x l !! d = Some x.
Proof.
  revert l; induction d as [|d IH]; intros [|y l] Hd; simpl in *;
    try done; try lia.
  apply IH. lia.
Qed.

Lemma delete_insert_at d x l :
  (d ≤ length l)%nat → delete d (insert_at d x l) = l.
Proof.
  revert l; induction d as [|d IH]; intros [|y l] Hd; simpl in *;
    try done; try lia.
  f_equal. apply IH. lia.
Qed.

Lemma insert_at_delete s x l :
  l !! s = Some x → insert_at s x (delete s l) = l.
Proof.
  revert l; induction s as [|s IH]; intros [|y l] Hs; simpl in *; try done.
  - by inversion Hs.
  - destruct l as [|z l]; [done|]. simpl. f_equal. by apply (IH (z :: l)).
Qed.

Lemma splice_remove_one l s x :
  l !! s = Some x → splice l (Z.of_nat s) 1 [] = ([x], delete s l).
Proof.
  intros Hs. pose proof (lookup_lt_Some _ _ _ Hs) as Hlt.
  unfold splice, relativeStart; cbv zeta.
  replace (Z.of_nat s <? 0) with false by (symmetry; apply Z.ltb_ge; lia).
  replace (Z.min (Z.of_nat s) (Z.of_nat (length l))) with (Z.of_nat s) by lia.
  replace (Z.min (Z.max 1 0) (Z.of_nat (length l) - Z.of_nat s)) with 1 by lia.
  rewrite Nat2Z.id.
  replace (Z.to_nat (Z.of_nat s + 1)) with (S s) by lia.
  replace (Z.to_nat 1) with 1%nat by lia.
  rewrite delete_take_drop. f_equal.
  rewrite (drop_S _ _ _ Hs). done.
Qed.

Lemma splice_insert_one l d x :
  (d ≤ length l)%nat →
  splice l (Z.of_nat d) 0 [x] = ([], insert_at d x l).
Proof.
  intros Hd. unfold splice, relativeStart; cbv zeta.
  replace (Z.of_nat d <? 0) with false by (symmetry; apply Z.ltb_ge; lia).
  replace (Z.min (Z.of_nat d) (Z.of_nat (length l))) with (Z.of_nat d) by lia.
  replace (Z.min (Z.max 0 0) (Z.of_nat (length l) - Z.of_nat d)) with 0 by lia.
  rewrite Z.add_0_r, Nat2Z.id. simpl.
  by rewrite insert_at_take_drop.
Qed.

(** On valid indices [arrayMove] is the move of the specification. *)
Lemma arrayMove_valid l s d x :
  l !! s = Some x → (d < length l)%nat →
  arrayMove l (Z.of_nat s) (Z.of_nat d) = Some (insert_at d x (delete s l)).
Proof.
  intros Hs Hd. pose proof (lookup_lt_Some _ _ _ Hs) as Hlt.
  unfold arrayMove.
  replace (Z.of_nat d <? 0) with false by (symmetry; apply Z.ltb_ge; lia).
  rewrite (splice_remove_one _ _ _ Hs).
  rewrite splice_insert_one; [done|].
  rewrite length_delete by eauto. lia.
Qed.

Lemma arrayMove_list_move l s d :
  (s < length l)%nat → (d < length l)%nat →
  arrayMove l (Z.of_nat s) (Z.of_nat d) = list_move l s d.
Proof.
  intros Hs Hd. destruct (lookup_lt_is_Some_2 l s Hs) as [x Hx].
  unfold list_move. rewrite Hx. by apply arrayMove_valid.
Qed.

Lemma arrayMove_is_Some l s d :
  (s < length l)%nat → (d < length l)%nat →
  is_Some (arrayMove l (Z.of_nat s) (Z.of_nat d)).
Proof.
  intros Hs Hd. destruct (lookup_lt_is_Some_2 l s Hs) as [x Hx].
  rewrite (arrayMove_valid _ _ _ _ Hx Hd). eauto.
Qed.

(** Moving back from the position the element arrived at. *)
Lemma arrayMove_inverse l s d new :
  (s < length l)%nat → (d < length l)%nat →
  arrayMove l (Z.of_nat s) (Z.of_nat d) = Some new →
  arrayMove new (Z.of_nat d) (Z.of_nat s) = Some l.
Proof.
  intros Hs Hd. destruct (lookup_lt_is_Some_2 l s Hs) as [x Hx].
  rewrite (arrayMove_valid _ _ _ _ Hx Hd). intros [= <-].
  assert (d ≤ length (delete s l))%nat as Hd'
    by (rewrite length_delete by eauto; lia).
  rewrite (arrayMove_valid _ d s x).
  - by rewrite delete_insert_at, insert_at_delete.
  - by apply lookup_insert_at.
  - rewrite length_insert_at, length_delete by eauto. lia.
Qed.
Lemma insert_at_Permutation d x l : insert_at d x l ≡ₚ x :: l.
Proof.
  revert l; induction d as [|d IH]; intros [|y l]; simpl; try done.
  rewrite IH. apply perm_swap.
Qed.

Lemma arrayMove_Permutation l s d new :
  (s < length l)%nat → (d < length l)%nat →
  arrayMove l (Z.of_nat s) (Z.of_nat d) = Some new → new ≡ₚ l.
Proof.
  intros Hs Hd. destruct (lookup_lt_is_Some_2 l s Hs) as [x Hx].
  rewrite (arrayMove_valid _ _ _ _ Hx Hd). intros [= <-].
  rewrite insert_at_Permutation. symmetry. by apply delete_Permutation.
Qed.

Lemma arrayMove_lookup l s d new x :
  l !! s = Some x → (d < length l)%nat →
  arrayMove l (Z.of_nat s) (Z.of_nat d) = Some new → new !! d = Some x.
Proof.
  intros Hx Hd. rewrite (arrayMove_valid _ _ _ _ Hx Hd). intros [= <-].
  apply lookup_insert_at. rewrite length_delete by eauto. lia.
Qed.
End ArrayMove.

(** ** The board: what [handleDragEnd] does *)

Module BoardFacts.
Import JS TaskBoard.

Ltac run_handler :=
  unfold handleDragEnd, handleDragStart, settle, onTaskUpdate, syncLocalStatuses,
    setTasks, setLocalStatuses, setActiveId, setActiveType,
    setOverColumnId, when, get, modify, emit, stuck,
    mbind, mret, Handler_bind, Handler_ret in *;
  cbn beta iota zeta in *.

(** A found index as a natural number. *)
Lemma findIndex_nat {A} (p : A → bool) (l : list A) :
  (findIndex p l =? -1) = false →
  ∃ n : nat, findIndex p l = Z.of_nat n ∧ (n < length l)%nat.
Proof.
  intros H%Z.eqb_neq. destruct (findIndex_range p l) as [|[? ?]]; [done|].
  exists (Z.to_nat (findIndex p l)). lia.
Qed.

(** [handleDragEnd] is never stuck: the board calls [arrayMove] on found
    indices only. *)
Lemma handleDragEnd_total ev b : is_Some (handleDragEnd ev b).
Proof.
  run_handler.
  repeat case_match; simplify_eq; eauto.
  all: repeat match goal with
       | H : _ && _ = true |- _ => apply andb_prop in H as [? ?]
       | H : negb _ = true |- _ => apply negb_true_iff in H
       | H : (findIndex _ _ =? -1) = false |- _ =>
           apply findIndex_nat in H as (? & ? & ?)
       end.
  all: match goal with
       | Hs : findIndex _ _ = Z.of_nat ?s, Hd : findIndex _ _ = Z.of_nat ?d,
         H : arrayMove _ _ _ = None |- _ =>
           rewrite Hs, Hd in H;
           destruct (arrayMove_is_Some (columns b) s d) as [? ?]; [done..|congruence]
       end.
Qed.

(** A gesture leaves the props [statuses] and [onStatusesReorder] alone
    and clears the drag state. *)
Lemma handleDragEnd_dropped ev b p b1 e1 :
  handleDragEnd ev b = Some (p, b1, e1) →
  b1 = dropped b (tasks b1) (localStatuses b1).
Proof.
  intros H. run_handler. unfold dropped.
  repeat case_match; simplify_eq; simpl; done.
Qed.

Lemma handleDragEnd_reorder_inv ev b cols b1 e1 :
  handleDragEnd ev b = Some (Some (AwaitReorderStatuses cols), b1, e1) →
  ∃ (s d : nat) new pid,
    cols = columns b
    ∧ (s < length (columns b))%nat ∧ (d < length (columns b))%nat
    ∧ arrayMove (columns b) (Z.of_nat s) (Z.of_nat d) = Some new
    ∧ b1 = dropped b (tasks b) new
    ∧ ProjectStatus.projectId <$> head (columns b) = Some pid ∧ pid ≠ ""
    ∧ e1 = (if onStatusesReorder b then [OnStatusesReorder new] else [])
           ++ [ConsoleLog "[reorder] Calling API with:";
               ReorderStatuses pid (map ProjectStatus.id new)].
Proof.
  intros H. run_handler.
  repeat case_match; simplify_eq.
  all: repeat match goal with
       | H : _ && _ = true |- _ => apply andb_prop in H as [? ?]
       | H : negb _ = true |- _ => apply negb_true_iff in H
       | H : (findIndex _ _ =? -1) = false |- _ =>
           apply findIndex_nat in H as (? & ? & ?)
       | H : seq _ _ = false |- _ => apply seq_false in H
       end.
  all: match goal with
       | Hs : findIndex _ _ = Z.of_nat ?s, Hd : findIndex _ _ = Z.of_nat ?d,
         H : arrayMove _ _ _ = Some ?new, Hp : _ <$> _ = Some ?pid |- _ =>
           rewrite Hs, Hd in H; exists s, d, new, pid
       end.
  all: unfold dropped; simpl; repeat split; auto; congruence.
Qed.
Lemma of_nat_not_minus_one (n : nat) : (Z.of_nat n =? -1) = false.
Proof. apply Z.eqb_neq. lia. Qed.

(** The trace of a column reorder: the optional callback, then the
    request when the first column names a project. *)
Lemma handleDragEnd_reorder ev b o (s d : nat) :
  over ev = Some o →
  startsWith (active ev) "column-" = true →
  startsWith o "column-" = true →
  replace_first (active ev) "column-" ≠ replace_first o "column-" →
  findIndex (λ c, seq (ProjectStatus.id c) (replace_first (active ev) "column-"))
            (columns b) = Z.of_nat s →
  findIndex (λ c, seq (ProjectStatus.id c) (replace_first o "column-"))
            (columns b) = Z.of_nat d →
  ∃ new c0,
    arrayMove (columns b) (Z.of_nat s) (Z.of_nat d) = Some new
    ∧ list_move (columns b) s d = Some new
    ∧ head (columns b) = Some c0
    ∧ handleDragEnd ev b =
        Some (if seq (ProjectStatus.projectId c0) ""
              then None else Some (AwaitReorderStatuses (columns b)),
              dropped b (tasks b) new,
              (if onStatusesReorder b then [OnStatusesReorder new] else [])
              ++ (if seq (ProjectStatus.projectId c0) "" then []
                  else [ConsoleLog "[reorder] Calling API with:";
                        ReorderStatuses (ProjectStatus.projectId c0)
                                        (map ProjectStatus.id new)])).
Proof.
  intros Ho Ha Hoc Hne Hs Hd.
  destruct (findIndex_found _ _ _ Hs) as (x & Hx & _).
  destruct (findIndex_found _ _ _ Hd) as (y & Hy & _).
  pose proof (lookup_lt_Some _ _ _ Hx) as Hslt.
  pose proof (lookup_lt_Some _ _ _ Hy) as Hdlt.
  destruct (arrayMove_is_Some (columns b) s d Hslt Hdlt) as [new Hnew].
  destruct (columns b) as [|c0 rest] eqn:Hcols; [simpl in Hslt; lia|].
  exists new, c0. split; [done|]. split.
  { by rewrite <- arrayMove_list_move. }
  split; [done|].
  run_handler. rewrite Ho, Ha, Hoc. simpl.
  apply seq_false in Hne. rewrite Hne. simpl.
  rewrite Hcols, Hs, Hd, !of_nat_not_minus_one. simpl.
  rewrite Hnew. unfold dropped, truthy. simpl.
  destruct (onStatusesReorder b) eqn:Hcb;
    destruct (seq (ProjectStatus.projectId c0) "") eqn:Hp; simpl;
    rewrite ?Hcb; reflexivity.
Qed.

(** Among columns with distinct identifiers, [findIndex] on the
    identifier of a column answers its place. *)
Lemma findIndex_from_NoDup (l : list ProjectStatus) (n : nat) x (i : Z) :
  NoDup (map ProjectStatus.id l) → l !! n = Some x →
  findIndex_from (λ c, seq (ProjectStatus.id c) (ProjectStatus.id x)) l i
  = i + Z.of_nat n.
Proof.
  revert n i; induction l as [|y l IH]; intros n i Hnd Hn; [done|].
  apply NoDup_cons in Hnd as [Hy Hnd]. destruct n as [|n]; simpl in *.
  - injection Hn as ->. rewrite seq_refl. lia.
  - destruct (seq _ _) eqn:E.
    + apply seq_true in E. exfalso. apply Hy. rewrite E.
      apply list_elem_of_fmap_2. by apply list_elem_of_lookup_2 in Hn.
    + rewrite (IH n) by done. lia.
Qed.

Lemma findIndex_NoDup (l : list ProjectStatus) (n : nat) x :
  NoDup (map ProjectStatus.id l) → l !! n = Some x →
  findIndex (λ c, seq (ProjectStatus.id c) (ProjectStatus.id x)) l = Z.of_nat n.
Proof. intros. unfold findIndex. by rewrite (findIndex_from_NoDup l n). Qed.

(** The memo answers the same list when it is fed its own answer. *)
Lemma columns_of_idem statuses local :
  columns_of statuses (columns_of statuses local) = columns_of statuses local.
Proof.
  unfold columns_of.
  set (base := if (0 <? length statuses)%nat then statuses else DEFAULT_STATUSES).
  assert ((0 <? length base)%nat = true) as Hbase.
  { subst base. destruct (0 <? length statuses)%nat eqn:E; [done | reflexivity]. }
  destruct ((0 <? length local)%nat && _) eqn:E.
  - by rewrite E.
  - rewrite Hbase. simpl. by rewrite bool_decide_eq_true_2.
Qed.

(** A reordering of the columns of one project is shown as it is. *)
Lemma columns_of_Permutation statuses local new pid :
  Forall (λ c, ProjectStatus.projectId c = pid) (columns_of statuses local) →
  new ≡ₚ columns_of statuses local →
  columns_of statuses new = new.
Proof.
  intros Hall Hperm.
  assert (∀ l, l ≡ₚ columns_of statuses local → l ≠ [] →
               ProjectStatus.projectId <$> head l = Some pid) as Hhead.
  { intros [|c l] Hl Hne; [done|]. simpl. f_equal.
    rewrite Forall_forall in Hall. apply Hall. rewrite <- Hl. left. }
  assert (columns_of statuses local ≠ []) as Hne.
  { unfold columns_of. repeat case_match; subst; try done;
      by destruct local, statuses. }
  assert (new ≠ []) as Hnew.
  { intros ->. by apply Permutation_nil_l in Hperm. }
  pose proof (Hhead _ Hperm Hnew) as Hn.
  pose proof (Hhead _ (reflexivity _) Hne) as Hc.
  unfold columns_of in *.
  set (base := if (0 <? length statuses)%nat then statuses else DEFAULT_STATUSES)
    in *.
  assert (ProjectStatus.projectId <$> head base = Some pid) as Hb.
  { destruct ((0 <? length local)%nat && _) eqn:E; [|done].
    apply andb_prop in E as [_ E%bool_decide_eq_true]. congruence. }
  rewrite Hn, Hb, bool_decide_eq_true_2 by done.
  destruct new; [done|]. reflexivity.
Qed.

Lemma settle_reorder_rejected cols message b :
  settle (AwaitReorderStatuses cols) (Rejected message) b =
    Some ((),
          mkBoard (tasks b) (statuses b) (onStatusesReorder b) cols
                  (activeId b) (activeType b) (overColumnId b),
          [ConsoleError "Failed to reorder statuses:";
           Alert ("ステータス並び替えエラー: " +:+
                  (if truthy (Some message) then message else "不明なエラー"))]).
Proof. reflexivity. Qed.

Lemma settle_fulfilled p b : settle p Fulfilled b = Some ((), b, []).
Proof. reflexivity. Qed.

(** *** Column reorders that are turned down *)

Lemma handleDragEnd_reorder_noop ev b o :
  over ev = Some o →
  startsWith (active ev) "column-" = true →
  startsWith o "column-" = true →
  replace_first (active ev) "column-" = replace_first o "column-"
  ∨ findIndex (λ c, seq (ProjectStatus.id c) (replace_first (active ev) "column-"))
              (columns b) = -1
  ∨ findIndex (λ c, seq (ProjectStatus.id c) (replace_first o "column-"))
              (columns b) = -1 →
  handleDragEnd ev b = Some (None, dropped b (tasks b) (localStatuses b), []).
Proof.
  intros Ho Ha Hoc Hcase. run_handler. rewrite Ho, Ha, Hoc. simpl.
  destruct (seq _ _) eqn:Heq; simpl; [done|].
  destruct Hcase as [E | [E | E]].
  - apply seq_false in Heq. done.
  - rewrite E. done.
  - rewrite E. simpl. by rewrite andb_false_r.
Qed.

Lemma handleDragEnd_no_target ev b :
  over ev = None →
  handleDragEnd ev b = Some (None, dropped b (tasks b) (localStatuses b), []).
Proof. intros Ho. run_handler. by rewrite Ho. Qed.

(** *** Card moves *)

Lemma truthy_Some (s : string) : truthy (Some s) = true ↔ s ≠ "".
Proof.
  unfold truthy. rewrite negb_true_iff. apply seq_false.
Qed.

Lemma handleDragEnd_move ev b o task target :
  over ev = Some o →
  startsWith (active ev) "column-" && startsWith o "column-" = false →
  activeType b = Some TaskDrag →
  find (λ t, seq (Task.id t) (active ev)) (tasks b) = Some task →
  dropTarget (tasks b) (columns b) o = Some target →
  target ≠ "" →
  resolvedStatusId (columns b) task ≠ Some target →
  handleDragEnd ev b =
    Some (Some (AwaitUpdateTaskStatus task),
          dropped b (handleTaskUpdate (Task.with_statusId task (Some target))
                                      (tasks b))
                  (localStatuses b),
          [OnTaskUpdate (Task.with_statusId task (Some target));
           UpdateTaskStatusById (active ev) target]).
Proof.
  intros Ho Hbr Hty Hfind Htgt Hne Hcur. run_handler.
  rewrite Ho, Hbr, Hty, Hfind, Htgt.
  rewrite (proj2 (truthy_Some target) Hne).
  rewrite bool_decide_eq_true_2 by done.
  rewrite (bool_decide_eq_false_2 (Some target = _)) by congruence.
  reflexivity.
Qed.

Lemma handleDragEnd_move_noop ev b o task :
  over ev = Some o →
  startsWith (active ev) "column-" && startsWith o "column-" = false →
  find (λ t, seq (Task.id t) (active ev)) (tasks b) = Some task →
  truthy (dropTarget (tasks b) (columns b) o) = false
  ∨ dropTarget (tasks b) (columns b) o = resolvedStatusId (columns b) task →
  handleDragEnd ev b = Some (None, dropped b (tasks b) (localStatuses b), []).
Proof.
  intros Ho Hbr Hfind Hcase. run_handler. rewrite Ho, Hbr, Hfind.
  destruct (bool_decide (activeType b = Some TaskDrag)); [|done].
  destruct (dropTarget _ _ _) as [target|] eqn:Htgt; [|done].
  destruct Hcase as [E | E].
  - rewrite E. done.
  - rewrite <- E, bool_decide_eq_true_2 by done. by rewrite andb_false_r.
Qed.

Lemma find_Some {A} (p : A → bool) (l : list A) x :
  find p l = Some x → x ∈ l ∧ p x = true.
Proof.
  induction l as [|y l IH]; simpl; [done|].
  destruct (p y) eqn:Hy.
  - intros [= ->]. split; [left | done].
  - intros [? ?]%IH. split; [by right | done].
Qed.

(** [handleTaskUpdate] puts the card it is given in the place of every
    card with its identifier. *)
Lemma find_handleTaskUpdate u t l :
  find (λ t, seq (Task.id t) (Task.id u)) l = Some t →
  find (λ t, seq (Task.id t) (Task.id u)) (handleTaskUpdate u l) = Some u.
Proof.
  induction l as [|y l IH]; simpl; [done|].
  destruct (seq (Task.id y) (Task.id u)) eqn:Hy.
  - intros _. by rewrite seq_refl.
  - rewrite Hy. apply IH.
Qed.

Lemma elem_of_handleTaskUpdate u l t :
  t ∈ handleTaskUpdate u l → Task.id t = Task.id u → t = u.
Proof.
  unfold handleTaskUpdate. intros (y & -> & Hy)%list_elem_of_fmap Hid.
  destruct (seq (Task.id y) (Task.id u)) eqn:E; [done|].
  apply seq_false in E. done.
Qed.

Lemma handleTaskUpdate_undo t u l :
  Task.id u = Task.id t →
  (∀ t', t' ∈ l → Task.id t' = Task.id t → t' = t) →
  handleTaskUpdate t (handleTaskUpdate u l) = l.
Proof.
  intros Hid Hall. unfold handleTaskUpdate. rewrite <- list_fmap_compose.
  rewrite <- (list_fmap_id l) at 2. apply list_fmap_ext.
  intros i y Hy%list_elem_of_lookup_2. simpl.
  destruct (seq (Task.id y) (Task.id u)) eqn:E.
  - rewrite Hid, seq_refl. apply seq_true in E. symmetry. apply Hall; congruence.
  - rewrite <- Hid, E. done.
Qed.

(** With identifiers that are unique, the first card of an identifier is
    the only one. *)
Lemma NoDup_ids_unique (l : list Task) t t' :
  NoDup (map Task.id l) → t ∈ l → t' ∈ l → Task.id t' = Task.id t → t' = t.
Proof.
  induction l as [|y l IH]; simpl; [by intros _ ?%elem_of_nil|].
  intros [Hy Hnd]%NoDup_cons [-> | Ht]%elem_of_cons [-> | Ht']%elem_of_cons Hid;
    auto.
  - exfalso. apply Hy. rewrite <- Hid. by apply list_elem_of_fmap_2.
  - exfalso. apply Hy. rewrite Hid. by apply list_elem_of_fmap_2.
Qed.

(** *** The column a handler resolves and the effective column *)

Lemma effectiveColumn_moved cols task target :
  target ≠ "" → target ∈ map ProjectStatus.id cols →
  effectiveColumn cols (Task.with_statusId task (Some target)) = Some target.
Proof.
  intros Hne Hin. unfold effectiveColumn.
  cbn [Task.with_statusId Task.statusId].
  rewrite (proj2 (truthy_Some target) Hne). cbn [negb].
  rewrite (proj2 (truthy_Some target) Hne). cbn [andb].
  by rewrite bool_decide_eq_true_2.
Qed.

Lemma resolved_is_effective cols task target :
  target ≠ "" → target ∈ map ProjectStatus.id cols →
  resolvedStatusId cols task = Some target →
  effectiveColumn cols task = Some target.
Proof.
  intros Hne Hin. unfold resolvedStatusId, effectiveColumn, or_else.
  apply truthy_Some in Hne.
  destruct (truthy (Task.statusId task)) eqn:Hs; cbn [negb].
  - intros ->. rewrite Hne. cbn [andb]. by rewrite bool_decide_eq_true_2.
  - destruct (truthy (matchingStatusId cols task)) eqn:Hm; [|done].
    intros ->. rewrite Hne. cbn [andb]. by rewrite bool_decide_eq_true_2.
Qed.

End BoardFacts.

(** ** The grouping of cards into columns *)

Module GroupingFacts.
Import JS TaskBoard.

Implicit Types (m result : gmap string (list Task)) (cols : list ProjectStatus)
  (k : string) (t : Task).

(** The two loops of the memo as they run when nothing is thrown: a
    bucket for every column, and every card pushed on the bucket of its
    effective column. *)
Local Abbreviation init_buckets :=
  (foldl (λ result status, <[ProjectStatus.id status := []]> result)).
Local Abbreviation file cols :=
  (λ result task,
     match effectiveColumn cols task with
     | Some k => push task k result
     | None => result
     end).

Lemma init_lookup cols m k :
  init_buckets m cols !! k
  = if bool_decide (k ∈ map ProjectStatus.id cols) then Some [] else m !! k.
Proof.
  revert m; induction cols as [|c cols IH]; intros m; cbn [foldl List.map].
  - rewrite bool_decide_eq_false_2; [done | apply not_elem_of_nil].
  - rewrite IH. destruct (decide (k ∈ map ProjectStatus.id cols)) as [Hin | Hout].
    + rewrite !bool_decide_eq_true_2; [done | by right | done].
    + rewrite (bool_decide_eq_false_2 _ Hout).
      destruct (decide (k = ProjectStatus.id c)) as [-> | Hne].
      * rewrite lookup_insert_eq, bool_decide_eq_true_2; [done | left].
      * rewrite lookup_insert_ne by done.
        rewrite bool_decide_eq_false_2; [done|].
        intros [? | ?]%elem_of_cons; done.
Qed.

Lemma init_keyed cols :
  keyed (init_buckets ∅ cols) cols.
Proof.
  intros k. rewrite init_lookup, lookup_empty.
  case_bool_decide; split; done.
Qed.

(** The first loop gives every column its bucket unless a column is
    named [__proto__]. *)
Lemma init_Returns cols m :
  "__proto__" ∉ map ProjectStatus.id cols →
  forEach (λ result status, assign_empty (ProjectStatus.id status) result) cols m
  = Returns (init_buckets m cols).
Proof.
  revert m; induction cols as [|c cols IH]; intros m Hn; simpl; [done|].
  simpl in Hn. apply not_elem_of_cons in Hn as [Hc Hn].
  unfold assign_empty at 1.
  destruct (seq (ProjectStatus.id c) "__proto__") eqn:E.
  - apply seq_true in E. congruence.
  - by apply IH.
Qed.

Lemma init_PrototypeReplaced cols m :
  "__proto__" ∈ map ProjectStatus.id cols →
  forEach (λ result status, assign_empty (ProjectStatus.id status) result) cols m
  = PrototypeReplaced.
Proof.
  revert m; induction cols as [|c cols IH]; intros m Hin; simpl.
  - by apply elem_of_nil in Hin.
  - unfold assign_empty at 1.
    destruct (seq (ProjectStatus.id c) "__proto__") eqn:E; [done|].
    apply IH. simpl in Hin. apply elem_of_cons in Hin as [Heq | Hin]; [|done].
    apply seq_false in E. congruence.
Qed.

Lemma push_lookup t k' m k :
  push t k' m !! k
  = if decide (k' = k) then (λ l, l ++ [t]) <$> m !! k else m !! k.
Proof.
  unfold push. rewrite lookup_alter. by case_decide; subst.
Qed.

Lemma push_keyed t k' m cols : keyed m cols → keyed (push t k' m) cols.
Proof.
  intros Hm k. specialize (Hm k). rewrite push_lookup.
  case_decide; subst; rewrite ?fmap_is_Some; done.
Qed.

Lemma effectiveColumn_in cols t k :
  effectiveColumn cols t = Some k → k ∈ map ProjectStatus.id cols.
Proof.
  assert (ProjectStatus.id <$> head cols = Some k →
          k ∈ map ProjectStatus.id cols) as Hhead.
  { destruct cols as [|c cols]; simpl; [done|]. intros [= <-]. left. }
  unfold effectiveColumn.
  destruct (if negb _ then _ else _) as [sid|]; [|done].
  destruct (truthy _ && _) eqn:E; [|done].
  intros [= <-]. apply andb_prop in E as [_ E]. by apply bool_decide_eq_true in E.
Qed.

Lemma effectiveColumn_is_Some cols t : cols ≠ [] → is_Some (effectiveColumn cols t).
Proof.
  intros Hne. destruct cols as [|c cols]; [done|].
  unfold effectiveColumn. repeat case_match; eauto.
Qed.

Lemma matchingStatusId_in cols t k :
  matchingStatusId cols t = Some k → k ∈ map ProjectStatus.id cols.
Proof.
  unfold matchingStatusId.
  destruct (find _ cols) as [c|] eqn:Hfind; [|done].
  intros [= <-]. apply BoardFacts.find_Some in Hfind as [Hin _].
  by apply list_elem_of_fmap_2.
Qed.

Lemma head_id_in cols k :
  ProjectStatus.id <$> head cols = Some k → k ∈ map ProjectStatus.id cols.
Proof. destruct cols as [|c cols]; simpl; [done|]. intros [= <-]. left. Qed.

(** [result[key]] once every column has its bucket. *)
Lemma property_keyed m cols k :
  keyed m cols →
  property m k
  = if bool_decide (k ∈ map ProjectStatus.id cols)
    then Bucket (default [] (m !! k))
    else if bool_decide (k ∈ Object_prototype) then Member else Undefined.
Proof.
  intros Hm. unfold property. specialize (Hm k).
  destruct (m !! k) as [l|] eqn:Hk; simpl.
  - rewrite bool_decide_eq_true_2; [done|]. apply Hm. by eexists.
  - rewrite (bool_decide_eq_false_2 (k ∈ map ProjectStatus.id cols)); [done|].
    intros Hin. apply Hm in Hin as [? ?]. done.
Qed.

Lemma clashes_false cols t sid :
  clashes cols t = false → Task.statusId t = Some sid →
  sid ∉ map ProjectStatus.id cols → bool_decide (sid ∈ Object_prototype) = false.
Proof.
  unfold clashes. intros Hc Hsid Hout. rewrite Hsid in Hc.
  rewrite (bool_decide_eq_false_2 _ Hout) in Hc. simpl in Hc.
  by rewrite andb_true_r in Hc.
Qed.

(** Once every column has its bucket, [fileTask] files a card under its
    effective column, unless its [statusId] names a member of
    [Object.prototype] and no column: then it throws. *)
Lemma fileTask_Returns cols m t :
  keyed m cols → clashes cols t = false →
  fileTask cols m t = Returns (file cols m t).
Proof.
  intros Hm Hclash. unfold fileTask, effectiveColumn.
  assert (match head cols with
          | Some c0 =>
              match property m (ProjectStatus.id c0) with
              | Bucket _ => Returns (push t (ProjectStatus.id c0) m)
              | Member => TypeError
              | Undefined => Returns m
              end
          | None => Returns m
          end
          = Returns match ProjectStatus.id <$> head cols with
                    | Some k => push t k m
                    | None => m
                    end) as Hfirst.
  { destruct cols as [|c0 cols]; simpl; [done|].
    rewrite (property_keyed _ _ _ Hm).
    rewrite bool_decide_eq_true_2; [done | left]. }
  rewrite Hfirst. clear Hfirst.
  destruct (truthy (Task.statusId t)) eqn:Htruthy; simpl.
  - destruct (Task.statusId t) as [sid|] eqn:Hsid; [|done].
    rewrite Htruthy. simpl. rewrite (property_keyed _ _ _ Hm).
    case_bool_decide as Hin; simpl; [done|].
    by rewrite (clashes_false _ _ _ Hclash Hsid Hin).
  - destruct (or_else _ _) as [sid|] eqn:Hor; [|done].
    destruct (truthy (Some sid)) eqn:Hts; simpl; [|done].
    assert (sid ∈ map ProjectStatus.id cols) as Hin.
    { unfold or_else in Hor. destruct (truthy (matchingStatusId cols t)).
      - by eapply matchingStatusId_in.
      - by apply head_id_in. }
    rewrite (property_keyed _ _ _ Hm).
    by rewrite !bool_decide_eq_true_2.
Qed.

Lemma fileTask_TypeError cols m t :
  keyed m cols → clashes cols t = true → fileTask cols m t = TypeError.
Proof.
  intros Hm Hclash. unfold clashes in Hclash.
  destruct (Task.statusId t) as [sid|] eqn:Hsid; [|done].
  apply andb_prop in Hclash as [Hmember Hout].
  apply negb_true_iff in Hout. apply bool_decide_eq_false in Hout.
  assert (truthy (Some sid) = true) as Htruthy.
  { apply bool_decide_eq_true in Hmember. simpl.
    destruct sid; [|done]. exfalso. revert Hmember.
    by apply (bool_decide_unpack (EmptyString ∉ Object_prototype)). }
  unfold fileTask. rewrite Hsid, Htruthy. simpl.
  rewrite (property_keyed _ _ _ Hm). simpl in Htruthy.
  by rewrite Htruthy, (bool_decide_eq_false_2 _ Hout), Hmember.
Qed.

Lemma file_keyed cols m t : keyed m cols → keyed (file cols m t) cols.
Proof.
  intros Hm. cbv beta.
  destruct (effectiveColumn cols t); [by apply push_keyed | done].
Qed.

Lemma fold_file_keyed cols m tasks :
  keyed m cols → keyed (foldl (file cols) m tasks) cols.
Proof.
  revert m; induction tasks as [|t tasks IH]; intros m Hm; simpl; [done|].
  by apply IH, file_keyed.
Qed.

(** The second loop: it returns when no card clashes, and throws at the
    first card that does. *)
Lemma forEach_fileTask_Returns cols m tasks :
  keyed m cols → Forall (λ t, clashes cols t = false) tasks →
  forEach (fileTask cols) tasks m = Returns (foldl (file cols) m tasks).
Proof.
  intros Hm Hall. revert m Hm.
  induction Hall as [|t tasks Ht _ IH]; intros m Hm; simpl; [done|].
  rewrite (fileTask_Returns _ _ _ Hm Ht). by apply IH, file_keyed.
Qed.

Lemma forEach_fileTask_TypeError cols m tasks :
  keyed m cols → Exists (λ t, clashes cols t = true) tasks →
  forEach (fileTask cols) tasks m = TypeError.
Proof.
  revert m; induction tasks as [|t tasks IH]; intros m Hm Hex.
  - by apply Exists_nil in Hex.
  - simpl. destruct (clashes cols t) eqn:Ht.
    + by rewrite (fileTask_TypeError _ _ _ Hm Ht).
    + rewrite (fileTask_Returns _ _ _ Hm Ht). apply IH; [by apply file_keyed|].
      apply Exists_cons in Hex as [? | ?]; [congruence | done].
Qed.

Lemma fold_file_lookup cols m tasks k :
  foldl (file cols) m tasks !! k
  = (λ l, l ++ filter (λ t, effectiveColumn cols t = Some k) tasks) <$> m !! k.
Proof.
  revert m; induction tasks as [|t tasks IH]; intros m; simpl.
  - destruct (m !! k); simpl; [by rewrite app_nil_r | done].
  - rewrite IH.
    destruct (effectiveColumn cols t) as [k'|] eqn:Heff.
    + rewrite push_lookup. case_decide; subst.
      * rewrite filter_cons_True by done.
        destruct (m !! k); simpl; [|done]. by rewrite <- app_assoc.
      * rewrite filter_cons_False; [done | congruence].
    + rewrite filter_cons_False; [done | congruence].
Qed.

(** *** The three ways the memo ends *)

Lemma tasksByStatusId_Returns tasks cols :
  "__proto__" ∉ map ProjectStatus.id cols →
  Forall (λ t, clashes cols t = false) tasks →
  tasksByStatusId tasks cols
  = Returns (foldl (file cols) (init_buckets ∅ cols) tasks).
Proof.
  intros Hproto Hall. unfold tasksByStatusId.
  rewrite (init_Returns _ _ Hproto).
  apply forEach_fileTask_Returns; [apply init_keyed | done].
Qed.

Lemma tasksByStatusId_TypeError tasks cols :
  "__proto__" ∉ map ProjectStatus.id cols →
  Exists (λ t, clashes cols t = true) tasks →
  tasksByStatusId tasks cols = TypeError.
Proof.
  intros Hproto Hex. unfold tasksByStatusId.
  rewrite (init_Returns _ _ Hproto).
  apply forEach_fileTask_TypeError; [apply init_keyed | done].
Qed.

Lemma tasksByStatusId_PrototypeReplaced tasks cols :
  "__proto__" ∈ map ProjectStatus.id cols →
  tasksByStatusId tasks cols = PrototypeReplaced.
Proof.
  intros Hproto. unfold tasksByStatusId. by rewrite (init_PrototypeReplaced _ _ Hproto).
Qed.

Lemma clash_dec cols tasks :
  Forall (λ t, clashes cols t = false) tasks
  ∨ Exists (λ t, clashes cols t = true) tasks.
Proof.
  induction tasks as [|t tasks [IH | IH]].
  - left. constructor.
  - destruct (clashes cols t) eqn:Ht.
    + right. by left.
    + left. by constructor.
  - right. by right.
Qed.

(** A run that returns had no column named [__proto__] and no clashing
    card, and went as the two plain loops go. *)
Lemma tasksByStatusId_inv tasks cols result :
  tasksByStatusId tasks cols = Returns result →
  ("__proto__" ∉ map ProjectStatus.id cols)
  ∧ Forall (λ t, clashes cols t = false) tasks
  ∧ result = foldl (file cols) (init_buckets ∅ cols) tasks.
Proof.
  intros Hrun.
  destruct (decide ("__proto__" ∈ map ProjectStatus.id cols)) as [Hin | Hout].
  { by rewrite (tasksByStatusId_PrototypeReplaced _ _ Hin) in Hrun. }
  destruct (clash_dec cols tasks) as [Hall | Hex].
  - rewrite (tasksByStatusId_Returns _ _ Hout Hall) in Hrun.
    by injection Hrun as <-.
  - by rewrite (tasksByStatusId_TypeError _ _ Hout Hex) in Hrun.
Qed.

(** Every bucket holds the cards of its column, in the order of [tasks]. *)
Lemma tasksByStatusId_lookup tasks cols result k :
  tasksByStatusId tasks cols = Returns result →
  result !! k
  = if bool_decide (k ∈ map ProjectStatus.id cols)
    then Some (filter (λ t, effectiveColumn cols t = Some k) tasks)
    else None.
Proof.
  intros (_ & _ & ->)%tasksByStatusId_inv.
  rewrite fold_file_lookup, init_lookup, lookup_empty. by case_bool_decide.
Qed.

Lemma tasksByStatusId_keyed tasks cols result :
  tasksByStatusId tasks cols = Returns result → keyed result cols.
Proof.
  intros (_ & _ & ->)%tasksByStatusId_inv. apply fold_file_keyed, init_keyed.
Qed.

(** *** No card is lost and none is filed twice *)

Lemma cards_insert m k l :
  m !! k = None → cards (<[k := l]> m) ≡ₚ l ++ cards m.
Proof.
  intros Hk. unfold cards. by rewrite map_to_list_insert.
Qed.

Lemma cards_push m k l t :
  m !! k = Some l → cards (push t k m) ≡ₚ t :: cards m.
Proof.
  intros Hk. unfold push.
  rewrite <- (insert_delete_id m k l) at 2 by done.
  rewrite <- (insert_delete_id m k l) at 1 by done.
  rewrite alter_insert_eq.
  rewrite !cards_insert by apply lookup_delete_eq.
  rewrite <- app_assoc. simpl. by rewrite <- Permutation_middle.
Qed.

Lemma cards_fold cols m tasks :
  cols ≠ [] → keyed m cols →
  cards (foldl (file cols) m tasks) ≡ₚ cards m ++ tasks.
Proof.
  intros Hne. revert m; induction tasks as [|t tasks IH]; intros m Hm; simpl.
  - by rewrite app_nil_r.
  - rewrite IH by by apply file_keyed.
    destruct (effectiveColumn_is_Some cols t Hne) as [k Hk]. rewrite Hk.
    destruct (proj2 (Hm k) (effectiveColumn_in _ _ _ Hk)) as [l Hl].
    rewrite (cards_push _ _ _ _ Hl). simpl. by rewrite <- Permutation_middle.
Qed.

Lemma cards_init cols :
  cards (init_buckets ∅ cols) = [].
Proof.
  unfold cards. set (m := foldl _ _ _).
  assert (Forall (λ l, l = []) (snd <$> map_to_list m)) as Hall.
  { apply Forall_fmap, Forall_forall. intros [k l] Hkl%elem_of_map_to_list.
    subst m. rewrite init_lookup, lookup_empty in Hkl. simpl.
    by case_bool_decide; simplify_eq. }
  induction Hall as [|l ls -> _ IH]; simpl; done.
Qed.

Lemma tasksByStatusId_cards tasks cols result :
  cols ≠ [] → tasksByStatusId tasks cols = Returns result →
  cards result ≡ₚ tasks.
Proof.
  intros Hne (_ & _ & ->)%tasksByStatusId_inv.
  rewrite cards_fold by (done || apply init_keyed).
  by rewrite cards_init.
Qed.

(** *** The columns as they are drawn *)

Lemma columnTasks_filter tasks cols result c :
  tasksByStatusId tasks cols = Returns result → c ∈ cols →
  columnTasks result c
  = filter (λ t, effectiveColumn cols t = Some (ProjectStatus.id c)) tasks.
Proof.
  intros Hrun Hc. unfold columnTasks. rewrite (tasksByStatusId_lookup _ _ _ _ Hrun).
  rewrite bool_decide_eq_true_2; [done|]. by apply list_elem_of_fmap_2.
Qed.

Lemma concat_filter_by_key (ks : list string) (f : Task → option string)
    (tasks : list Task) :
  NoDup ks → (∀ t, t ∈ tasks → ∃ k, f t = Some k ∧ k ∈ ks) →
  concat (map (λ k, filter (λ t, f t = Some k) tasks) ks) ≡ₚ tasks.
Proof.
  intros Hnd. induction tasks as [|t tasks IH]; intros Hall.
  - clear Hnd Hall. induction ks as [|k ks IHk]; [done|]. exact IHk.
  - destruct (Hall t) as (k & Hk & Hin); [left|].
    assert (concat (map (λ k', filter (λ t', f t' = Some k') (t :: tasks)) ks)
            ≡ₚ t :: concat (map (λ k', filter (λ t', f t' = Some k') tasks) ks))
      as ->.
    { clear IH Hall. induction ks as [|k' ks IHk]; [by apply elem_of_nil in Hin|].
      apply NoDup_cons in Hnd as [Hk' Hnd]. simpl.
      destruct (decide (k = k')) as [<- | Hne].
      - rewrite filter_cons_True by done. simpl. do 2 f_equiv.
        apply reflexive_eq. f_equal. apply map_ext_in.
        intros k'' Hk''%list_elem_of_In. apply filter_cons_False.
        rewrite Hk. intros [= ->]. done.
      - rewrite filter_cons_False by (rewrite Hk; congruence).
        rewrite IHk; [|done|]; last first.
        { apply elem_of_cons in Hin as [? | ?]; done. }
        by rewrite Permutation_middle. }
    f_equiv. apply IH. intros t' Ht'. apply Hall. by right.
Qed.

(** With distinct column identifiers the columns, drawn side by side,
    show every card once. *)
Lemma drawn_cards tasks cols result :
  cols ≠ [] → NoDup (map ProjectStatus.id cols) →
  tasksByStatusId tasks cols = Returns result →
  concat (map (columnTasks result) cols) ≡ₚ tasks.
Proof.
  intros Hne Hnd Hrun.
  rewrite <- (concat_filter_by_key (map ProjectStatus.id cols)
                (effectiveColumn cols) tasks Hnd) at 1.
  - rewrite map_map. apply reflexive_eq. f_equal. apply map_ext_in.
    intros c Hc%list_elem_of_In. by apply (columnTasks_filter _ _ _ _ Hrun).
  - intros t _. destruct (effectiveColumn_is_Some cols t Hne) as [k Hk].
    exists k. split; [done|]. by eapply effectiveColumn_in.
Qed.

End GroupingFacts.

(** ** The settings page: what its [handleDragEnd] does *)

Module SettingsFacts.
Import JS StatusSettings.

Ltac run_handler :=
  unfold handleDragEnd, settle, onStatusesUpdate, setError,
    get, modify, emit, stuck, mbind, mret, Handler_bind, Handler_ret in *;
  cbn beta iota zeta in *.

Lemma settings_handleDragEnd_inv ev st p st1 e1 :
  handleDragEnd ev st = Some (Some p, st1, e1) →
  ∃ new,
    p = AwaitReorderStatuses (statuses st)
    ∧ st1 = mkSettings (projectId st) new None
    ∧ e1 = [OnStatusesUpdate new;
            ReorderStatuses (projectId st) (map ProjectStatus.id new)].
Proof.
  intros H. run_handler.
  repeat case_match; simplify_eq. eexists. simpl. eauto.
Qed.

Lemma settings_settle_rejected sts message st :
  settle (AwaitReorderStatuses sts) (Rejected message) st =
    Some ((),
          mkSettings (projectId st) sts (Some "ステータスの並び替えに失敗しました"),
          [ConsoleError "Failed to reorder statuses:"; OnStatusesUpdate sts]).
Proof. reflexivity. Qed.

Lemma settings_handleDragEnd_reorder ev st o (s d : nat) :
  over ev = Some o → active ev ≠ o →
  findIndex (λ c, seq (ProjectStatus.id c) (active ev)) (statuses st) = Z.of_nat s →
  findIndex (λ c, seq (ProjectStatus.id c) o) (statuses st) = Z.of_nat d →
  ∃ new,
    arrayMove (statuses st) (Z.of_nat s) (Z.of_nat d) = Some new
    ∧ list_move (statuses st) s d = Some new
    ∧ handleDragEnd ev st =
        Some (Some (AwaitReorderStatuses (statuses st)),
              mkSettings (projectId st) new None,
              [OnStatusesUpdate new;
               ReorderStatuses (projectId st) (map ProjectStatus.id new)]).
Proof.
  intros Ho Hne Hs Hd.
  destruct (findIndex_found _ _ _ Hs) as (x & Hx%lookup_lt_Some & _).
  destruct (findIndex_found _ _ _ Hd) as (y & Hy%lookup_lt_Some & _).
  destruct (arrayMove_is_Some (statuses st) s d Hx Hy) as [new Hnew].
  exists new. split; [done|]. split.
  { by rewrite <- arrayMove_list_move. }
  run_handler. rewrite Ho. apply seq_false in Hne. rewrite Hne. simpl.
  rewrite Hs, Hd, Hnew. reflexivity.
Qed.

End SettingsFacts.

(** * The column order *)

Module ColumnOrder.
Import JS.

(** C5. A column reorder from source index [s] to destination index [d]
    computes the order got by removing the element at [s] and putting it
    back at [d]: [arrayMove], as both [handleDragEnd] call it on the
    indices they found, agrees with the single-element move of the
    specification; the moved column sits at [d] afterwards and, with it
    taken out, the other columns are in the order they had. For the four
    columns A, B, C, D the reorder from 0 to 2 gives B, C, A, D. *)
Theorem reorder_is_single_element_move :
  (∀ (columns : list ProjectStatus) (s d : nat),
     (s < length columns)%nat → (d < length columns)%nat →
     ∃ new moved,
       arrayMove columns (Z.of_nat s) (Z.of_nat d) = Some new
       ∧ list_move columns s d = Some new
       ∧ columns !! s = Some moved
       ∧ new !! d = Some moved
       ∧ delete d new = delete s columns)
  ∧ (∀ ev b o (s d : nat),
       TaskBoard.over ev = Some o →
       startsWith (TaskBoard.active ev) "column-" = true →
       startsWith o "column-" = true →
       replace_first (TaskBoard.active ev) "column-" ≠ replace_first o "column-" →
       findIndex (λ c, seq (ProjectStatus.id c)
                           (replace_first (TaskBoard.active ev) "column-"))
                 (TaskBoard.columns b) = Z.of_nat s →
       findIndex (λ c, seq (ProjectStatus.id c) (replace_first o "column-"))
                 (TaskBoard.columns b) = Z.of_nat d →
       ∃ p b1 e1 new,
         TaskBoard.handleDragEnd ev b = Some (p, b1, e1)
         ∧ list_move (TaskBoard.columns b) s d = Some new
         ∧ TaskBoard.localStatuses b1 = new)
  ∧ (∀ ev st o (s d : nat),
       StatusSettings.over ev = Some o →
       StatusSettings.active ev ≠ o →
       findIndex (λ c, seq (ProjectStatus.id c) (StatusSettings.active ev))
                 (StatusSettings.statuses st) = Z.of_nat s →
       findIndex (λ c, seq (ProjectStatus.id c) o)
                 (StatusSettings.statuses st) = Z.of_nat d →
       ∃ p st1 e1 new,
         StatusSettings.handleDragEnd ev st = Some (p, st1, e1)
         ∧ list_move (StatusSettings.statuses st) s d = Some new
         ∧ StatusSettings.statuses st1 = new)
  ∧ (∀ A B C D : ProjectStatus,
       arrayMove [A; B; C; D] 0 2 = Some [B; C; A; D]).
Proof.
  split_and!.
  - intros columns s d Hs Hd.
    destruct (lookup_lt_is_Some_2 columns s Hs) as [x Hx].
    assert (d ≤ length (delete s columns))%nat
      by (rewrite length_delete by eauto; lia).
    exists (insert_at d x (delete s columns)), x.
    rewrite (arrayMove_valid _ _ _ _ Hx Hd). unfold list_move. rewrite Hx.
    split_and!; try done.
    + by apply lookup_insert_at.
    + by apply delete_insert_at.
  - intros ev b o s d Ho Ha Hoc Hne Hs Hd.
    destruct (BoardFacts.handleDragEnd_reorder ev b o s d)
      as (new & c0 & _ & Hmove & _ & Hrun); try done.
    rewrite Hrun. by eexists _, _, _, new.
  - intros ev st o s d Ho Hne Hs Hd.
    destruct (SettingsFacts.settings_handleDragEnd_reorder ev st o s d)
      as (new & _ & Hmove & Hrun); try done.
    rewrite Hrun. by eexists _, _, _, new.
  - reflexivity.
Qed.

Lemma reorder_is_single_element_move_witness :
  arrayMove Samples.four_columns 0 2
    = Some [Samples.col_in_progress; Samples.col_in_review;
            Samples.col_todo; Samples.col_done]
  ∧ (∃ p b1 e1,
       TaskBoard.handleDragEnd
         (TaskBoard.mkEvent "column-s-todo" (Some "column-s-review"))
         (Samples.dragging_column Samples.four_columns "s-todo")
       = Some (p, b1, e1)
       ∧ TaskBoard.localStatuses b1
         = [Samples.col_in_progress; Samples.col_in_review;
            Samples.col_todo; Samples.col_done])
  ∧ (∃ p st1 e1,
       StatusSettings.handleDragEnd
         (StatusSettings.mkEvent "s-todo" (Some "s-review")) Samples.settings
       = Some (p, st1, e1)
       ∧ StatusSettings.statuses st1
         = [Samples.col_in_progress; Samples.col_in_review;
            Samples.col_todo; Samples.col_done]).
Proof.
  destruct reorder_is_single_element_move as (Hmove & Hboard & Hsettings & _).
  split_and!.
  - destruct (Hmove Samples.four_columns 0%nat 2%nat)
      as (new & moved & Harr & Hnew & _); [simpl; lia | simpl; lia |].
    vm_compute in Hnew. injection Hnew as <-. exact Harr.
  - destruct (Hboard
                (TaskBoard.mkEvent "column-s-todo" (Some "column-s-review"))
                (Samples.dragging_column Samples.four_columns "s-todo")
                "column-s-review" 0%nat 2%nat)
      as (p & b1 & e1 & new & Hrun & Hnew & Hlocal);
      [reflexivity | reflexivity | reflexivity | by vm_compute
      | reflexivity | reflexivity |].
    exists p, b1, e1. split; [done|].
    vm_compute in Hnew. injection Hnew as <-. exact Hlocal.
  - destruct (Hsettings
                (StatusSettings.mkEvent "s-todo" (Some "s-review"))
                Samples.settings "s-review" 0%nat 2%nat)
      as (p & st1 & e1 & new & Hrun & Hnew & Hst);
      [reflexivity | by vm_compute | reflexivity | reflexivity |].
    exists p, st1, e1. split; [done|].
    vm_compute in Hnew. injection Hnew as <-. exact Hst.
Defined.

(** C6. For a column list and two valid indices [s] and [d], the reorder
    from [s] to [d] followed by the reorder from [d], where the moved
    column arrived, back to [s] restores the order exactly. On the board:
    dragging a column onto another and then dragging it back onto the
    column that took its place shows the columns as they were. *)
Theorem reorder_then_inverse_restores :
  (∀ (columns : list ProjectStatus) (s d : nat),
     (s < length columns)%nat → (d < length columns)%nat →
     ∃ new,
       arrayMove columns (Z.of_nat s) (Z.of_nat d) = Some new
       ∧ new !! d = columns !! s
       ∧ arrayMove new (Z.of_nat d) (Z.of_nat s) = Some columns)
  ∧ (∀ b (s d : nat) x y pid,
       NoDup (map ProjectStatus.id (TaskBoard.columns b)) →
       Forall (λ c, ProjectStatus.projectId c = pid) (TaskBoard.columns b) →
       TaskBoard.columns b !! s = Some x →
       TaskBoard.columns b !! d = Some y →
       s ≠ d →
       ∃ p1 b1 e1 z p2 b2 e2,
         TaskBoard.handleDragEnd
           (TaskBoard.mkEvent ("column-" +:+ ProjectStatus.id x)
                              (Some ("column-" +:+ ProjectStatus.id y))) b
         = Some (p1, b1, e1)
         ∧ TaskBoard.columns b1 !! d = Some x
         ∧ TaskBoard.columns b1 !! s = Some z
         ∧ TaskBoard.handleDragEnd
             (TaskBoard.mkEvent ("column-" +:+ ProjectStatus.id x)
                                (Some ("column-" +:+ ProjectStatus.id z))) b1
           = Some (p2, b2, e2)
         ∧ TaskBoard.columns b2 = TaskBoard.columns b).
Proof.
  split.
  - intros columns s d Hs Hd.
    destruct (arrayMove_is_Some columns s d Hs Hd) as [new Hnew].
    destruct (lookup_lt_is_Some_2 columns s Hs) as [x Hx].
    exists new. split_and!; [done | |].
    + rewrite Hx. by apply (arrayMove_lookup columns s d).
    + by apply arrayMove_inverse.
  - intros b s d x y pid Hnd Hpid Hx Hy Hsd.
    pose proof (lookup_lt_Some _ _ _ Hx) as Hs.
    pose proof (lookup_lt_Some _ _ _ Hy) as Hd.
    assert (ProjectStatus.id x ≠ ProjectStatus.id y) as Hxy.
    { intros E. apply Hsd.
      apply (NoDup_lookup _ s d (ProjectStatus.id x) Hnd);
        rewrite list_lookup_fmap; [by rewrite Hx | by rewrite Hy, E]. }
    (* the first gesture *)
    destruct (BoardFacts.handleDragEnd_reorder
                (TaskBoard.mkEvent ("column-" +:+ ProjectStatus.id x)
                                   (Some ("column-" +:+ ProjectStatus.id y)))
                b ("column-" +:+ ProjectStatus.id y) s d)
      as (new & c0 & Hnew & _ & _ & Hrun1); simpl;
      rewrite ?startsWith_append, ?replace_first_append;
      try done; try by apply BoardFacts.findIndex_NoDup.
    set (b1 := TaskBoard.dropped b (TaskBoard.tasks b) new) in *.
    pose proof (arrayMove_Permutation _ _ _ _ Hs Hd Hnew) as Hperm.
    assert (TaskBoard.columns b1 = new) as Hcols1
      by apply (BoardFacts.columns_of_Permutation _ _ _ pid Hpid Hperm).
    assert (NoDup (map ProjectStatus.id new)) as Hnd1 by by rewrite Hperm.
    assert (length new = length (TaskBoard.columns b)) as Hlen by by rewrite Hperm.
    pose proof (arrayMove_lookup _ _ _ _ _ Hx Hd Hnew) as Hx1.
    destruct (lookup_lt_is_Some_2 new s) as [z Hz]; [lia|].
    assert (ProjectStatus.id x ≠ ProjectStatus.id z) as Hxz.
    { intros E. apply Hsd. symmetry.
      apply (NoDup_lookup _ d s (ProjectStatus.id x) Hnd1);
        rewrite list_lookup_fmap; [by rewrite Hx1 | by rewrite Hz, E]. }
    (* the second gesture *)
    destruct (BoardFacts.handleDragEnd_reorder
                (TaskBoard.mkEvent ("column-" +:+ ProjectStatus.id x)
                                   (Some ("column-" +:+ ProjectStatus.id z)))
                b1 ("column-" +:+ ProjectStatus.id z) d s)
      as (back & c1 & Hback & _ & _ & Hrun2); simpl;
      rewrite ?startsWith_append, ?replace_first_append, ?Hcols1;
      try done; try by apply BoardFacts.findIndex_NoDup.
    rewrite Hcols1 in Hback.
    rewrite (arrayMove_inverse _ _ _ _ Hs Hd Hnew) in Hback.
    injection Hback as <-.
    eexists _, b1, _, z, _, _, _. split; [exact Hrun1|].
    rewrite Hcols1. split_and!; [done | done | exact Hrun2 |].
    apply BoardFacts.columns_of_idem.
Qed.

Lemma reorder_then_inverse_restores_witness :
  (∃ new,
     arrayMove Samples.four_columns 0 2 = Some new
     ∧ arrayMove new 2 0 = Some Samples.four_columns)
  ∧ (∃ p1 b1 e1 p2 b2 e2,
       TaskBoard.handleDragEnd
         (TaskBoard.mkEvent "column-s-todo" (Some "column-s-review"))
         (Samples.dragging_column Samples.four_columns "s-todo")
       = Some (p1, b1, e1)
       ∧ TaskBoard.handleDragEnd
           (TaskBoard.mkEvent "column-s-todo" (Some "column-s-doing")) b1
         = Some (p2, b2, e2)
       ∧ TaskBoard.columns b2 = Samples.four_columns).
Proof.
  destruct reorder_then_inverse_restores as [Hmove Hboard]. split.
  - destruct (Hmove Samples.four_columns 0%nat 2%nat)
      as (new & Hnew & _ & Hback); [simpl; lia | simpl; lia |].
    exists new. split; [exact Hnew | exact Hback].
  - destruct (Hboard (Samples.dragging_column Samples.four_columns "s-todo")
                0%nat 2%nat Samples.col_todo Samples.col_in_review "p1")
      as (p1 & b1 & e1 & z & p2 & b2 & e2 & Hrun1 & _ & Hz & Hrun2 & Hcols);
      [by apply (bool_decide_unpack _); vm_compute
      | by apply (bool_decide_unpack _); vm_compute
      | reflexivity | reflexivity | lia |].
    exists p1, b1, e1, p2, b2, e2. split; [exact Hrun1|].
    assert (z = Samples.col_in_progress) as ->.
    { vm_compute in Hrun1. injection Hrun1 as _ <- _.
      vm_compute in Hz. by injection Hz as <-. }
    split; [exact Hrun2 | exact Hcols].
Defined.

End ColumnOrder.

(** * The cards of a column *)

Module Grouping.
Import JS TaskBoard.



(** With a non-empty column list, no column named [__proto__] and no
    card whose [statusId] names a member of [Object.prototype] without
    naming a column, the grouping returns, gives every column its
    bucket and no other, and files every card in exactly one of them:
    the buckets together hold the cards of the input, each as often as
    the input does; a card lies in the bucket of its effective column
    and in no second one; when the column identifiers are distinct, the
    columns as they are drawn show every card once. With columns of the
    slugs todo, in_progress and done, a card without column identifier
    and with the legacy status IN_REVIEW lies in the bucket of the first
    column. *)
Theorem every_card_in_exactly_one_bucket
    (columns : list ProjectStatus) (tasks : list Task) :
  columns ≠ [] →
  "__proto__" ∉ map ProjectStatus.id columns →
  Forall (λ t, clashes columns t = false) tasks →
  ∃ result,
    tasksByStatusId tasks columns = Returns result
    ∧ keyed result columns
    ∧ cards result ≡ₚ tasks
    ∧ (NoDup (map ProjectStatus.id columns) →
       concat (map (columnTasks result) columns) ≡ₚ tasks)
    ∧ (∀ t, t ∈ tasks →
         ∃ k l, effectiveColumn columns t = Some k
                ∧ result !! k = Some l ∧ t ∈ l)
    ∧ (∀ t k1 k2 l1 l2,
         result !! k1 = Some l1 → t ∈ l1 →
         result !! k2 = Some l2 → t ∈ l2 → k1 = k2)
    ∧ (∀ c1 c2 c3 t,
         columns = [c1; c2; c3] →
         ProjectStatus.slug c1 = "todo" →
         ProjectStatus.slug c2 = "in_progress" →
         ProjectStatus.slug c3 = "done" →
         truthy (Task.statusId t) = false → Task.status t = IN_REVIEW →
         t ∈ tasks →
         ∃ l, result !! ProjectStatus.id c1 = Some l ∧ t ∈ l).
Proof.
  intros Hne Hproto Hplain.
  pose proof (GroupingFacts.tasksByStatusId_Returns _ _ Hproto Hplain) as Hrun.
  eexists. split; [exact Hrun|].
  set (result := foldl _ _ tasks) in *.
  assert (∀ t k, t ∈ tasks → effectiveColumn columns t = Some k →
                 ∃ l, result !! k = Some l ∧ t ∈ l) as Hfiled.
  { intros t k Ht Hk.
    rewrite (GroupingFacts.tasksByStatusId_lookup _ _ _ _ Hrun).
    rewrite bool_decide_eq_true_2 by by eapply GroupingFacts.effectiveColumn_in.
    eexists. split; [done|]. by apply list_elem_of_filter. }
  assert (∀ t k l, result !! k = Some l → t ∈ l →
                   effectiveColumn columns t = Some k) as Hbucket.
  { intros t k l Hl Ht.
    rewrite (GroupingFacts.tasksByStatusId_lookup _ _ _ _ Hrun) in Hl.
    case_bool_decide; simplify_eq. by apply list_elem_of_filter in Ht as [? _]. }
  split_and!.
  - by eapply GroupingFacts.tasksByStatusId_keyed.
  - by eapply GroupingFacts.tasksByStatusId_cards.
  - intros Hnd. by eapply GroupingFacts.drawn_cards.
  - intros t Ht.
    destruct (GroupingFacts.effectiveColumn_is_Some columns t Hne) as [k Hk].
    destruct (Hfiled t k Ht Hk) as (l & ? & ?). by exists k, l.
  - intros t k1 k2 l1 l2 Hl1 Ht1 Hl2 Ht2.
    pose proof (Hbucket _ _ _ Hl1 Ht1). pose proof (Hbucket _ _ _ Hl2 Ht2).
    congruence.
  - intros c1 c2 c3 t -> Hs1 Hs2 Hs3 Hid Hst Ht.
    apply Hfiled; [done|].
    unfold effectiveColumn, matchingStatusId, or_else. rewrite Hid, Hst. simpl.
    rewrite Hs1, Hs2, Hs3. simpl.
    by case_match.
Qed.

Lemma every_card_in_exactly_one_bucket_witness :
  ∃ result,
    tasksByStatusId Samples.sample_tasks Samples.three_columns = Returns result
    ∧ cards result ≡ₚ Samples.sample_tasks
    ∧ result !! "s-todo" = Some [Samples.todo_card; Samples.legacy_card]
    ∧ ∃ l, result !! "s-todo" = Some l ∧ Samples.legacy_card ∈ l.
Proof.
  destruct (every_card_in_exactly_one_bucket
              Samples.three_columns Samples.sample_tasks)
    as (result & Hrun & _ & Hcards & _ & _ & _ & Hlegacy).
  - by vm_compute.
  - by apply (bool_decide_unpack _); vm_compute.
  - by apply (bool_decide_unpack _); vm_compute.
  - exists result. split_and!.
    + exact Hrun.
    + exact Hcards.
    + rewrite (GroupingFacts.tasksByStatusId_lookup _ _ _ _ Hrun). by vm_compute.
    + apply (Hlegacy Samples.col_todo Samples.col_in_progress Samples.col_done);
        try reflexivity.
      by apply (bool_decide_unpack _); vm_compute.
Defined.

(** How the memo ends, for every list of cards and of columns: with a
    column named [__proto__] the run is not followed; otherwise it
    throws exactly when some card has a [statusId] that names a member
    of [Object.prototype] and no column, and it returns exactly when no
    card has. *)
Theorem grouping_throws_exactly_on_clash
    (columns : list ProjectStatus) (tasks : list Task) :
  (tasksByStatusId tasks columns = PrototypeReplaced
   ↔ "__proto__" ∈ map ProjectStatus.id columns)
  ∧ (tasksByStatusId tasks columns = TypeError
     ↔ ("__proto__" ∉ map ProjectStatus.id columns)
       ∧ Exists (λ t, clashes columns t = true) tasks)
  ∧ ((∃ result, tasksByStatusId tasks columns = Returns result)
     ↔ ("__proto__" ∉ map ProjectStatus.id columns)
       ∧ Forall (λ t, clashes columns t = false) tasks).
Proof.
  destruct (decide ("__proto__" ∈ map ProjectStatus.id columns)) as [Hin | Hout].
  { rewrite (GroupingFacts.tasksByStatusId_PrototypeReplaced _ _ Hin).
    split_and!; split; try done; try by intros [? _]. by intros [? ?]. }
  destruct (GroupingFacts.clash_dec columns tasks) as [Hall | Hex].
  - rewrite (GroupingFacts.tasksByStatusId_Returns _ _ Hout Hall).
    split_and!; split; try done.
    + intros [_ Hex]. exfalso.
      apply Exists_exists in Hex as (t & Ht & Hclash).
      rewrite Forall_forall in Hall. specialize (Hall t Ht). congruence.
    + intros _. by eexists.
  - rewrite (GroupingFacts.tasksByStatusId_TypeError _ _ Hout Hex).
    split_and!; split; try done.
    + by intros [? ?].
    + intros [_ Hall]. exfalso.
      apply Exists_exists in Hex as (t & Ht & Hclash).
      rewrite Forall_forall in Hall. specialize (Hall t Ht). congruence.
Qed.

(** C2. The claim fails on a card whose [statusId] is [constructor]
    while no column has that identifier: its effective column is the
    first column, yet the memo finds the constructor that [result]
    inherits, calls a [push] it does not have and throws; no card is
    filed, whether the card stands alone or after the other cards. *)
Theorem inherited_key_card_is_not_filed :
  let task := Samples.card "t-3" TODO (Some "constructor") in
  effectiveColumn Samples.three_columns task = Some "s-todo"
  ∧ tasksByStatusId [task] Samples.three_columns = TypeError
  ∧ tasksByStatusId (Samples.sample_tasks ++ [task]) Samples.three_columns
    = TypeError.
Proof. intros task. split_and!; by vm_compute. Qed.



End Grouping.

(** * Optimistic updates and their failure *)

Module Reconcile.
Import JS.

(** C1. A column reorder whose request is rejected, with nothing else
    happening in between, leaves the columns exactly as they were shown
    before the reorder, and tells the user: on the board an alert, on the
    settings page its error line. *)
Theorem failed_reorder_restores_order :
  (∀ ev b cols b1 e1 message,
     TaskBoard.handleDragEnd ev b
       = Some (Some (TaskBoard.AwaitReorderStatuses cols), b1, e1) →
     (∃ pid ids, ReorderStatuses pid ids ∈ e1)
     ∧ ∃ b2 e2,
         TaskBoard.settle (TaskBoard.AwaitReorderStatuses cols)
                          (Rejected message) b1 = Some ((), b2, e2)
         ∧ TaskBoard.columns b2 = TaskBoard.columns b
         ∧ ∃ text, Alert text ∈ e2)
  ∧ (∀ ev st p st1 e1 message,
       StatusSettings.handleDragEnd ev st = Some (Some p, st1, e1) →
       (∃ pid ids, ReorderStatuses pid ids ∈ e1)
       ∧ ∃ st2 e2,
           StatusSettings.settle p (Rejected message) st1 = Some ((), st2, e2)
           ∧ StatusSettings.statuses st2 = StatusSettings.statuses st
           ∧ is_Some (StatusSettings.error st2)).
Proof.
  split.
  - intros ev b cols b1 e1 message Hrun.
    apply BoardFacts.handleDragEnd_reorder_inv in Hrun
      as (s & d & new & pid & -> & _ & _ & _ & -> & _ & _ & ->).
    split.
    { exists pid, (map ProjectStatus.id new). set_solver. }
    rewrite BoardFacts.settle_reorder_rejected. eexists _, _. split; [done|].
    split.
    + apply BoardFacts.columns_of_idem.
    + eexists. right. left.
  - intros ev st p st1 e1 message Hrun.
    apply SettingsFacts.settings_handleDragEnd_inv in Hrun as (new & -> & -> & ->).
    split.
    { eexists _, _. right. left. }
    rewrite SettingsFacts.settings_settle_rejected. eexists _, _.
    split; [done|]. split; [done | by eexists].
Qed.

Lemma failed_reorder_restores_order_witness :
  (∃ b1 e1 b2 e2,
     TaskBoard.handleDragEnd
       (TaskBoard.mkEvent "column-s-todo" (Some "column-s-done"))
       (Samples.dragging_column Samples.three_columns "s-todo")
     = Some (Some (TaskBoard.AwaitReorderStatuses Samples.three_columns), b1, e1)
     ∧ TaskBoard.columns b1
       = [Samples.col_in_progress; Samples.col_done; Samples.col_todo]
     ∧ TaskBoard.settle (TaskBoard.AwaitReorderStatuses Samples.three_columns)
                        (Rejected "Network Error") b1 = Some ((), b2, e2)
     ∧ TaskBoard.columns b2 = Samples.three_columns)
  ∧ (∃ st1 e1 st2 e2,
       StatusSettings.handleDragEnd
         (StatusSettings.mkEvent "s-todo" (Some "s-done")) Samples.settings
       = Some (Some (StatusSettings.AwaitReorderStatuses Samples.four_columns),
               st1, e1)
       ∧ StatusSettings.settle
           (StatusSettings.AwaitReorderStatuses Samples.four_columns)
           (Rejected "Network Error") st1 = Some ((), st2, e2)
       ∧ StatusSettings.statuses st2 = Samples.four_columns).
Proof.
  destruct failed_reorder_restores_order as [Hboard Hsettings]. split.
  - eassert (TaskBoard.handleDragEnd
               (TaskBoard.mkEvent "column-s-todo" (Some "column-s-done"))
               (Samples.dragging_column Samples.three_columns "s-todo")
             = Some (Some (TaskBoard.AwaitReorderStatuses Samples.three_columns),
                     _, _)) as Hrun by (vm_compute; reflexivity).
    destruct (Hboard _ _ _ _ _ "Network Error" Hrun)
      as (_ & b2 & e2 & Hsettle & Hcols & _).
    eexists _, _, b2, e2. split_and!; [exact Hrun | by vm_compute | exact Hsettle |].
    exact Hcols.
  - eassert (StatusSettings.handleDragEnd
               (StatusSettings.mkEvent "s-todo" (Some "s-done")) Samples.settings
             = Some (Some (StatusSettings.AwaitReorderStatuses Samples.four_columns),
                     _, _)) as Hrun by (vm_compute; reflexivity).
    destruct (Hsettings _ _ _ _ _ "Network Error" Hrun)
      as (_ & st2 & e2 & Hsettle & Hsts & _).
    eexists _, _, st2, e2. split_and!; [exact Hrun | exact Hsettle | exact Hsts].
Defined.

(** C3, as the code has it. A reorder that fails hands back the order it
    started from, whatever was done to the board since: when a second
    gesture ended before the first request is rejected, the columns shown
    after the rejection are those shown before the first reorder, and the
    order of the second gesture is gone. It stays only when the first
    request is fulfilled. The settings page does the same. *)
Theorem stale_revert_restores_first_snapshot :
  (∀ ev1 b cols b1 e1 ev2 p2 b2 e2,
     TaskBoard.handleDragEnd ev1 b
       = Some (Some (TaskBoard.AwaitReorderStatuses cols), b1, e1) →
     TaskBoard.handleDragEnd ev2 b1 = Some (p2, b2, e2) →
     (∀ message, ∃ b3 e3,
        TaskBoard.settle (TaskBoard.AwaitReorderStatuses cols)
                         (Rejected message) b2 = Some ((), b3, e3)
        ∧ TaskBoard.columns b3 = TaskBoard.columns b)
     ∧ TaskBoard.settle (TaskBoard.AwaitReorderStatuses cols) Fulfilled b2
       = Some ((), b2, []))
  ∧ (∀ ev1 st p1 st1 e1 ev2 p2 st2 e2,
       StatusSettings.handleDragEnd ev1 st = Some (Some p1, st1, e1) →
       StatusSettings.handleDragEnd ev2 st1 = Some (p2, st2, e2) →
       (∀ message, ∃ st3 e3,
          StatusSettings.settle p1 (Rejected message) st2 = Some ((), st3, e3)
          ∧ StatusSettings.statuses st3 = StatusSettings.statuses st)
       ∧ StatusSettings.settle p1 Fulfilled st2 = Some ((), st2, [])).
Proof.
  split.
  - intros ev1 b cols b1 e1 ev2 p2 b2 e2 Hrun1 Hrun2.
    apply BoardFacts.handleDragEnd_reorder_inv in Hrun1
      as (s & d & new & pid & -> & _ & _ & _ & -> & _).
    apply BoardFacts.handleDragEnd_dropped in Hrun2.
    split; [|done]. intros message.
    rewrite BoardFacts.settle_reorder_rejected. eexists _, _. split; [done|].
    rewrite Hrun2. apply BoardFacts.columns_of_idem.
  - intros ev1 st p1 st1 e1 ev2 p2 st2 e2 Hrun1 Hrun2.
    apply SettingsFacts.settings_handleDragEnd_inv in Hrun1 as (new & -> & -> & ->).
    split; [|done]. intros message.
    rewrite SettingsFacts.settings_settle_rejected. by eexists _, _.
Qed.

Lemma stale_revert_restores_first_snapshot_witness :
  ∃ e1 p2 e2 e3,
    TaskBoard.handleDragEnd
      (TaskBoard.mkEvent "column-s-todo" (Some "column-s-doing"))
      (Samples.dragging_column Samples.three_columns "s-todo")
    = Some (Some (TaskBoard.AwaitReorderStatuses Samples.three_columns),
            Samples.reordered
              [Samples.col_in_progress; Samples.col_todo; Samples.col_done],
            e1)
    ∧ TaskBoard.handleDragEnd
        (TaskBoard.mkEvent "column-s-done" (Some "column-s-doing"))
        (Samples.reordered
           [Samples.col_in_progress; Samples.col_todo; Samples.col_done])
      = Some (p2,
              Samples.reordered
                [Samples.col_done; Samples.col_in_progress; Samples.col_todo],
              e2)
    ∧ TaskBoard.settle (TaskBoard.AwaitReorderStatuses Samples.three_columns)
        (Rejected "Network Error")
        (Samples.reordered
           [Samples.col_done; Samples.col_in_progress; Samples.col_todo])
      = Some ((), Samples.reordered Samples.three_columns, e3)
    ∧ TaskBoard.columns (Samples.reordered Samples.three_columns)
      = Samples.three_columns.
Proof.
  destruct stale_revert_restores_first_snapshot as [Hboard _].
  eassert (TaskBoard.handleDragEnd
             (TaskBoard.mkEvent "column-s-todo" (Some "column-s-doing"))
             (Samples.dragging_column Samples.three_columns "s-todo")
           = Some (Some (TaskBoard.AwaitReorderStatuses Samples.three_columns),
                   Samples.reordered
                     [Samples.col_in_progress; Samples.col_todo; Samples.col_done],
                   _)) as Hrun1 by reflexivity.
  eassert (TaskBoard.handleDragEnd
             (TaskBoard.mkEvent "column-s-done" (Some "column-s-doing"))
             (Samples.reordered
                [Samples.col_in_progress; Samples.col_todo; Samples.col_done])
           = Some (_,
                   Samples.reordered
                     [Samples.col_done; Samples.col_in_progress; Samples.col_todo],
                   _)) as Hrun2 by reflexivity.
  destruct (Hboard _ _ _ _ _ _ _ _ _ Hrun1 Hrun2) as [Hrej _].
  destruct (Hrej "Network Error") as (b3 & e3 & Hsettle & Hcols).
  assert (b3 = Samples.reordered Samples.three_columns) as ->.
  { vm_compute in Hsettle. by injection Hsettle as <- _. }
  eexists _, _, _, e3.
  split_and!; [exact Hrun1 | exact Hrun2 | exact Hsettle | exact Hcols].
Defined.

(** The claim C3 fails on the board: todo is dragged behind in progress,
    then done is dragged to the front, then the first request is
    rejected. The board showed done, in progress, todo and now shows
    todo, in progress, done. *)
Lemma stale_revert_clobbers_later_reorder :
  let first := [Samples.col_in_progress; Samples.col_todo; Samples.col_done] in
  let second := [Samples.col_done; Samples.col_in_progress; Samples.col_todo] in
  TaskBoard.handleDragEnd
    (TaskBoard.mkEvent "column-s-todo" (Some "column-s-doing"))
    (Samples.dragging_column Samples.three_columns "s-todo")
  = Some (Some (TaskBoard.AwaitReorderStatuses Samples.three_columns),
          Samples.reordered first,
          [ConsoleLog "[reorder] Calling API with:";
           ReorderStatuses "p1" ["s-doing"; "s-todo"; "s-done"]])
  ∧ TaskBoard.handleDragEnd
      (TaskBoard.mkEvent "column-s-done" (Some "column-s-doing"))
      (Samples.reordered first)
    = Some (Some (TaskBoard.AwaitReorderStatuses first),
            Samples.reordered second,
            [ConsoleLog "[reorder] Calling API with:";
             ReorderStatuses "p1" ["s-done"; "s-doing"; "s-todo"]])
  ∧ TaskBoard.columns (Samples.reordered second) = second
  ∧ (∃ e3,
       TaskBoard.settle (TaskBoard.AwaitReorderStatuses Samples.three_columns)
                        (Rejected "Network Error") (Samples.reordered second)
       = Some ((), Samples.reordered Samples.three_columns, e3))
  ∧ TaskBoard.columns (Samples.reordered Samples.three_columns)
    ≠ TaskBoard.columns (Samples.reordered second).
Proof.
  intros first second.
  split_and!; [by vm_compute | by vm_compute | by vm_compute | | by vm_compute].
  eexists. reflexivity.
Qed.

(** C4. A card dropped on a column other than its effective column gets
    that column in the state of the page before the request is issued
    (the trace has the update first, the request second). When the
    request is fulfilled nothing more changes, so the effective column
    stays the target; when it is rejected the card is put back as it
    was, with the column assignment it had, and the failure is logged.
    Identifiers of columns are taken to be non-empty strings. *)
Theorem card_move_is_optimistic ev b o task target message :
  TaskBoard.over ev = Some o →
  startsWith (TaskBoard.active ev) "column-" = false →
  TaskBoard.activeType b = Some TaskBoard.TaskDrag →
  find (λ t, seq (Task.id t) (TaskBoard.active ev)) (TaskBoard.tasks b)
    = Some task →
  TaskBoard.dropTarget (TaskBoard.tasks b) (TaskBoard.columns b) o
    = Some target →
  target ≠ "" →
  target ∈ map ProjectStatus.id (TaskBoard.columns b) →
  TaskBoard.effectiveColumn (TaskBoard.columns b) task ≠ Some target →
  let moved := Task.with_statusId task (Some target) in
  let find_card b' :=
    find (λ t, seq (Task.id t) (Task.id task)) (TaskBoard.tasks b') in
  ∃ b1 b2 e2,
    TaskBoard.handleDragEnd ev b
      = Some (Some (TaskBoard.AwaitUpdateTaskStatus task), b1,
              [OnTaskUpdate moved; UpdateTaskStatusById (Task.id task) target])
    ∧ TaskBoard.columns b1 = TaskBoard.columns b
    ∧ find_card b1 = Some moved
    ∧ Task.statusId moved = Some target
    ∧ TaskBoard.effectiveColumn (TaskBoard.columns b1) moved = Some target
    ∧ TaskBoard.settle (TaskBoard.AwaitUpdateTaskStatus task) Fulfilled b1
      = Some ((), b1, [])
    ∧ TaskBoard.settle (TaskBoard.AwaitUpdateTaskStatus task)
                       (Rejected message) b1 = Some ((), b2, e2)
    ∧ TaskBoard.columns b2 = TaskBoard.columns b
    ∧ find_card b2 = Some task
    ∧ (NoDup (map Task.id (TaskBoard.tasks b)) →
       TaskBoard.tasks b2 = TaskBoard.tasks b)
    ∧ (∃ text, ConsoleError text ∈ e2).
Proof.
  intros Ho Hcard Hty Hfind Htgt Hne Hin Heff moved find_card.
  destruct (BoardFacts.find_Some _ _ _ Hfind) as [Htask Hid%seq_true].
  assert (TaskBoard.resolvedStatusId (TaskBoard.columns b) task ≠ Some target)
    as Hcur.
  { intros E. apply Heff. by apply BoardFacts.resolved_is_effective. }
  pose proof Hfind as Hfirst. rewrite <- Hid in Hfirst.
  set (b1 := TaskBoard.dropped b (TaskBoard.handleTaskUpdate moved (TaskBoard.tasks b))
                               (TaskBoard.localStatuses b)).
  exists b1,
    (TaskBoard.dropped b
       (TaskBoard.handleTaskUpdate task
          (TaskBoard.handleTaskUpdate moved (TaskBoard.tasks b)))
       (TaskBoard.localStatuses b)),
    [ConsoleError "Failed to update task status:"; OnTaskUpdate task].
  split_and!.
  - rewrite Hid. apply (BoardFacts.handleDragEnd_move ev b o); try done.
    by rewrite Hcard.
  - reflexivity.
  - by apply (BoardFacts.find_handleTaskUpdate moved task).
  - reflexivity.
  - by apply BoardFacts.effectiveColumn_moved.
  - reflexivity.
  - reflexivity.
  - reflexivity.
  - apply (BoardFacts.find_handleTaskUpdate task moved).
    by apply (BoardFacts.find_handleTaskUpdate moved task).
  - intros Hnd. apply BoardFacts.handleTaskUpdate_undo; [done|].
    intros t' Ht' Hid'. by apply (BoardFacts.NoDup_ids_unique (TaskBoard.tasks b)).
  - eexists. left.
Qed.

Lemma card_move_is_optimistic_witness :
  ∃ b1 b2 e2,
    TaskBoard.handleDragEnd (TaskBoard.mkEvent "t-1" (Some "droppable-s-done"))
                            (Samples.dragging_card "t-1")
      = Some (Some (TaskBoard.AwaitUpdateTaskStatus Samples.todo_card), b1,
              [OnTaskUpdate (Task.with_statusId Samples.todo_card (Some "s-done"));
               UpdateTaskStatusById "t-1" "s-done"])
    ∧ TaskBoard.effectiveColumn (TaskBoard.columns b1)
        (Task.with_statusId Samples.todo_card (Some "s-done")) = Some "s-done"
    ∧ TaskBoard.settle (TaskBoard.AwaitUpdateTaskStatus Samples.todo_card)
                       (Rejected "Network Error") b1 = Some ((), b2, e2)
    ∧ TaskBoard.tasks b2 = Samples.sample_tasks
    ∧ TaskBoard.effectiveColumn (TaskBoard.columns b2) Samples.todo_card
      = Some "s-todo".
Proof.
  destruct (card_move_is_optimistic
              (TaskBoard.mkEvent "t-1" (Some "droppable-s-done"))
              (Samples.dragging_card "t-1") "droppable-s-done"
              Samples.todo_card "s-done" "Network Error")
    as (b1 & b2 & e2 & Hrun & _ & _ & _ & Heff & _ & Hsettle & Hcols & _ & Hundo & _);
    [reflexivity | reflexivity | reflexivity | reflexivity | reflexivity
    | by vm_compute | by apply (bool_decide_unpack _); vm_compute
    | by vm_compute |].
  exists b1, b2, e2. split_and!; [exact Hrun | exact Heff | exact Hsettle | |].
  - apply Hundo. by apply (bool_decide_unpack _); vm_compute.
  - rewrite Hcols. by vm_compute.
Defined.

(** C7, as the code has it. The board turns a gesture down before it
    changes the cards or the column order and before it issues any
    request (it only clears the state of the drag)
    - when a column is dropped on itself, or when the identifier of the
      dragged column or of the column dropped on is not among the
      columns shown;
    - when a card is dropped where no column is found, or on the column
      the handler resolves for the card: its column identifier, else the
      column whose slug matches its legacy status. The handler has no
      first-column fallback here. *)
Theorem rejected_gestures_change_nothing :
  (∀ ev b o,
     TaskBoard.over ev = Some o →
     startsWith (TaskBoard.active ev) "column-" = true →
     startsWith o "column-" = true →
     replace_first (TaskBoard.active ev) "column-" = replace_first o "column-"
     ∨ findIndex (λ c, seq (ProjectStatus.id c)
                           (replace_first (TaskBoard.active ev) "column-"))
                 (TaskBoard.columns b) = -1
     ∨ findIndex (λ c, seq (ProjectStatus.id c) (replace_first o "column-"))
                 (TaskBoard.columns b) = -1 →
     ∃ b1,
       TaskBoard.handleDragEnd ev b = Some (None, b1, [])
       ∧ TaskBoard.tasks b1 = TaskBoard.tasks b
       ∧ TaskBoard.statuses b1 = TaskBoard.statuses b
       ∧ TaskBoard.localStatuses b1 = TaskBoard.localStatuses b
       ∧ TaskBoard.columns b1 = TaskBoard.columns b)
  ∧ (∀ ev b o task,
       TaskBoard.over ev = Some o →
       startsWith (TaskBoard.active ev) "column-" && startsWith o "column-"
         = false →
       find (λ t, seq (Task.id t) (TaskBoard.active ev)) (TaskBoard.tasks b)
         = Some task →
       truthy (TaskBoard.dropTarget (TaskBoard.tasks b) (TaskBoard.columns b) o)
         = false
       ∨ TaskBoard.dropTarget (TaskBoard.tasks b) (TaskBoard.columns b) o
         = TaskBoard.resolvedStatusId (TaskBoard.columns b) task →
       ∃ b1,
         TaskBoard.handleDragEnd ev b = Some (None, b1, [])
         ∧ TaskBoard.tasks b1 = TaskBoard.tasks b
         ∧ TaskBoard.statuses b1 = TaskBoard.statuses b
         ∧ TaskBoard.localStatuses b1 = TaskBoard.localStatuses b
         ∧ TaskBoard.columns b1 = TaskBoard.columns b).
Proof.
  split.
  - intros ev b o Ho Ha Hoc Hcase.
    rewrite (BoardFacts.handleDragEnd_reorder_noop ev b o) by done.
    by eexists.
  - intros ev b o task Ho Hbr Hfind Hcase.
    rewrite (BoardFacts.handleDragEnd_move_noop ev b o task) by done.
    by eexists.
Qed.

Lemma rejected_gestures_change_nothing_witness :
  (∃ b1,
     TaskBoard.handleDragEnd
       (TaskBoard.mkEvent "column-s-todo" (Some "column-s-gone"))
       (Samples.dragging_column Samples.three_columns "s-todo")
     = Some (None, b1, [])
     ∧ TaskBoard.columns b1 = Samples.three_columns)
  ∧ (∃ b1,
       TaskBoard.handleDragEnd
         (TaskBoard.mkEvent "t-1" (Some "droppable-s-todo"))
         (Samples.dragging_card "t-1")
       = Some (None, b1, [])
       ∧ TaskBoard.tasks b1 = Samples.sample_tasks).
Proof.
  destruct rejected_gestures_change_nothing as [Hcolumn Hcard]. split.
  - destruct (Hcolumn (TaskBoard.mkEvent "column-s-todo" (Some "column-s-gone"))
                (Samples.dragging_column Samples.three_columns "s-todo")
                "column-s-gone")
      as (b1 & Hrun & _ & _ & _ & Hcols);
      [reflexivity | reflexivity | reflexivity | right; right; reflexivity |].
    exists b1. split; [exact Hrun | exact Hcols].
  - destruct (Hcard (TaskBoard.mkEvent "t-1" (Some "droppable-s-todo"))
                (Samples.dragging_card "t-1") "droppable-s-todo"
                Samples.todo_card)
      as (b1 & Hrun & Htasks & _);
      [reflexivity | reflexivity | reflexivity | right; reflexivity |].
    exists b1. split; [exact Hrun | exact Htasks].
Defined.

(** The claim C7 fails for a card that is shown in the first column by
    fallback: the card without column identifier and with the legacy
    status in review has the effective column todo on a board without
    review column; dropped on todo, where it is, it is given the column
    identifier of todo and a request is issued. *)
Lemma same_column_drop_of_fallback_card_is_persisted :
  let b := Samples.dragging_card "t-legacy" in
  let ev := TaskBoard.mkEvent "t-legacy" (Some "droppable-s-todo") in
  let moved := Task.with_statusId Samples.legacy_card (Some "s-todo") in
  TaskBoard.effectiveColumn (TaskBoard.columns b) Samples.legacy_card
    = Some "s-todo"
  ∧ TaskBoard.dropTarget (TaskBoard.tasks b) (TaskBoard.columns b)
                         "droppable-s-todo" = Some "s-todo"
  ∧ TaskBoard.handleDragEnd ev b
    = Some (Some (TaskBoard.AwaitUpdateTaskStatus Samples.legacy_card),
            TaskBoard.dropped b [Samples.todo_card; moved; Samples.done_card]
                              Samples.three_columns,
            [OnTaskUpdate moved; UpdateTaskStatusById "t-legacy" "s-todo"])
  ∧ [Samples.todo_card; moved; Samples.done_card] ≠ TaskBoard.tasks b
  ∧ ¬ (∃ b1, TaskBoard.handleDragEnd ev b = Some (None, b1, [])).
Proof.
  intros b ev moved.
  assert (TaskBoard.handleDragEnd ev b
          = Some (Some (TaskBoard.AwaitUpdateTaskStatus Samples.legacy_card),
                  TaskBoard.dropped b [Samples.todo_card; moved; Samples.done_card]
                                    Samples.three_columns,
                  [OnTaskUpdate moved; UpdateTaskStatusById "t-legacy" "s-todo"]))
    as Hrun by by vm_compute.
  split_and!; [by vm_compute | by vm_compute | exact Hrun | by vm_compute |].
  intros [b1 Hnoop]. rewrite Hrun in Hnoop. discriminate Hnoop.
Qed.

(** C9. While the first column shown has the empty project identifier,
    as the built-in columns have, a column reorder puts the new order
    into the state of the board and issues no request: nothing is left
    pending, so nothing can be rejected and nothing is put back. *)
Theorem default_reorder_is_local ev b o (s d : nat) c0 :
  TaskBoard.over ev = Some o →
  startsWith (TaskBoard.active ev) "column-" = true →
  startsWith o "column-" = true →
  replace_first (TaskBoard.active ev) "column-" ≠ replace_first o "column-" →
  findIndex (λ c, seq (ProjectStatus.id c)
                      (replace_first (TaskBoard.active ev) "column-"))
            (TaskBoard.columns b) = Z.of_nat s →
  findIndex (λ c, seq (ProjectStatus.id c) (replace_first o "column-"))
            (TaskBoard.columns b) = Z.of_nat d →
  head (TaskBoard.columns b) = Some c0 →
  ProjectStatus.projectId c0 = "" →
  ∃ new b1 e1,
    list_move (TaskBoard.columns b) s d = Some new
    ∧ TaskBoard.handleDragEnd ev b = Some (None, b1, e1)
    ∧ TaskBoard.localStatuses b1 = new
    ∧ Forall (λ e, is_request e = false) e1.
Proof.
  intros Ho Ha Hoc Hne Hs Hd Hhead Hpid.
  destruct (BoardFacts.handleDragEnd_reorder ev b o s d)
    as (new & c0' & _ & Hmove & Hhead' & Hrun); try done.
  rewrite Hhead in Hhead'. injection Hhead' as <-.
  rewrite Hpid in Hrun. simpl in Hrun. rewrite app_nil_r in Hrun.
  eexists new, _, _. split_and!; [done | exact Hrun | done |].
  destruct (TaskBoard.onStatusesReorder b); repeat constructor.
Qed.

Lemma default_reorder_is_local_witness :
  ∃ b1 e1,
    TaskBoard.handleDragEnd
      (TaskBoard.mkEvent "column-todo" (Some "column-in_progress"))
      Samples.default_board
    = Some (None, b1, e1)
    ∧ map ProjectStatus.id (TaskBoard.localStatuses b1)
      = ["in_progress"; "todo"; "in_review"; "done"]
    ∧ Forall (λ e, is_request e = false) e1.
Proof.
  destruct (default_reorder_is_local
              (TaskBoard.mkEvent "column-todo" (Some "column-in_progress"))
              Samples.default_board "column-in_progress" 0%nat 1%nat
              (ProjectStatus.mk "todo" "" "TODO" "todo" "#6B7280" 0 0 ""))
    as (new & b1 & e1 & Hnew & Hrun & Hlocal & Hquiet);
    [reflexivity | reflexivity | reflexivity | by vm_compute
    | reflexivity | reflexivity | reflexivity | reflexivity |].
  exists b1, e1. split_and!; [exact Hrun | | exact Hquiet].
  rewrite Hlocal. vm_compute in Hnew. by injection Hnew as <-.
Defined.

End Reconcile.

(** * The built-in columns *)

Module DefaultColumns.
Import JS TaskBoard.

(** C8, as the code has it. A board rendered with an empty status list
    uses the four built-in columns, with the slugs todo, in_progress,
    in_review and done, the positions 0 to 3 in that order and only done
    counting as complete, as long as it holds no local column order that
    starts with a column of the empty project identifier; so it does when
    it is first rendered. Once it holds such an order, which a reorder of
    the built-in columns leaves behind, it uses that order. *)
Theorem empty_statuses_show_defaults (b : Board) :
  statuses b = [] →
  (ProjectStatus.projectId <$> head (localStatuses b) ≠ Some "" →
   columns b = DEFAULT_STATUSES)
  ∧ (ProjectStatus.projectId <$> head (localStatuses b) = Some "" →
     columns b = localStatuses b)
  ∧ (∀ tasks, columns (mount tasks []) = DEFAULT_STATUSES)
  ∧ map ProjectStatus.slug DEFAULT_STATUSES
    = ["todo"; "in_progress"; "in_review"; "done"]
  ∧ map ProjectStatus.position DEFAULT_STATUSES = [0; 1; 2; 3]
  ∧ map ProjectStatus.isDone DEFAULT_STATUSES = [0; 0; 0; 1].
Proof.
  intros Hst. unfold columns, columns_of. rewrite Hst. simpl.
  split_and!; try reflexivity.
  - intros Hlocal. rewrite bool_decide_eq_false_2 by done.
    by rewrite andb_false_r.
  - intros Hlocal. rewrite bool_decide_eq_true_2 by done.
    destruct (localStatuses b); [done | reflexivity].
Qed.

Lemma empty_statuses_show_defaults_witness :
  columns Samples.default_board = DEFAULT_STATUSES.
Proof.
  destruct (empty_statuses_show_defaults Samples.default_board)
    as (Hfresh & _); [reflexivity|].
  apply Hfresh. by vm_compute.
Defined.

(** The claim C8 fails after a reorder of the built-in columns: todo is
    dragged behind in progress on the board of a project without
    statuses; the status list is still empty and the board shows in
    progress first. *)
Lemma reordered_defaults_are_shown :
  ∃ b1,
    handleDragEnd (mkEvent "column-todo" (Some "column-in_progress"))
                  Samples.default_board
    = Some (None, b1, [])
    ∧ statuses b1 = []
    ∧ map ProjectStatus.slug (columns b1)
      = ["in_progress"; "todo"; "in_review"; "done"]
    ∧ map ProjectStatus.position (columns b1) = [1; 0; 2; 3]
    ∧ columns b1 ≠ DEFAULT_STATUSES.
Proof.
  eexists. split; [reflexivity|].
  split_and!; by vm_compute.
Qed.

End DefaultColumns.

(** * More on arrays *)

Module ArrayFacts.
Import JS.

Section Splice.
Context {A : Type}.
Implicit Types (arr items : list A).

Lemma relativeStart_range (len start : Z) :
  0 ≤ len → 0 ≤ relativeStart len start ≤ len.
Proof. unfold relativeStart. destruct (start <? 0) eqn:E; lia. Qed.

(** [splice] loses nothing: what it removed and what it left are the
    array and the inserted items. *)
Lemma splice_Permutation arr start deleteCount items :
  fst (splice arr start deleteCount items) ++ snd (splice arr start deleteCount items)
  ≡ₚ arr ++ items.
Proof.
  unfold splice. cbv zeta. simpl.
  pose proof (relativeStart_range (Z.of_nat (length arr)) start ltac:(lia)) as Hs.
  set (s := relativeStart (Z.of_nat (length arr)) start) in *.
  set (dc := Z.min (Z.max deleteCount 0) (Z.of_nat (length arr) - s)).
  assert (0 ≤ dc) by lia.
  replace (Z.to_nat (s + dc)) with (Z.to_nat s + Z.to_nat dc)%nat by lia.
  set (a := take (Z.to_nat s) arr).
  set (m := take (Z.to_nat dc) (drop (Z.to_nat s) arr)).
  set (z := drop (Z.to_nat s + Z.to_nat dc) arr).
  assert (arr = a ++ m ++ z) as Harr.
  { subst a m z. by rewrite <- drop_drop, !take_drop. }
  clearbody a m z s dc. subst arr.
  rewrite Permutation_app_swap_app. rewrite <- !app_assoc.
  do 2 f_equiv. apply Permutation_app_comm.
Qed.

Lemma splice_removed_one arr start items x rest :
  fst (splice arr start 1 items) = x :: rest → rest = [].
Proof.
  unfold splice. cbv zeta. simpl.
  pose proof (relativeStart_range (Z.of_nat (length arr)) start ltac:(lia)) as Hs.
  set (s := relativeStart (Z.of_nat (length arr)) start) in *.
  intros E. apply (f_equal length) in E. rewrite length_take in E. simpl in E.
  destruct rest; [done|]. simpl in E. lia.
Qed.

(** [arrayMove] keeps the elements, whatever the indices are. *)
Lemma arrayMove_Permutation_any arr (from to : Z) new :
  arrayMove arr from to = Some new → new ≡ₚ arr.
Proof.
  unfold arrayMove. cbv zeta.
  pose proof (splice_Permutation arr from 1 []) as H1.
  pose proof (splice_removed_one arr from []) as Hone.
  destruct (splice arr from 1 []) as [removed rest]. simpl in *.
  destruct removed as [|x removed]; [done|]. intros [= <-].
  rewrite (Hone x removed eq_refl) in H1.
  pose proof (splice_Permutation rest
                (if to <? 0 then Z.of_nat (length arr) + to else to) 0 [x]) as H2.
  assert (fst (splice rest (if to <? 0 then Z.of_nat (length arr) + to else to) 0 [x])
          = []) as Hnone.
  { unfold splice. cbv zeta. simpl.
    pose proof (relativeStart_range (Z.of_nat (length rest))
                  (if to <? 0 then Z.of_nat (length arr) + to else to) ltac:(lia)).
    match goal with |- take ?n _ = _ => replace n with O by lia end. done. }
  rewrite Hnone in H2. simpl in H2. rewrite H2, app_nil_r in *.
  rewrite <- H1. simpl. by rewrite Permutation_app_comm.
Qed.

(** [arrayMove] answers an array unless there is nothing to take out:
    the array is empty or [from] lies behind its end. *)
Lemma arrayMove_is_Some_iff arr (from : Z) to :
  is_Some (arrayMove arr from to) ↔ arr ≠ [] ∧ from < Z.of_nat (length arr).
Proof.
  unfold arrayMove, splice. cbv zeta.
  pose proof (relativeStart_range (Z.of_nat (length arr)) from ltac:(lia)) as Hs.
  set (s := relativeStart (Z.of_nat (length arr)) from) in *.
  set (dc := Z.min (Z.max 1 0) (Z.of_nat (length arr) - s)).
  destruct (take (Z.to_nat dc) (drop (Z.to_nat s) arr)) as [|x r] eqn:E.
  - split; [by intros ?%is_Some_None|]. intros [Hne Hlt]. exfalso.
    apply (f_equal length) in E. rewrite length_take, length_drop in E. simpl in E.
    assert (0 < length arr)%nat by (destruct arr; [done | simpl; lia]).
    subst s dc. unfold relativeStart in *. destruct (from <? 0) eqn:Ef; lia.
  - split; [|by eauto]. intros _.
    apply (f_equal length) in E. rewrite length_take, length_drop in E. simpl in E.
    assert (arr ≠ []) by (intros ->; simpl in E; lia).
    split; [done|].
    subst s dc. unfold relativeStart in *. destruct (from <? 0) eqn:Ef; lia.
Qed.

(** The index [-1] stands for the last place, as source and as target. *)
Lemma arrayMove_from_minus_one arr to :
  arr ≠ [] →
  arrayMove arr (-1) to = arrayMove arr (Z.of_nat (length arr) - 1) to.
Proof.
  intros Hne. assert (0 < length arr)%nat by (destruct arr; [done | simpl; lia]).
  unfold arrayMove, splice, relativeStart. cbv zeta.
  replace (-1 <? 0) with true by reflexivity.
  replace (Z.of_nat (length arr) - 1 <? 0) with false
    by (symmetry; apply Z.ltb_ge; lia).
  replace (Z.max (Z.of_nat (length arr) + -1) 0)
    with (Z.min (Z.of_nat (length arr) - 1) (Z.of_nat (length arr))) by lia.
  done.
Qed.

Lemma arrayMove_to_minus_one arr from :
  arr ≠ [] →
  arrayMove arr from (-1) = arrayMove arr from (Z.of_nat (length arr) - 1).
Proof.
  intros Hne. assert (0 < length arr)%nat by (destruct arr; [done | simpl; lia]).
  unfold arrayMove. cbv zeta.
  replace (-1 <? 0) with true by reflexivity.
  replace (Z.of_nat (length arr) - 1 <? 0) with false
    by (symmetry; apply Z.ltb_ge; lia).
  by replace (Z.of_nat (length arr) + -1) with (Z.of_nat (length arr) - 1) by lia.
Qed.

Lemma insert_at_end x (l : list A) : insert_at (length l) x l = l ++ [x].
Proof. induction l as [|y l IH]; simpl; [done | by rewrite IH]. Qed.

(** Moved to the index [-1], an element goes to the end. *)
Lemma arrayMove_to_end arr (s : nat) x :
  arr !! s = Some x →
  arrayMove arr (Z.of_nat s) (-1) = Some (delete s arr ++ [x]).
Proof.
  intros Hx. pose proof (lookup_lt_Some _ _ _ Hx) as Hlt.
  rewrite arrayMove_to_minus_one by (intros ->; simpl in Hlt; lia).
  replace (Z.of_nat (length arr) - 1) with (Z.of_nat (length arr - 1)) by lia.
  rewrite (arrayMove_valid _ _ _ _ Hx) by lia.
  rewrite <- (insert_at_end x (delete s arr)).
  by rewrite length_delete by eauto.
Qed.
End Splice.

End ArrayFacts.
(** * The slug of a new status *)

Module SlugFacts.
Import JS StatusForms.

Lemma is_lower_alnum_underscore : is_lower_alnum "_" = false.
Proof. reflexivity. Qed.

Lemma not_alnum_eqb_underscore c :
  is_lower_alnum c = true → Ascii.eqb c "_" = false.
Proof.
  intros H. apply Ascii.eqb_neq. intros ->. by rewrite is_lower_alnum_underscore in H.
Qed.

Lemma lower_char_alnum c : is_lower_alnum c = true → lower_char c = c.
Proof.
  destruct c as [[] [] [] [] [] [] [] []]; vm_compute; done.
Qed.

Lemma lower_char_underscore : lower_char "_" = "_"%char.
Proof. reflexivity. Qed.

Lemma runs_ok_replace_runs b s : runs_ok b (replace_runs b s) = true.
Proof.
  revert b; induction s as [|c s IH]; intros b; simpl; [done|].
  destruct (is_lower_alnum c) eqn:Hc; simpl.
  - by rewrite Hc.
  - destruct b; [done|]. simpl. by rewrite IH.
Qed.

Lemma runs_ok_alnum_head b c s :
  is_lower_alnum c = true → runs_ok b (String c s) = runs_ok false s.
Proof. intros H. simpl. by rewrite H. Qed.

Lemma normal_strip_last b s :
  runs_ok b s = true → slug_normal_from b (strip_last_underscore s) = true.
Proof.
  revert b; induction s as [|c s IH]; intros b; [done|].
  destruct s as [|c' s].
  - simpl. destruct (is_lower_alnum c) eqn:Hc.
    + rewrite (not_alnum_eqb_underscore c Hc). simpl. by rewrite Hc.
    + destruct (Ascii.eqb c "_"); done.
  - change (strip_last_underscore (String c (String c' s)))
      with (String c (strip_last_underscore (String c' s))).
    change (runs_ok b (String c (String c' s)))
      with (if is_lower_alnum c then runs_ok false (String c' s)
            else Ascii.eqb c "_" && negb b && runs_ok true (String c' s)).
    cbn [slug_normal_from].
    destruct (is_lower_alnum c) eqn:Hc; [apply IH|].
    intros [[Hus Hb]%andb_prop Hrest]%andb_prop.
    rewrite Hus, Hb, (IH _ Hrest), andb_true_r. cbn [andb].
    (* what is left is not empty: an underscore follows no underscore *)
    destruct (strip_last_underscore (String c' s)) as [|] eqn:E; [|done].
    exfalso. destruct s as [|c'' s].
    + simpl in E. destruct (Ascii.eqb c' "_") eqn:Hc'; [|done].
      apply Ascii.eqb_eq in Hc' as ->. simpl in Hrest. done.
    + simpl in E. done.
Qed.

(** The slug is in normal form. *)
Lemma slugify_normal name : slug_normal_from true (slugify name) = true.
Proof.
  unfold slugify, strip_edges.
  pose proof (runs_ok_replace_runs false (toLowerCase name)) as Hok.
  destruct (replace_runs false (toLowerCase name)) as [|c r]; [done|].
  destruct (Ascii.eqb c "_") eqn:Hc.
  - apply normal_strip_last. simpl in Hok.
    apply Ascii.eqb_eq in Hc as ->. by rewrite is_lower_alnum_underscore in Hok.
  - apply normal_strip_last. simpl in *.
    destruct (is_lower_alnum c); [done|]. by rewrite Hc in Hok.
Qed.

Lemma normal_slug_chars b s : slug_normal_from b s = true → slug_chars s = true.
Proof.
  revert b; induction s as [|c s IH]; intros b; simpl; [done|].
  destruct (is_lower_alnum c); simpl; [apply IH|].
  intros [[[-> _]%andb_prop _]%andb_prop ?%IH]%andb_prop. done.
Qed.

Lemma normal_no_leading s x : slug_normal_from true s = true → s ≠ "_" +:+ x.
Proof. intros H ->. simpl in H. done. Qed.

Lemma normal_no_trailing b s x : slug_normal_from b s = true → s ≠ x +:+ "_".
Proof.
  revert b s; induction x as [|c x IH]; intros b s H ->; simpl in H.
  - by destruct b.
  - destruct (is_lower_alnum c).
    + by eapply IH.
    + apply andb_prop in H as [_ H]. by eapply IH.
Qed.

Lemma normal_no_double b s x y : slug_normal_from b s = true → s ≠ x +:+ "__" +:+ y.
Proof.
  revert b s; induction x as [|c x IH]; intros b s H ->; simpl in H.
  - apply andb_prop in H as [_ H]. simpl in H. done.
  - destruct (is_lower_alnum c).
    + by eapply (IH false).
    + apply andb_prop in H as [_ H]. by eapply (IH true).
Qed.

(** On a character of a slug [toLowerCase] works byte by byte. *)
Lemma toLowerCase_cons c s :
  is_lower_alnum c || Ascii.eqb c "_" = true →
  toLowerCase (String c s) = String (lower_char c) (toLowerCase s).
Proof.
  destruct c as [[] [] [] [] [] [] [] []]; intros H;
    try discriminate H; reflexivity.
Qed.

Lemma toLowerCase_slug_chars s : slug_chars s = true → toLowerCase s = s.
Proof.
  induction s as [|c s IH]; [done|]. cbn [slug_chars].
  intros [Hc Hs]%andb_prop. rewrite (toLowerCase_cons _ _ Hc), (IH Hs). f_equal.
  apply orb_prop in Hc as [Hc | Hc].
  - by apply lower_char_alnum.
  - apply Ascii.eqb_eq in Hc as ->. reflexivity.
Qed.

Lemma replace_runs_normal b s : slug_normal_from b s = true → replace_runs b s = s.
Proof.
  revert b; induction s as [|c s IH]; intros b; simpl; [done|].
  destruct (is_lower_alnum c); [by intros ->%IH|].
  intros [[[Hc Hb]%andb_prop _]%andb_prop Hs]%andb_prop.
  apply Ascii.eqb_eq in Hc as ->. apply negb_true_iff in Hb as ->.
  by rewrite (IH _ Hs).
Qed.

Lemma replace_runs_no_leading s :
  slug_normal_from true s = true → replace_runs false s = s.
Proof.
  destruct s as [|c s]; [done|]. intros H.
  rewrite <- (replace_runs_normal true _ H) at 2. simpl in *.
  destruct (is_lower_alnum c); [done|]. by rewrite andb_false_r in H.
Qed.

Lemma strip_last_normal b s :
  slug_normal_from b s = true → strip_last_underscore s = s.
Proof.
  revert b; induction s as [|c s IH]; intros b; [done|].
  destruct s as [|c' s].
  - simpl. destruct (is_lower_alnum c) eqn:Hc.
    + by rewrite (not_alnum_eqb_underscore c Hc).
    + by rewrite !andb_false_r.
  - change (strip_last_underscore (String c (String c' s)))
      with (String c (strip_last_underscore (String c' s))).
    intros H. f_equal. simpl in H. destruct (is_lower_alnum c).
    + by apply (IH false).
    + apply andb_prop in H as [_ H]. by apply (IH true).
Qed.

(** A slug in normal form is its own slug. *)
Lemma slugify_fixed s : slug_normal_from true s = true → slugify s = s.
Proof.
  intros H. unfold slugify.
  rewrite (toLowerCase_slug_chars s) by by eapply normal_slug_chars.
  rewrite (replace_runs_no_leading s H). unfold strip_edges.
  destruct s as [|c s]; [done|].
  destruct (Ascii.eqb c "_") eqn:Hc.
  - apply Ascii.eqb_eq in Hc as ->. simpl in H. done.
  - by apply (strip_last_normal true).
Qed.

(** *** When the slug is empty *)

Lemma replace_runs_no_alnum b s :
  has_alnum s = false →
  replace_runs b s = "" ∨ replace_runs b s = "_".
Proof.
  revert b; induction s as [|c s IH]; intros b; simpl; [by left|].
  intros [Hc Hs]%orb_false_elim. rewrite Hc. destruct b.
  - apply (IH true Hs).
  - right. f_equal.
    assert (∀ t, has_alnum t = false → replace_runs true t = "") as Hrun.
    { clear. induction t as [|c t IHt]; simpl; [done|].
      intros [-> ?]%orb_false_elim. by apply IHt. }
    by apply Hrun.
Qed.

Lemma has_alnum_replace_runs b s :
  has_alnum (replace_runs b s) = has_alnum s.
Proof.
  revert b; induction s as [|c s IH]; intros b; simpl; [done|].
  destruct (is_lower_alnum c) eqn:Hc; simpl.
  - by rewrite Hc.
  - destruct b; simpl; by rewrite IH.
Qed.

Lemma has_alnum_strip_last s :
  has_alnum (strip_last_underscore s) = has_alnum s.
Proof.
  induction s as [|c s IH]; [done|]. destruct s as [|c' s].
  - simpl. destruct (Ascii.eqb c "_") eqn:Hc; [|done].
    apply Ascii.eqb_eq in Hc as ->. reflexivity.
  - change (strip_last_underscore (String c (String c' s)))
      with (String c (strip_last_underscore (String c' s))).
    cbn [has_alnum] in *. by rewrite IH.
Qed.

Lemma has_alnum_strip_edges s : has_alnum (strip_edges s) = has_alnum s.
Proof.
  unfold strip_edges. rewrite has_alnum_strip_last.
  destruct s as [|c s]; [done|].
  destruct (Ascii.eqb c "_") eqn:Hc; [|done].
  apply Ascii.eqb_eq in Hc as ->. reflexivity.
Qed.

Lemma slugify_empty name :
  slugify name = "" ↔ has_alnum (toLowerCase name) = false.
Proof.
  split.
  - intros H. rewrite <- (has_alnum_replace_runs false), <- has_alnum_strip_edges.
    fold (slugify name). by rewrite H.
  - intros H. unfold slugify.
    by destruct (replace_runs_no_alnum false _ H) as [-> | ->].
Qed.

End SlugFacts.
(** * Gestures on the board *)

Module Gestures.
Import JS TaskBoard ProjectPage.

Lemma columns_of_nonempty statuses local : columns_of statuses local ≠ [].
Proof.
  unfold columns_of. repeat case_match; subst; try done; by destruct local, statuses.
Qed.

(** The [columns] memo never answers the empty list. So, when no column
    is named [__proto__] and no card has a [statusId] that names a
    member of [Object.prototype] without naming a column, the board
    files every card of the page: the memo returns, and its buckets hold
    the cards of [tasks], each once, every card under a column that is
    shown. The grouping itself needs the columns: on an empty column
    list it returns the empty object and files nothing. *)
Theorem board_files_every_card (b : Board) :
  "__proto__" ∉ map ProjectStatus.id (columns b) →
  Forall (λ t, clashes (columns b) t = false) (tasks b) →
  columns b ≠ []
  ∧ (∃ result,
       tasksByStatusId (tasks b) (columns b) = Returns result
       ∧ cards result ≡ₚ tasks b
       ∧ (∀ t, t ∈ tasks b →
            ∃ c l, c ∈ columns b
                   ∧ result !! ProjectStatus.id c = Some l
                   ∧ t ∈ l))
  ∧ (∀ tasks, Forall (λ t, clashes [] t = false) tasks →
       tasksByStatusId tasks [] = Returns ∅).
Proof.
  intros Hproto Hplain.
  assert (columns b ≠ []) as Hne by apply columns_of_nonempty.
  split_and!; [done | |].
  - pose proof (GroupingFacts.tasksByStatusId_Returns _ _ Hproto Hplain) as Hrun.
    eexists. split; [exact Hrun|].
    split; [by eapply GroupingFacts.tasksByStatusId_cards|].
    intros t Ht.
    destruct (GroupingFacts.effectiveColumn_is_Some (columns b) t Hne) as [k Hk].
    pose proof (GroupingFacts.effectiveColumn_in _ _ _ Hk) as Hin.
    pose proof Hin as (c & -> & Hc)%list_elem_of_fmap.
    exists c, (filter (λ t', effectiveColumn (columns b) t' = Some (ProjectStatus.id c))
                      (tasks b)).
    split_and!; [done | |].
    + by rewrite (GroupingFacts.tasksByStatusId_lookup _ _ _ _ Hrun),
        bool_decide_eq_true_2.
    + by apply list_elem_of_filter.
  - intros tasks Hall.
    rewrite GroupingFacts.tasksByStatusId_Returns;
      [|apply not_elem_of_nil | done].
    f_equal. simpl. clear Hall.
    induction tasks as [|t tasks IH]; simpl; [done|].
    replace (effectiveColumn [] t) with (@None string); [done|].
    unfold effectiveColumn. simpl head.
    destruct (if negb _ then _ else _) as [sid|]; [|done].
    rewrite (bool_decide_eq_false_2 (sid ∈ _)) by apply not_elem_of_nil.
    by rewrite andb_false_r.
Qed.

Lemma board_files_every_card_witness :
  ∃ result,
    tasksByStatusId Samples.sample_tasks Samples.three_columns = Returns result
    ∧ cards result ≡ₚ Samples.sample_tasks.
Proof.
  destruct (board_files_every_card (Samples.reordered Samples.three_columns))
    as (_ & (result & Hrun & Hcards & _) & _).
  - by apply (bool_decide_unpack _); vm_compute.
  - by apply (bool_decide_unpack _); vm_compute.
  - exists result. split; [exact Hrun | exact Hcards].
Defined.

(** *** The board after a fetch *)

(** When [fetchData] has its answers, the page shows a board that holds
    the fetched cards, is in no gesture, and shows exactly the fetched
    status list in the fetched order when that is not empty, and the
    built-in columns in their built-in order when it is. An order the
    columns had on the board before the fetch is not kept. *)
Theorem fetched_statuses_are_shown
    (tasksData : list Task) (statusesData : list ProjectStatus) :
  let b := fetchData tasksData statusesData in
  tasks b = tasksData
  ∧ statuses b = statusesData
  ∧ activeId b = None ∧ activeType b = None ∧ overColumnId b = None
  ∧ (statusesData ≠ [] →
     localStatuses b = statusesData ∧ columns b = statusesData)
  ∧ (statusesData = [] →
     localStatuses b = [] ∧ columns b = DEFAULT_STATUSES).
Proof.
  unfold fetchData, mount, syncLocalStatuses. simpl.
  destruct statusesData as [|c rest]; simpl.
  - split_and!; done.
  - split_and!; try done. intros _. split; [done|].
    unfold columns, columns_of. simpl. by rewrite bool_decide_eq_true_2.
Qed.

Lemma fetched_statuses_are_shown_witness :
  columns (fetchData Samples.sample_tasks Samples.four_columns)
    = Samples.four_columns
  ∧ columns (fetchData Samples.sample_tasks []) = DEFAULT_STATUSES.
Proof.
  split.
  - destruct (fetched_statuses_are_shown Samples.sample_tasks Samples.four_columns)
      as (_ & _ & _ & _ & _ & Hshown & _).
    by apply Hshown.
  - destruct (fetched_statuses_are_shown Samples.sample_tasks [])
      as (_ & _ & _ & _ & _ & _ & Hdefault).
    by apply Hdefault.
Defined.

(** *** What a gesture can touch *)

Ltac not_in_trace :=
  let Hin := fresh "Hin" in
  intros; intros Hin; simpl in Hin;
  repeat (apply elem_of_cons in Hin as [Hin | Hin]; [discriminate Hin|]);
  by apply elem_of_nil in Hin.

Ltac crack :=
  repeat match goal with
  | H : _ && _ = true |- _ => apply andb_prop in H as [? ?]
  | H : negb _ = true |- _ => apply negb_true_iff in H
  | H : bool_decide _ = true |- _ => apply bool_decide_eq_true in H
  | H : bool_decide _ = false |- _ => apply bool_decide_eq_false in H
  end.

(** A gesture that starts on a card, whose identifier does not start
    with [column-], is a card drag; when it ends, the column order and
    the status list are as before and no reorder request is issued. *)
Theorem card_gesture_keeps_columns ev0 ev b b0 e0 p b1 e1 :
  startsWith (active ev0) "column-" = false →
  handleDragStart ev0 b = Some ((), b0, e0) →
  active ev = active ev0 →
  handleDragEnd ev b0 = Some (p, b1, e1) →
  activeType b0 = Some TaskDrag
  ∧ localStatuses b1 = localStatuses b
  ∧ statuses b1 = statuses b
  ∧ columns b1 = columns b
  ∧ (∀ cols, p ≠ Some (AwaitReorderStatuses cols))
  ∧ (∀ pid ids, ReorderStatuses pid ids ∉ e1).
Proof.
  intros Hcard Hstart Hactive Hend.
  BoardFacts.run_handler. rewrite Hcard in Hstart. simplify_eq. simpl in *.
  rewrite Hactive, Hcard in Hend. simpl in Hend.
  repeat case_match; simplify_eq; simpl;
    (split_and!; [done | done | done | done | done |]);
    not_in_trace.
Qed.

Lemma card_gesture_keeps_columns_witness :
  ∃ b0 e0 p b1 e1,
    handleDragStart (mkEvent "t-1" None) (Samples.reordered Samples.three_columns)
      = Some ((), b0, e0)
    ∧ handleDragEnd (mkEvent "t-1" (Some "droppable-s-done")) b0 = Some (p, b1, e1)
    ∧ columns b1 = Samples.three_columns
    ∧ ∀ pid ids, ReorderStatuses pid ids ∉ e1.
Proof.
  eassert (handleDragStart (mkEvent "t-1" None) (Samples.reordered Samples.three_columns)
           = Some ((), Samples.dragging_card "t-1", _)) as Hstart by reflexivity.
  eassert (handleDragEnd (mkEvent "t-1" (Some "droppable-s-done"))
                         (Samples.dragging_card "t-1")
           = Some (_, TaskBoard.dropped (Samples.dragging_card "t-1")
                        [Task.with_statusId Samples.todo_card (Some "s-done");
                         Samples.legacy_card; Samples.done_card]
                        Samples.three_columns, _)) as Hend by reflexivity.
  destruct (card_gesture_keeps_columns
              (mkEvent "t-1" None) (mkEvent "t-1" (Some "droppable-s-done"))
              _ _ _ _ _ _ eq_refl Hstart eq_refl Hend)
    as (_ & _ & _ & Hcols & _ & Hquiet).
  eexists _, _, _, _, _. split_and!; [exact Hstart | exact Hend | exact Hcols | exact Hquiet].
Defined.

(** A gesture that starts on a column handle is a column drag; when it
    ends, the cards of the page are as before and no card is updated,
    wherever the column is dropped. *)
Theorem column_gesture_keeps_cards ev0 ev b b0 e0 p b1 e1 :
  startsWith (active ev0) "column-" = true →
  handleDragStart ev0 b = Some ((), b0, e0) →
  active ev = active ev0 →
  handleDragEnd ev b0 = Some (p, b1, e1) →
  activeType b0 = Some ColumnDrag
  ∧ tasks b1 = tasks b
  ∧ (∀ task, p ≠ Some (AwaitUpdateTaskStatus task))
  ∧ (∀ task, OnTaskUpdate task ∉ e1)
  ∧ (∀ taskId statusId, UpdateTaskStatusById taskId statusId ∉ e1).
Proof.
  intros Hcol Hstart Hactive Hend.
  BoardFacts.run_handler. rewrite Hcol in Hstart. simplify_eq. simpl in *.
  rewrite Hactive, Hcol in Hend. simpl in Hend.
  repeat case_match; simplify_eq; simpl; crack; try done;
    (split_and!; [done | done | done | |]);
    not_in_trace.
Qed.

Lemma column_gesture_keeps_cards_witness :
  ∃ b0 e0 p b1 e1,
    handleDragStart (mkEvent "column-s-todo" None)
                    (Samples.reordered Samples.three_columns)
      = Some ((), b0, e0)
    ∧ handleDragEnd (mkEvent "column-s-todo" (Some "droppable-s-done")) b0
      = Some (p, b1, e1)
    ∧ tasks b1 = Samples.sample_tasks
    ∧ e1 = [].
Proof.
  eassert (handleDragStart (mkEvent "column-s-todo" None)
                           (Samples.reordered Samples.three_columns)
           = Some ((), Samples.dragging_column Samples.three_columns "s-todo", _))
    as Hstart by reflexivity.
  eassert (handleDragEnd (mkEvent "column-s-todo" (Some "droppable-s-done"))
                         (Samples.dragging_column Samples.three_columns "s-todo")
           = Some (_, Samples.reordered Samples.three_columns, [])) as Hend
    by reflexivity.
  destruct (column_gesture_keeps_cards
              (mkEvent "column-s-todo" None)
              (mkEvent "column-s-todo" (Some "droppable-s-done"))
              _ _ _ _ _ _ eq_refl Hstart eq_refl Hend)
    as (_ & Htasks & _).
  eexists _, _, _, _, _. split_and!; [exact Hstart | exact Hend | exact Htasks | done].
Defined.

(** *** The highlighted column and the overlay *)

Lemma handleDragOver_keeps ev b b' e :
  handleDragOver ev b = Some ((), b', e) →
  e = []
  ∧ tasks b' = tasks b ∧ statuses b' = statuses b
  ∧ localStatuses b' = localStatuses b
  ∧ activeId b' = activeId b ∧ activeType b' = activeType b.
Proof.
  unfold handleDragOver. BoardFacts.run_handler. intros H.
  repeat case_match; simplify_eq; done.
Qed.

Lemma handleDragEnd_move_inv ev b task b1 e1 :
  handleDragEnd ev b = Some (Some (AwaitUpdateTaskStatus task), b1, e1) →
  ∃ o target,
    over ev = Some o
    ∧ dropTarget (tasks b) (columns b) o = Some target
    ∧ e1 = [OnTaskUpdate (Task.with_statusId task (Some target));
            UpdateTaskStatusById (active ev) target].
Proof.
  intros H. BoardFacts.run_handler.
  repeat case_match; simplify_eq. eexists _, _. split_and!; [done | done |].
  simpl. by repeat f_equal.
Qed.

(** The column highlighted while a card hovers is the column the card
    goes to when it is dropped there: a card move that [handleDragEnd]
    starts after [handleDragOver] saw the same place asks for the
    highlighted column. [handleDragOver] itself changes nothing but the
    highlight and calls nothing. *)
Theorem drop_goes_to_highlighted_column ev b b' e p b1 e1 :
  handleDragOver ev b = Some ((), b', e) →
  handleDragEnd ev b' = Some (p, b1, e1) →
  e = [] ∧ tasks b' = tasks b ∧ columns b' = columns b
  ∧ (∀ task, p = Some (AwaitUpdateTaskStatus task) →
       ∃ target,
         overColumnId b' = Some target
         ∧ e1 = [OnTaskUpdate (Task.with_statusId task (Some target));
                 UpdateTaskStatusById (active ev) target]).
Proof.
  intros Hover Hend.
  destruct (handleDragOver_keeps _ _ _ _ Hover) as (-> & Ht & Hs & Hl & _ & _).
  split_and!; [done | done | by unfold columns; rewrite Hs, Hl |].
  intros task ->.
  assert (columns b' = columns b) as Hc by (unfold columns; by rewrite Hs, Hl).
  apply handleDragEnd_move_inv in Hend as (o & target & Ho & Htarget & He1).
  rewrite Hc, Ht in Htarget. exists target. split; [|done].
  unfold handleDragOver, dropTarget in *. BoardFacts.run_handler.
  rewrite Ho in Hover.
  repeat case_match; simplify_eq; done.
Qed.

Lemma drop_goes_to_highlighted_column_witness :
  ∃ b' p b1 e1,
    handleDragOver (mkEvent "t-1" (Some "t-2")) (Samples.dragging_card "t-1")
      = Some ((), b', [])
    ∧ overColumnId b' = Some "s-done"
    ∧ handleDragEnd (mkEvent "t-1" (Some "t-2")) b' = Some (p, b1, e1)
    ∧ e1 = [OnTaskUpdate (Task.with_statusId Samples.todo_card (Some "s-done"));
            UpdateTaskStatusById "t-1" "s-done"].
Proof.
  set (hover := mkBoard Samples.sample_tasks Samples.three_columns false
                        Samples.three_columns (Some "t-1") (Some TaskDrag)
                        (Some "s-done")).
  assert (handleDragOver (mkEvent "t-1" (Some "t-2")) (Samples.dragging_card "t-1")
          = Some ((), hover, [])) as Hover by reflexivity.
  eassert (handleDragEnd (mkEvent "t-1" (Some "t-2")) hover
           = Some (Some (AwaitUpdateTaskStatus Samples.todo_card), _, _)) as Hend
    by reflexivity.
  destruct (drop_goes_to_highlighted_column _ _ _ _ _ _ _ Hover Hend)
    as (_ & _ & _ & Hmove).
  destruct (Hmove _ eq_refl) as (target & Htarget & He1).
  eexists hover, _, _, _. split_and!; [exact Hover | reflexivity | exact Hend |].
  simpl in Htarget. injection Htarget as <-. exact He1.
Defined.

(** The drag overlay shows a card or a column, never both; it shows the
    card picked up, or the first column with the identifier of the
    handle picked up, and nothing once the gesture has ended. *)
Theorem overlay_follows_gesture (b : Board) :
  (activeTask b = None ∨ activeColumn b = None)
  ∧ (∀ ev b0 e0,
       handleDragStart ev b = Some ((), b0, e0) →
       (startsWith (active ev) "column-" = false → active ev ≠ "" →
        activeTask b0 = find (λ t, seq (Task.id t) (active ev)) (tasks b)
        ∧ activeColumn b0 = None)
       ∧ (startsWith (active ev) "column-" = true →
          activeTask b0 = None
          ∧ activeColumn b0
            = find (λ c, seq (ProjectStatus.id c)
                             (replace_first (active ev) "column-")) (columns b)))
  ∧ (∀ ev p b1 e1,
       handleDragEnd ev b = Some (p, b1, e1) →
       activeTask b1 = None ∧ activeColumn b1 = None).
Proof.
  split_and!.
  - unfold activeTask, activeColumn.
    destruct (activeType b) as [[]|]; simpl; auto.
  - intros ev b0 e0 Hstart. BoardFacts.run_handler. split.
    + intros Hcard Hne. rewrite Hcard in Hstart. simplify_eq.
      unfold activeTask, activeColumn. simpl.
      by destruct (active ev) as [|c r].
    + intros Hcol. rewrite Hcol in Hstart. simplify_eq.
      unfold activeTask, activeColumn, columns. simpl.
      destruct (active ev) as [|c r] eqn:E; [done|]. done.
  - intros ev p b1 e1 Hend.
    rewrite (BoardFacts.handleDragEnd_dropped _ _ _ _ _ Hend). done.
Qed.

Lemma overlay_follows_gesture_witness :
  ∃ b0 e0,
    handleDragStart (mkEvent "column-s-done" None)
                    (Samples.reordered Samples.three_columns)
      = Some ((), b0, e0)
    ∧ activeColumn b0 = Some Samples.col_done
    ∧ activeTask b0 = None.
Proof.
  destruct (overlay_follows_gesture (Samples.reordered Samples.three_columns))
    as (_ & Hstart & _).
  eassert (handleDragStart (mkEvent "column-s-done" None)
                           (Samples.reordered Samples.three_columns)
           = Some ((), Samples.dragging_column Samples.three_columns "s-done", _))
    as Hrun by reflexivity.
  destruct (Hstart _ _ _ Hrun) as [_ Hcol].
  destruct (Hcol eq_refl) as [Htask Hcolumn].
  eexists _, _. split_and!; [exact Hrun | | exact Htask].
  rewrite Hcolumn. reflexivity.
Defined.

End Gestures.
(** * The cards of the page *)

Module PageCards.
Import JS TaskBoard ProjectPage.

Lemma bucket_lookup tasks cols result k :
  tasksByStatusId tasks cols = Returns result →
  k ∈ map ProjectStatus.id cols →
  result !! k = Some (filter (λ t, effectiveColumn cols t = Some k) tasks).
Proof.
  intros Hrun Hk.
  by rewrite (GroupingFacts.tasksByStatusId_lookup _ _ _ _ Hrun),
    bool_decide_eq_true_2.
Qed.

(** On a board that was drawn, a card that [handleTaskCreate] adds to
    the page is drawn at the bottom of its effective column, and the
    other columns keep their cards, unless the [statusId] of the card
    names a member of [Object.prototype] and no column: then the memo
    throws. *)
Theorem created_card_goes_last (tasks : list Task) (cols : list ProjectStatus)
    (result : gmap string (list Task)) (task : Task) :
  cols ≠ [] →
  tasksByStatusId tasks cols = Returns result →
  (clashes cols task = false →
   ∃ k bucket result',
     effectiveColumn cols task = Some k
     ∧ result !! k = Some bucket
     ∧ tasksByStatusId (handleTaskCreate task tasks) cols = Returns result'
     ∧ result' !! k = Some (bucket ++ [task])
     ∧ ∀ k', k' ≠ k → result' !! k' = result !! k')
  ∧ (clashes cols task = true →
     tasksByStatusId (handleTaskCreate task tasks) cols = TypeError).
Proof.
  intros Hne Hrun.
  pose proof (GroupingFacts.tasksByStatusId_inv _ _ _ Hrun) as (Hproto & Hplain & _).
  unfold handleTaskCreate. split.
  - intros Hclash.
    destruct (GroupingFacts.effectiveColumn_is_Some cols task Hne) as [k Hk].
    pose proof (GroupingFacts.effectiveColumn_in _ _ _ Hk) as Hin.
    assert (Forall (λ t, clashes cols t = false) (tasks ++ [task])) as Hplain'.
    { apply Forall_app. split; [done|]. by constructor. }
    pose proof (GroupingFacts.tasksByStatusId_Returns _ _ Hproto Hplain') as Hrun'.
    eexists k, (filter (λ t, effectiveColumn cols t = Some k) tasks), _.
    split_and!; [done | by apply (bucket_lookup _ _ _ _ Hrun) | exact Hrun' | |].
    + rewrite (bucket_lookup _ _ _ _ Hrun') by done. rewrite filter_app.
      by rewrite (filter_cons_True _ task []).
    + intros k' Hk'.
      rewrite (GroupingFacts.tasksByStatusId_lookup _ _ _ _ Hrun'),
        (GroupingFacts.tasksByStatusId_lookup _ _ _ _ Hrun).
      case_bool_decide; [|done]. rewrite filter_app.
      rewrite (filter_cons_False _ task []) by congruence.
      by rewrite app_nil_r.
  - intros Hclash. apply GroupingFacts.tasksByStatusId_TypeError; [done|].
    apply Exists_app. right. by left.
Qed.

Lemma created_card_goes_last_witness :
  ∃ result',
    tasksByStatusId
      (handleTaskCreate (Samples.card "t-9" TODO None) Samples.sample_tasks)
      Samples.three_columns = Returns result'
    ∧ result' !! "s-todo"
      = Some [Samples.todo_card; Samples.legacy_card; Samples.card "t-9" TODO None].
Proof.
  destruct (tasksByStatusId Samples.sample_tasks Samples.three_columns)
    as [result| |] eqn:Hrun; [|by vm_compute in Hrun..].
  assert (Samples.three_columns ≠ []) as Hne by done.
  destruct (created_card_goes_last Samples.sample_tasks Samples.three_columns
              result (Samples.card "t-9" TODO None) Hne Hrun)
    as [Hplain _].
  destruct (Hplain eq_refl) as (k & bucket & result' & Hk & Hold & Hrun' & Hnew & _).
  vm_compute in Hk. injection Hk as <-.
  rewrite (bucket_lookup _ _ _ _ Hrun) in Hold
    by by apply (bool_decide_unpack _); vm_compute.
  vm_compute in Hold. injection Hold as <-.
  exists result'. split; [exact Hrun' | exact Hnew].
Defined.

(** *** [handleTaskDelete] *)

Lemma handleTaskDelete_filter taskId (l : list Task) :
  handleTaskDelete taskId l = filter (λ t, Task.id t ≠ taskId) l.
Proof.
  induction l as [|t l IH]; simpl; [done|].
  destruct (seq (Task.id t) taskId) eqn:E; simpl.
  - apply seq_true in E. rewrite filter_cons_False by (intros H; by apply H).
    exact IH.
  - apply seq_false in E. rewrite filter_cons_True by done. by rewrite IH.
Qed.

Lemma elem_of_handleTaskDelete taskId (l : list Task) t :
  t ∈ handleTaskDelete taskId l ↔ t ∈ l ∧ Task.id t ≠ taskId.
Proof. rewrite handleTaskDelete_filter, list_elem_of_filter. tauto. Qed.

Lemma filter_ext_elem {A} (P Q : A → Prop) `{!∀ x, Decision (P x)}
    `{!∀ x, Decision (Q x)} (l : list A) :
  (∀ x, x ∈ l → P x ↔ Q x) → filter P l = filter Q l.
Proof.
  induction l as [|x l IH]; intros Hall; [done|].
  assert (filter P l = filter Q l) as IH'
    by (apply IH; intros y Hy; apply Hall; by right).
  destruct (decide (P x)) as [HP | HP].
  - rewrite !filter_cons_True; [by rewrite IH' | by apply Hall; [left|] | done].
  - rewrite !filter_cons_False; [done | | done].
    intros HQ. apply HP, Hall; [left | done].
Qed.

(** [handleTaskDelete] takes every card of the identifier off the page
    and keeps the others in their order; an identifier no card has
    leaves the page as it is, and deleting a card that was just created
    under a fresh identifier gives the page back. A board that was
    drawn is drawn again, and in its columns each bucket loses the cards
    of that identifier and nothing else. *)
Theorem deleted_card_leaves_the_rest (tasks : list Task) (taskId : string) :
  (∀ t, t ∈ handleTaskDelete taskId tasks ↔ t ∈ tasks ∧ Task.id t ≠ taskId)
  ∧ sublist (handleTaskDelete taskId tasks) tasks
  ∧ (taskId ∉ map Task.id tasks → handleTaskDelete taskId tasks = tasks)
  ∧ (∀ task, Task.id task = taskId → taskId ∉ map Task.id tasks →
       handleTaskDelete taskId (handleTaskCreate task tasks) = tasks)
  ∧ (∀ cols result,
       tasksByStatusId tasks cols = Returns result →
       ∃ result',
         tasksByStatusId (handleTaskDelete taskId tasks) cols = Returns result'
         ∧ ∀ k, result' !! k = handleTaskDelete taskId <$> result !! k).
Proof.
  assert (taskId ∉ map Task.id tasks → handleTaskDelete taskId tasks = tasks)
    as Hfresh.
  { intros Hout. induction tasks as [|t l IH]; simpl; [done|].
    apply not_elem_of_cons in Hout as [Hne Hout].
    destruct (seq (Task.id t) taskId) eqn:E.
    - apply seq_true in E. congruence.
    - simpl. by rewrite IH. }
  split_and!.
  - apply elem_of_handleTaskDelete.
  - rewrite handleTaskDelete_filter. apply sublist_filter.
  - done.
  - intros task Hid Hout. unfold handleTaskCreate, handleTaskDelete.
    rewrite List.filter_app. simpl. rewrite Hid, seq_refl. simpl.
    rewrite app_nil_r. by apply Hfresh.
  - intros cols result Hrun.
    pose proof (GroupingFacts.tasksByStatusId_inv _ _ _ Hrun)
      as (Hproto & Hplain & _).
    assert (Forall (λ t, clashes cols t = false) (handleTaskDelete taskId tasks))
      as Hplain'.
    { rewrite Forall_forall in Hplain. apply Forall_forall.
      intros t [Ht _]%elem_of_handleTaskDelete. by apply Hplain. }
    pose proof (GroupingFacts.tasksByStatusId_Returns _ _ Hproto Hplain') as Hrun'.
    eexists. split; [exact Hrun'|]. intros k.
    rewrite (GroupingFacts.tasksByStatusId_lookup _ _ _ _ Hrun'),
      (GroupingFacts.tasksByStatusId_lookup _ _ _ _ Hrun).
    case_bool_decide; [|done]. simpl. f_equal.
    rewrite !handleTaskDelete_filter. rewrite !list_filter_filter.
    apply list_filter_iff. tauto.
Qed.

Lemma deleted_card_leaves_the_rest_witness :
  handleTaskDelete "t-1" Samples.sample_tasks
    = [Samples.legacy_card; Samples.done_card]
  ∧ handleTaskDelete "t-404" Samples.sample_tasks = Samples.sample_tasks.
Proof.
  destruct (deleted_card_leaves_the_rest Samples.sample_tasks "t-404")
    as (_ & _ & Hfresh & _).
  split; [reflexivity|]. apply Hfresh.
  by apply (bool_decide_unpack _); vm_compute.
Defined.

(** *** [handleTaskUpdate] *)

(** [handleTaskUpdate] adds and removes no card and keeps every
    identifier in its place; a card whose identifier is not on the page
    changes nothing; the updated card is found under its identifier when
    a card was; updating twice with one card is updating once. *)
Theorem updated_card_keeps_its_place (tasks : list Task) (updatedTask : Task) :
  map Task.id (handleTaskUpdate updatedTask tasks) = map Task.id tasks
  ∧ length (handleTaskUpdate updatedTask tasks) = length tasks
  ∧ (Task.id updatedTask ∉ map Task.id tasks →
     handleTaskUpdate updatedTask tasks = tasks)
  ∧ (Task.id updatedTask ∈ map Task.id tasks →
     find (λ t, seq (Task.id t) (Task.id updatedTask))
          (handleTaskUpdate updatedTask tasks) = Some updatedTask)
  ∧ handleTaskUpdate updatedTask (handleTaskUpdate updatedTask tasks)
    = handleTaskUpdate updatedTask tasks.
Proof.
  unfold handleTaskUpdate. split_and!.
  - rewrite map_map. apply map_ext_in. intros t _.
    destruct (seq (Task.id t) (Task.id updatedTask)) eqn:E; [|done].
    by apply seq_true in E.
  - apply length_map.
  - intros Hout. rewrite <- (map_id tasks) at 2. apply map_ext_in.
    intros t Ht%list_elem_of_In.
    destruct (seq (Task.id t) (Task.id updatedTask)) eqn:E; [|done].
    apply seq_true in E. exfalso. apply Hout. rewrite <- E.
    by apply list_elem_of_fmap_2.
  - intros (t & Hid & Ht)%list_elem_of_fmap.
    induction tasks as [|y l IH]; [by apply elem_of_nil in Ht|]. simpl.
    destruct (seq (Task.id y) (Task.id updatedTask)) eqn:E.
    + by rewrite seq_refl.
    + rewrite E. apply IH. apply elem_of_cons in Ht as [-> | Ht]; [|done].
      apply seq_false in E. congruence.
  - rewrite map_map. apply map_ext_in. intros t _.
    destruct (seq (Task.id t) (Task.id updatedTask)) eqn:E.
    + by rewrite seq_refl.
    + by rewrite E.
Qed.

Lemma updated_card_keeps_its_place_witness :
  handleTaskUpdate (Samples.card "t-404" DONE None) Samples.sample_tasks
    = Samples.sample_tasks
  ∧ find (λ t, seq (Task.id t) "t-2")
         (handleTaskUpdate (Samples.card "t-2" TODO None) Samples.sample_tasks)
    = Some (Samples.card "t-2" TODO None).
Proof.
  split.
  - destruct (updated_card_keeps_its_place Samples.sample_tasks
                (Samples.card "t-404" DONE None)) as (_ & _ & Hout & _).
    apply Hout. by apply (bool_decide_unpack _); vm_compute.
  - destruct (updated_card_keeps_its_place Samples.sample_tasks
                (Samples.card "t-2" TODO None)) as (_ & _ & _ & Hin & _).
    apply Hin. by apply (bool_decide_unpack _); vm_compute.
Defined.

(** *** A card move in the columns *)

(** On a board that was drawn and whose card identifiers are unique,
    giving a card another column leaves a board that is drawn again,
    with two buckets changed only: every column that is neither the
    target nor the column the card was in keeps its cards; the target
    shows the card; the column it was in, when it is not the target,
    shows its other cards as before. The card keeps its place in the
    list of the page, so it is not put at the bottom of the target. *)
Theorem card_move_changes_two_buckets (tasks : list Task)
    (cols : list ProjectStatus) (result : gmap string (list Task))
    (task : Task) (target : string) :
  NoDup (map Task.id tasks) → task ∈ tasks →
  target ≠ "" → target ∈ map ProjectStatus.id cols →
  tasksByStatusId tasks cols = Returns result →
  let moved := Task.with_statusId task (Some target) in
  let tasks' := handleTaskUpdate moved tasks in
  ∃ result',
    tasksByStatusId tasks' cols = Returns result'
    ∧ (∀ k, k ≠ target → effectiveColumn cols task ≠ Some k →
         result' !! k = result !! k)
    ∧ (∃ bucket, result' !! target = Some bucket ∧ moved ∈ bucket)
    ∧ (∀ source, effectiveColumn cols task = Some source → source ≠ target →
         result' !! source
         = filter (λ t, Task.id t ≠ Task.id task) <$> result !! source)
    ∧ map Task.id tasks' = map Task.id tasks.
Proof.
  intros Hnd Htask Hne Htarget Hrun moved tasks'.
  pose proof (GroupingFacts.tasksByStatusId_inv _ _ _ Hrun) as (Hproto & Hplain & _).
  assert (Forall (λ t, clashes cols t = false) tasks') as Hplain'.
  { subst tasks'. unfold handleTaskUpdate. apply Forall_fmap.
    eapply Forall_impl; [exact Hplain|]. intros t Ht. cbv [compose].
    destruct (seq (Task.id t) (Task.id moved)); [|exact Ht].
    unfold clashes. subst moved. cbn [Task.with_statusId Task.statusId].
    rewrite (bool_decide_eq_true_2 _ Htarget). apply andb_false_r. }
  pose proof (GroupingFacts.tasksByStatusId_Returns _ _ Hproto Hplain') as Hrun'.
  eexists. split; [exact Hrun'|].
  assert (effectiveColumn cols moved = Some target) as Hmoved
    by by apply BoardFacts.effectiveColumn_moved.
  assert (∀ t, t ∈ tasks → Task.id t = Task.id task → t = task) as Huniq.
  { intros t Ht Hid. by apply (BoardFacts.NoDup_ids_unique tasks). }
  assert (∀ k, k ≠ target →
            filter (λ t, effectiveColumn cols t = Some k) tasks'
            = filter (λ t, Task.id t ≠ Task.id task)
                     (filter (λ t, effectiveColumn cols t = Some k) tasks))
    as Hother.
  { intros k Hk. subst tasks'. unfold handleTaskUpdate.
    clear Hnd Htask Hrun Hrun' Hplain Hplain'.
    induction tasks as [|t l IH]; [done|]. rewrite map_cons.
    assert (∀ t, t ∈ l → Task.id t = Task.id task → t = task) as Hl
      by (intros; apply Huniq; [by right | done]).
    specialize (IH Hl).
    destruct (seq (Task.id t) (Task.id moved)) eqn:E.
    - apply seq_true in E. assert (t = task) as -> by (apply Huniq; [left | done]).
      rewrite filter_cons_False by congruence. rewrite IH.
      destruct (decide (effectiveColumn cols task = Some k)).
      + rewrite (filter_cons_True (λ t, effectiveColumn cols t = Some k)) by done.
        by rewrite filter_cons_False by (intros H; by apply H).
      + by rewrite (filter_cons_False (λ t, effectiveColumn cols t = Some k)).
    - apply seq_false in E. simpl in E.
      destruct (decide (effectiveColumn cols t = Some k)).
      + rewrite !(filter_cons_True (λ t, effectiveColumn cols t = Some k)) by done.
        rewrite filter_cons_True by done. by rewrite IH.
      + by rewrite !(filter_cons_False (λ t, effectiveColumn cols t = Some k)). }
  split_and!.
  - intros k Hk Hsrc.
    rewrite (GroupingFacts.tasksByStatusId_lookup _ _ _ _ Hrun'),
      (GroupingFacts.tasksByStatusId_lookup _ _ _ _ Hrun).
    case_bool_decide; [|done]. f_equal. rewrite (Hother k Hk).
    rewrite list_filter_filter. apply filter_ext_elem. intros t Hin.
    split; [tauto|]. intros Ht. split; [|done]. intros Hid.
    rewrite (Huniq t Hin Hid) in Ht. done.
  - eexists. split; [by apply (bucket_lookup _ _ _ _ Hrun')|].
    apply list_elem_of_filter. split; [done|]. subst tasks'.
    unfold handleTaskUpdate. apply list_elem_of_fmap. exists task.
    by rewrite seq_refl.
  - intros source Hsrc Hst.
    rewrite (GroupingFacts.tasksByStatusId_lookup _ _ _ _ Hrun'),
      (GroupingFacts.tasksByStatusId_lookup _ _ _ _ Hrun).
    case_bool_decide; [|done]. simpl. f_equal. by apply Hother.
  - subst tasks'. unfold handleTaskUpdate. rewrite map_map. apply map_ext_in.
    intros t _. destruct (seq (Task.id t) (Task.id moved)) eqn:E; [|done].
    by apply seq_true in E.
Qed.

Lemma card_move_changes_two_buckets_witness :
  ∃ result',
    tasksByStatusId
      (handleTaskUpdate (Task.with_statusId Samples.todo_card (Some "s-done"))
                        Samples.sample_tasks)
      Samples.three_columns = Returns result'
    ∧ result' !! "s-doing" = Some []
    ∧ result' !! "s-todo" = Some [Samples.legacy_card].
Proof.
  destruct (tasksByStatusId Samples.sample_tasks Samples.three_columns)
    as [result| |] eqn:Hrun; [|by vm_compute in Hrun..].
  assert (NoDup (map Task.id Samples.sample_tasks)) as Hnd
    by by apply (bool_decide_unpack _); vm_compute.
  assert (Samples.todo_card ∈ Samples.sample_tasks) as Hin
    by by apply (bool_decide_unpack _); vm_compute.
  assert ("s-done" ≠ "") as Hne by done.
  assert ("s-done" ∈ map ProjectStatus.id Samples.three_columns) as Htarget
    by by apply (bool_decide_unpack _); vm_compute.
  destruct (card_move_changes_two_buckets Samples.sample_tasks
              Samples.three_columns result Samples.todo_card "s-done"
              Hnd Hin Hne Htarget Hrun)
    as (result' & Hrun' & Hother & _ & Hsource & _).
  exists result'. split_and!; [exact Hrun' | |].
  - rewrite (Hother "s-doing") by by vm_compute.
    rewrite (bucket_lookup _ _ _ _ Hrun)
      by by apply (bool_decide_unpack _); vm_compute.
    by vm_compute.
  - rewrite (Hsource "s-todo") by by vm_compute.
    rewrite (bucket_lookup _ _ _ _ Hrun)
      by by apply (bool_decide_unpack _); vm_compute.
    by vm_compute.
Defined.

End PageCards.
(** * The set of columns *)

Module ColumnSet.
Import JS.

(** On a board whose columns belong to one project, no gesture changes
    which columns are shown: after [handleDragEnd] the columns are those
    shown before, possibly in another order. When a reorder request is
    issued it names the project of the first column and lists the
    identifiers in the order now shown. *)
Theorem board_gesture_permutes_columns ev b pid p b1 e1 :
  Forall (λ c, ProjectStatus.projectId c = pid) (TaskBoard.columns b) →
  TaskBoard.handleDragEnd ev b = Some (p, b1, e1) →
  TaskBoard.columns b1 ≡ₚ TaskBoard.columns b
  ∧ (∀ project ids, ReorderStatuses project ids ∈ e1 →
       project = pid ∧ pid ≠ ""
       ∧ ids = map ProjectStatus.id (TaskBoard.columns b1)
       ∧ p = Some (TaskBoard.AwaitReorderStatuses (TaskBoard.columns b))).
Proof.
  intros Hpid Hrun.
  pose proof (BoardFacts.handleDragEnd_dropped _ _ _ _ _ Hrun) as Hb1.
  assert (TaskBoard.localStatuses b1 = TaskBoard.localStatuses b
          ∧ (∀ project ids, ReorderStatuses project ids ∉ e1)
          ∨ ∃ new c0 rest,
              TaskBoard.localStatuses b1 = new
              ∧ new ≡ₚ TaskBoard.columns b
              ∧ TaskBoard.columns b = c0 :: rest
              ∧ ∀ project ids, ReorderStatuses project ids ∈ e1 →
                  project = ProjectStatus.projectId c0 ∧ project ≠ ""
                  ∧ ids = map ProjectStatus.id new
                  ∧ p = Some (TaskBoard.AwaitReorderStatuses (TaskBoard.columns b)))
    as Hcases.
  { clear Hb1 Hpid. BoardFacts.run_handler.
    repeat case_match; simplify_eq; simpl;
      try (left; split; [done | Gestures.not_in_trace]).
    all: right.
    all: match goal with
         | H : arrayMove ?cols _ _ = Some ?new |- _ =>
             pose proof (ArrayFacts.arrayMove_Permutation_any _ _ _ _ H) as Hperm;
             destruct cols as [|c0 rest] eqn:Hcols;
             [by apply Permutation_nil_r in Hperm as ->; simpl in *|];
             exists new, c0, rest; split_and!; [done | done | done |]
         end.
    all: intros project ids Hin; simpl in *; simplify_eq.
    all: repeat (apply elem_of_cons in Hin as [Hin | Hin];
                 [try discriminate Hin|]);
         try by apply elem_of_nil in Hin.
    all: injection Hin as -> ->; Gestures.crack.
    all: repeat match goal with H : seq _ _ = false |- _ => apply seq_false in H end.
    all: done. }
  destruct Hcases as [[Hlocal Hquiet] | (new & c0 & rest & Hlocal & Hperm & Hcols & Hreq)].
  - split.
    + unfold TaskBoard.columns. rewrite Hb1. simpl. by rewrite Hlocal.
    + intros project ids Hin. by apply Hquiet in Hin.
  - assert (TaskBoard.columns b1 = new) as Hshown.
    { unfold TaskBoard.columns. rewrite Hb1. simpl. rewrite Hlocal.
      by apply (BoardFacts.columns_of_Permutation _ _ _ pid Hpid). }
    split; [by rewrite Hshown|].
    intros project ids Hin. destruct (Hreq _ _ Hin) as (-> & Hne & -> & ->).
    rewrite Hcols in Hpid. apply Forall_cons in Hpid as [<- _].
    by rewrite Hshown.
Qed.

Lemma board_gesture_permutes_columns_witness :
  ∃ p b1 e1,
    TaskBoard.handleDragEnd
      (TaskBoard.mkEvent "column-s-todo" (Some "column-s-done"))
      (Samples.dragging_column Samples.three_columns "s-todo")
    = Some (p, b1, e1)
    ∧ TaskBoard.columns b1 ≡ₚ Samples.three_columns
    ∧ ReorderStatuses "p1" ["s-doing"; "s-done"; "s-todo"] ∈ e1.
Proof.
  eassert (TaskBoard.handleDragEnd
             (TaskBoard.mkEvent "column-s-todo" (Some "column-s-done"))
             (Samples.dragging_column Samples.three_columns "s-todo")
           = Some (Some (TaskBoard.AwaitReorderStatuses Samples.three_columns),
                   Samples.reordered
                     [Samples.col_in_progress; Samples.col_done; Samples.col_todo],
                   [ConsoleLog "[reorder] Calling API with:";
                    ReorderStatuses "p1" ["s-doing"; "s-done"; "s-todo"]]))
    as Hrun by reflexivity.
  assert (Forall (λ c, ProjectStatus.projectId c = "p1")
            (TaskBoard.columns (Samples.dragging_column Samples.three_columns "s-todo")))
    as Hpid by (by apply (bool_decide_unpack _); vm_compute).
  destruct (board_gesture_permutes_columns _ _ "p1" _ _ _ Hpid Hrun) as [Hperm _].
  eexists _, _, _. split_and!; [exact Hrun | exact Hperm |].
  right. left.
Defined.

(** On the settings page a drop always yields a list of the same
    statuses when the list is not empty, found or not the identifiers:
    [handleDragEnd] hands the page a reordering of its list and asks the
    backend for just that order, under the project of the page. *)
Theorem settings_drop_permutes_statuses ev st :
  StatusSettings.statuses st ≠ [] →
  ∃ p st1 e1,
    StatusSettings.handleDragEnd ev st = Some (p, st1, e1)
    ∧ StatusSettings.statuses st1 ≡ₚ StatusSettings.statuses st
    ∧ StatusSettings.projectId st1 = StatusSettings.projectId st
    ∧ (∀ project ids, ReorderStatuses project ids ∈ e1 →
         project = StatusSettings.projectId st
         ∧ ids = map ProjectStatus.id (StatusSettings.statuses st1)
         ∧ p = Some (StatusSettings.AwaitReorderStatuses (StatusSettings.statuses st))).
Proof.
  intros Hne. SettingsFacts.run_handler.
  destruct (StatusSettings.over ev) as [o|]; [|by eexists _, _, _; split_and!;
    [done | done | done | intros ? ? Hin; by apply elem_of_nil in Hin]].
  destruct (negb (seq (StatusSettings.active ev) o));
    [|by eexists _, _, _; split_and!;
        [done | done | done | intros ? ? Hin; by apply elem_of_nil in Hin]].
  set (oldIndex := findIndex _ _). set (newIndex := findIndex _ _).
  destruct (arrayMove (StatusSettings.statuses st) oldIndex newIndex) as [new|] eqn:Hmove.
  - pose proof (ArrayFacts.arrayMove_Permutation_any _ _ _ _ Hmove) as Hperm.
    eexists _, _, _. split_and!; [done | done | done |].
    intros project ids Hin. simpl in Hin.
    apply elem_of_cons in Hin as [Hin | Hin]; [discriminate Hin|].
    apply elem_of_cons in Hin as [Hin | Hin]; [|by apply elem_of_nil in Hin].
    by injection Hin as -> ->.
  - exfalso.
    assert (is_Some (arrayMove (StatusSettings.statuses st) oldIndex newIndex)) as [? ?];
      [|congruence].
    apply ArrayFacts.arrayMove_is_Some_iff. split; [done|].
    subst oldIndex. destruct (findIndex_range
      (λ s, seq (ProjectStatus.id s) (StatusSettings.active ev))
      (StatusSettings.statuses st)) as [-> | ?]; lia.
Qed.

Lemma settings_drop_permutes_statuses_witness :
  ∃ p st1 e1,
    StatusSettings.handleDragEnd
      (StatusSettings.mkEvent "s-gone" (Some "s-todo")) Samples.settings
    = Some (p, st1, e1)
    ∧ StatusSettings.statuses st1 ≡ₚ Samples.four_columns.
Proof.
  destruct (settings_drop_permutes_statuses
              (StatusSettings.mkEvent "s-gone" (Some "s-todo")) Samples.settings)
    as (p & st1 & e1 & Hrun & Hperm & _); [by vm_compute|].
  exists p, st1, e1. split; [exact Hrun | exact Hperm].
Defined.

(** The settings page does not turn an unknown identifier down. A status
    dropped on something that is no status of the list goes to the end
    of the list, the others keep their order, and the request is issued
    as for any reorder. *)
Theorem settings_unknown_target_moves_to_end ev st o (s : nat) x :
  StatusSettings.over ev = Some o →
  StatusSettings.active ev ≠ o →
  findIndex (λ c, seq (ProjectStatus.id c) (StatusSettings.active ev))
            (StatusSettings.statuses st) = Z.of_nat s →
  StatusSettings.statuses st !! s = Some x →
  findIndex (λ c, seq (ProjectStatus.id c) o) (StatusSettings.statuses st) = -1 →
  let new := delete s (StatusSettings.statuses st) ++ [x] in
  StatusSettings.handleDragEnd ev st
  = Some (Some (StatusSettings.AwaitReorderStatuses (StatusSettings.statuses st)),
          StatusSettings.mkSettings (StatusSettings.projectId st) new None,
          [OnStatusesUpdate new;
           ReorderStatuses (StatusSettings.projectId st) (map ProjectStatus.id new)]).
Proof.
  intros Ho Hne Hs Hx Hd new. SettingsFacts.run_handler.
  rewrite Ho. apply seq_false in Hne. rewrite Hne. simpl.
  rewrite Hs, Hd, (ArrayFacts.arrayMove_to_end _ _ _ Hx). reflexivity.
Qed.

Lemma settings_unknown_target_moves_to_end_witness :
  ∃ st1 e1,
    StatusSettings.handleDragEnd
      (StatusSettings.mkEvent "s-doing" (Some "s-gone")) Samples.settings
    = Some (Some (StatusSettings.AwaitReorderStatuses Samples.four_columns), st1, e1)
    ∧ StatusSettings.statuses st1
      = [Samples.col_todo; Samples.col_in_review; Samples.col_done;
         Samples.col_in_progress].
Proof.
  pose proof (settings_unknown_target_moves_to_end
                (StatusSettings.mkEvent "s-doing" (Some "s-gone")) Samples.settings
                "s-gone" 1%nat Samples.col_in_progress
                eq_refl ltac:(by vm_compute) eq_refl eq_refl eq_refl) as Hrun.
  eexists _, _. split; [exact Hrun | reflexivity].
Defined.

End ColumnSet.
(** * The forms of the settings page *)

Module Forms.
Import JS StatusSettings StatusForms.

(** The slug [handleCreate] derives from a name consists of the
    characters a to z, 0 to 9 and the underscore, has no underscore at
    its start or end and no two underscores in a row. *)
Theorem slug_is_normalised (name : string) :
  slug_chars (slugify name) = true
  ∧ (∀ x, slugify name ≠ "_" +:+ x)
  ∧ (∀ x, slugify name ≠ x +:+ "_")
  ∧ (∀ x y, slugify name ≠ x +:+ "__" +:+ y).
Proof.
  pose proof (SlugFacts.slugify_normal name) as Hn. split_and!.
  - by eapply SlugFacts.normal_slug_chars.
  - intros x. by apply SlugFacts.normal_no_leading.
  - intros x. by eapply SlugFacts.normal_no_trailing.
  - intros x y. by eapply SlugFacts.normal_no_double.
Qed.

(** Deriving a slug from a derived slug gives it back: a generated slug
    used as the name of a status yields the same slug. *)
Theorem slugify_idempotent (name : string) :
  slugify (slugify name) = slugify name.
Proof. apply SlugFacts.slugify_fixed, SlugFacts.slugify_normal. Qed.

(** The request [handleCreate] sends never has an empty slug: it is the
    slug derived from the name when the lowered name has a character in
    a to z or 0 to 9, and [status_] followed by the time otherwise, as
    for a name written in Japanese only. The position sent is the
    index the created status gets in the list handed to the page, and
    the flag is sent as 0 or 1. *)
Theorem create_request_slug (newStatus : NewStatus)
    (statuses : list ProjectStatus) (now : N) :
  let data := createStatusData newStatus statuses now in
  create_slug data ≠ ""
  ∧ (has_alnum (toLowerCase (new_name newStatus)) = true →
     create_slug data = slugify (new_name newStatus))
  ∧ (has_alnum (toLowerCase (new_name newStatus)) = false →
     create_slug data = "status_" +:+ pretty now)
  ∧ create_name data = new_name newStatus
  ∧ create_position data = Z.of_nat (length statuses)
  ∧ create_isDone data = (if new_isDone newStatus then 1 else 0)
  ∧ (∀ created,
       created_statuses statuses created !! Z.to_nat (create_position data)
       = Some created).
Proof.
  intros data. subst data. unfold createStatusData. simpl.
  pose proof (SlugFacts.slugify_empty (new_name newStatus)) as Hempty.
  destruct (slugify (new_name newStatus)) as [|c r] eqn:Hslug.
  - split_and!; try done.
    + intros Hal. rewrite (proj1 Hempty eq_refl) in Hal. done.
    + intros created. unfold created_statuses. rewrite Nat2Z.id.
      by rewrite lookup_app_r, Nat.sub_diag by lia.
  - split_and!; try done.
    + intros Hal. apply Hempty in Hal. done.
    + intros created. unfold created_statuses. rewrite Nat2Z.id.
      by rewrite lookup_app_r, Nat.sub_diag by lia.
Qed.

Lemma create_request_slug_witness :
  create_slug (createStatusData (mkNewStatus "In Progress" "#3B82F6" false)
                                Samples.three_columns 1700000000000)
    = "in_progress"
  ∧ create_slug (createStatusData (mkNewStatus "İ" "#3B82F6" false)
                                  Samples.three_columns 1700000000000)
    = "i"
  ∧ create_slug (createStatusData (mkNewStatus "進行中" "#3B82F6" false)
                                  Samples.three_columns 1700000000000)
    = "status_1700000000000".
Proof.
  split_and!.
  - destruct (create_request_slug (mkNewStatus "In Progress" "#3B82F6" false)
                Samples.three_columns 1700000000000) as (_ & Hderived & _).
    rewrite Hderived; by vm_compute.
  - destruct (create_request_slug (mkNewStatus "İ" "#3B82F6" false)
                Samples.three_columns 1700000000000) as (_ & Hderived & _).
    rewrite Hderived; by vm_compute.
  - destruct (create_request_slug (mkNewStatus "進行中" "#3B82F6" false)
                Samples.three_columns 1700000000000) as (_ & _ & Hfallback & _).
    rewrite Hfallback; by vm_compute.
Defined.

(** *** Deleting a status *)

Lemma filter_ids (statusId : string) (l : list ProjectStatus) :
  List.filter (λ s, negb (seq (ProjectStatus.id s) statusId)) l
  = filter (λ s, ProjectStatus.id s ≠ statusId) l.
Proof.
  induction l as [|x l IH]; simpl; [done|].
  destruct (seq (ProjectStatus.id x) statusId) eqn:E; simpl.
  - apply seq_true in E. rewrite filter_cons_False by (intros H; by apply H).
    exact IH.
  - apply seq_false in E. rewrite filter_cons_True by done. by rewrite IH.
Qed.

Lemma filter_all_true {A} (P : A → Prop) `{!∀ x, Decision (P x)} (l : list A) :
  (∀ x, x ∈ l → P x) → filter P l = l.
Proof.
  induction l as [|x l IH]; intros Hall; [done|].
  rewrite filter_cons_True by (apply Hall; left).
  f_equal. apply IH. intros y Hy. apply Hall. by right.
Qed.

Lemma filter_ids_length (l : list ProjectStatus) (statusId : string) :
  NoDup (map ProjectStatus.id l) → statusId ∈ map ProjectStatus.id l →
  length l = S (length (filter (λ s, ProjectStatus.id s ≠ statusId) l)).
Proof.
  induction l as [|y l IH]; intros Hnd Hin; [by apply elem_of_nil in Hin|].
  simpl in Hnd, Hin. apply NoDup_cons in Hnd as [Hy Hnd].
  destruct (decide (ProjectStatus.id y = statusId)) as [E | E].
  - rewrite filter_cons_False by (intros H; by apply H). simpl. f_equal.
    rewrite filter_all_true; [done|]. intros z Hz Hid. apply Hy.
    rewrite E, <- Hid. by apply list_elem_of_fmap_2.
  - rewrite filter_cons_True by done. simpl. f_equal. apply IH; [done|].
    apply elem_of_cons in Hin as [-> | ?]; done.
Qed.

(** [handleDelete] asks nothing and calls nothing for an identifier that
    is no status of the list, and stops after the question when the
    user declines. Otherwise it issues the request and changes the list
    only when the backend has answered: then the page gets the list it
    was rendered with, without the statuses of that identifier, in
    their order; on failure the list stays and the error line is set.
    With the delete button enabled (more than one status) and distinct
    identifiers exactly one status goes and the list is not left empty. *)
Theorem delete_status_after_confirmation (statusId : string) (f : Forms) :
  (statusId ∉ map ProjectStatus.id (statuses (page f)) →
   ∀ confirmed, handleDelete statusId confirmed f = (f, [], None))
  ∧ (∀ f1 calls a, handleDelete statusId false f = (f1, calls, a) →
       f1 = f ∧ a = None ∧ ∀ project sid, DeleteStatus project sid ∉ calls)
  ∧ (statusId ∈ map ProjectStatus.id (statuses (page f)) →
     ∃ f1 question,
       handleDelete statusId true f
       = (f1, [Confirm question; DeleteStatus (projectId (page f)) statusId],
          Some (AwaitDeleteStatus (statuses (page f)) statusId))
       ∧ statuses (page f1) = statuses (page f)
       ∧ (let f2 := fst (settle_form (AwaitDeleteStatus (statuses (page f)) statusId)
                                     Deleted f1) in
          let rest := statuses (page f2) in
          (statusId ∉ map ProjectStatus.id rest)
          ∧ sublist rest (statuses (page f))
          ∧ (∀ s, s ∈ rest ↔ s ∈ statuses (page f) ∧ ProjectStatus.id s ≠ statusId)
          ∧ (canDelete (page f) = true →
             NoDup (map ProjectStatus.id (statuses (page f))) →
             S (length rest) = length (statuses (page f)) ∧ rest ≠ []))
       ∧ (let f2 := fst (settle_form (AwaitDeleteStatus (statuses (page f)) statusId)
                                     Failed f1) in
          statuses (page f2) = statuses (page f)
          ∧ is_Some (error (page f2)))).
Proof.
  split_and!.
  - intros Hout confirmed. unfold handleDelete.
    destruct (find _ _) as [s|] eqn:Hfind; [|done].
    apply BoardFacts.find_Some in Hfind as [Hin Hid%seq_true].
    exfalso. apply Hout. rewrite <- Hid. by apply list_elem_of_fmap_2.
  - intros f1 calls a. unfold handleDelete.
    destruct (find _ _) as [s|]; simpl; intros [= <- <- <-];
      (split_and!; [done | done |]); Gestures.not_in_trace.
  - intros Hmem. pose proof Hmem as (s0 & Hid0 & Hin0)%list_elem_of_fmap.
    unfold handleDelete.
    destruct (find _ _) as [s|] eqn:Hfind.
    2:{ exfalso. clear -Hfind Hin0 Hid0.
        induction (statuses (page f)) as [|y l IH]; [by apply elem_of_nil in Hin0|].
        simpl in Hfind. destruct (seq (ProjectStatus.id y) statusId) eqn:E; [done|].
        apply seq_false in E. apply elem_of_cons in Hin0 as [-> | ?]; [done | auto]. }
    simpl. eexists _, _. split; [done|]. split; [done|]. simpl.
    rewrite filter_ids. split.
    + split_and!.
      * intros (s' & Hid & Hs')%list_elem_of_fmap.
        apply list_elem_of_filter in Hs' as [Hne _]. done.
      * apply sublist_filter.
      * intros s'. rewrite list_elem_of_filter. tauto.
      * intros Hcan Hnd. unfold canDelete in Hcan. apply Nat.ltb_lt in Hcan.
        pose proof (filter_ids_length _ _ Hnd Hmem) as Hlen.
        split; [lia|]. intros Hnil. rewrite Hnil in Hlen. simpl in Hlen. lia.
    + split; [done | by eexists].
Qed.

Lemma delete_status_after_confirmation_witness :
  let f := mkForms Samples.settings None in
  handleDelete "s-gone" true f = (f, [], None)
  ∧ ∃ f1 question,
      handleDelete "s-review" true f
      = (f1, [Confirm question; DeleteStatus "p1" "s-review"],
         Some (AwaitDeleteStatus Samples.four_columns "s-review"))
      ∧ statuses (page (fst (settle_form
                               (AwaitDeleteStatus Samples.four_columns "s-review")
                               Deleted f1)))
        = Samples.three_columns.
Proof.
  intros f.
  destruct (delete_status_after_confirmation "s-gone" f) as (Hunknown & _).
  destruct (delete_status_after_confirmation "s-review" f) as (_ & _ & Hknown).
  split.
  - apply Hunknown. by apply (bool_decide_unpack _); vm_compute.
  - destruct Hknown as (f1 & question & Hrun & _);
      [by apply (bool_decide_unpack _); vm_compute|].
    exists f1, question. split; [exact Hrun|].
    vm_compute in Hrun. injection Hrun as <- _. reflexivity.
Defined.

(** *** Editing a status *)

(** [handleSaveEdit] does nothing without an open edit form. With one it
    sends the name, the colour and the flag of the form (as 0 or 1)
    under the identifier the form was opened on, and changes the list
    only when the backend has answered: then the status of that
    identifier is replaced by the answer, every other status and the
    length of the list are kept, and the form is closed; on failure the
    list stays, the error line is set and the form stays open. A form
    opened by [handleEdit] and saved as it is sends the name and colour
    of the status, and its flag when that is 0 or 1. *)
Theorem save_edit_replaces_one_status (f : Forms) :
  (editingStatus f = None → handleSaveEdit f = (f, [], None))
  ∧ (∀ editing, editingStatus f = Some editing →
       ∃ f1,
         handleSaveEdit f
         = (f1, [UpdateStatus (projectId (page f)) (edit_id editing)
                              (edit_name editing) (edit_color editing)
                              (if edit_isDone editing then 1 else 0)],
            Some (AwaitUpdateStatus (statuses (page f)) editing))
         ∧ statuses (page f1) = statuses (page f)
         ∧ (∀ updated,
              let f2 := fst (settle_form
                               (AwaitUpdateStatus (statuses (page f)) editing)
                               (Updated updated) f1) in
              editingStatus f2 = None
              ∧ length (statuses (page f2)) = length (statuses (page f))
              ∧ (∀ i s, statuses (page f) !! i = Some s →
                   statuses (page f2) !! i
                   = Some (if seq (ProjectStatus.id s) (edit_id editing)
                           then updated else s)))
         ∧ (let f2 := fst (settle_form
                             (AwaitUpdateStatus (statuses (page f)) editing)
                             Failed f1) in
            statuses (page f2) = statuses (page f)
            ∧ editingStatus f2 = Some editing
            ∧ is_Some (error (page f2))))
  ∧ (∀ status,
       ProjectStatus.isDone status = 0 ∨ ProjectStatus.isDone status = 1 →
       snd (fst (handleSaveEdit (handleEdit status f)))
       = [UpdateStatus (projectId (page f)) (ProjectStatus.id status)
                       (ProjectStatus.name status) (ProjectStatus.color status)
                       (ProjectStatus.isDone status)]).
Proof.
  split_and!.
  - intros Hnone. unfold handleSaveEdit. by rewrite Hnone.
  - intros editing Hsome. unfold handleSaveEdit. rewrite Hsome.
    eexists. split; [done|]. split; [done|]. simpl. split.
    + intros updated. split_and!; [done | apply length_map |].
      intros i s Hi. change (map ?g ?l) with (g <$> l).
      by rewrite list_lookup_fmap, Hi.
    + split_and!; [done | done | by eexists].
  - intros status Hflag. unfold handleSaveEdit, handleEdit. simpl.
    by destruct Hflag as [-> | ->].
Qed.

Lemma save_edit_replaces_one_status_witness :
  let f := handleEdit Samples.col_in_review (mkForms Samples.settings None) in
  let renamed := ProjectStatus.mk "s-review" "p1" "QA" "in_review" "#6B7280" 2 0 "" in
  ∃ f1 a,
    handleSaveEdit f
    = (f1, [UpdateStatus "p1" "s-review" "in_review" "#6B7280" 0], Some a)
    ∧ statuses (page (fst (settle_form a (Updated renamed) f1)))
      = [Samples.col_todo; Samples.col_in_progress; renamed; Samples.col_done].
Proof.
  intros f renamed.
  destruct (save_edit_replaces_one_status f) as (_ & Hsave & _).
  destruct (Hsave (mkEditing "s-review" "in_review" "#6B7280" false) eq_refl)
    as (f1 & Hrun & _).
  eexists f1, _. split; [exact Hrun|].
  vm_compute in Hrun. injection Hrun as <-. reflexivity.
Defined.

End Forms.

(** * Legacy statuses on the built-in columns *)

Module LegacyDefaults.
Import JS TaskBoard.

(** On the built-in columns every card without column identifier lies in
    the column of its legacy status, by slug and not by fallback: the
    four legacy statuses have their four columns. A card is in the first
    column there only if its legacy status is TODO. *)
Theorem legacy_cards_on_default_columns (task : Task) :
  truthy (Task.statusId task) = false →
  effectiveColumn DEFAULT_STATUSES task = Some (STATUS_SLUG_MAP (Task.status task))
  ∧ resolvedStatusId DEFAULT_STATUSES task = Some (STATUS_SLUG_MAP (Task.status task))
  ∧ (effectiveColumn DEFAULT_STATUSES task = Some "todo" → Task.status task = TODO).
Proof.
  intros Hid. unfold effectiveColumn, resolvedStatusId, matchingStatusId, or_else.
  rewrite Hid. destruct (Task.status task); vm_compute; split_and!; done.
Qed.

Lemma legacy_cards_on_default_columns_witness :
  effectiveColumn DEFAULT_STATUSES Samples.legacy_card = Some "in_review".
Proof.
  by destruct (legacy_cards_on_default_columns Samples.legacy_card eq_refl) as [-> _].
Defined.

End LegacyDefaults.

